(** * Flow emulator: the pending-block lifecycle and the blockchain coordinator

    A shallow embedding of [Blockchain] (package [emulator]) and of the
    lifecycle theorems of its pending block.

    Conventions.
    - Go's [(value, error)] returns are values of [result]; a function that
      returns both a value and an error (ExecuteBlock) returns a pair.
    - Methods of [*Blockchain] are computations of the state monad [M] over
      the [Blockchain] record: every mutation of a field is an explicit [put].
    - [sync.RWMutex] is modelled by the history of the calls made on it.
    - External collaborators (the storage backend, the virtual machine, the
      transaction validator, the conversion helpers, the checks of
      signatures, hashing, the clock) are interfaces: type classes whose
      methods are arbitrary functions.
    - A Go panic (an index out of range, a nil dereference) is the outcome
      [Panicked] of the call; what had been changed before it stays
      changed.
    - Logging through zerolog has no effect on the chain and is left out. *)

From stdpp Require Import gmap strings list fin_maps.
From Stdlib Require Import ZArith Lia Ascii.

Open Scope Z_scope.

(** ** Go values *)

(** Go's [(T, error)] when exactly one of the two is meaningful. *)
Inductive result (E A : Type) : Type :=
| Ok (a : A)
| Err (e : E).
Arguments Ok {E A} a.
Arguments Err {E A} e.

Definition is_Ok {E A} (r : result E A) : bool :=
  match r with Ok _ => true | Err _ => false end.

#[global] Instance result_fmap {E : Type} : FMap (result E) :=
  λ A B f r, match r with Ok a => Ok (f a) | Err e => Err e end.

(** A Go call that returns, or panics (an index out of range, a nil
    pointer or interface that is dereferenced). *)
Inductive outcome (A : Type) : Type :=
| Returned (a : A)
| Panicked.
Arguments Returned {A} a.
Arguments Panicked {A}.

(** [uint64] arithmetic wraps around. *)
Definition uint64_max : Z := 2 ^ 64 - 1.
Definition wrap64 (z : Z) : Z := z mod 2 ^ 64.

(** ** Package sdkcrypto: keys and algorithms *)

(** Keys, and the algorithms, of which the sources name the two defaults
    and, in [testAlternativeHashAlgo], SHA2_256. *)
Module sdkcrypto.

Definition PrivateKey : Type := N.
Definition PublicKey : Type := N.

Inductive SignatureAlgorithm : Type :=
| ECDSA_P256
| OtherSignatureAlgorithm (code : Z).

Inductive HashAlgorithm : Type :=
| SHA2_256
| SHA3_256
| OtherHashAlgorithm (code : Z).

#[global] Instance HashAlgorithm_eq_dec : EqDecision HashAlgorithm.
Proof. solve_decision. Defined.

End sdkcrypto.

(** [flowgo.AccountPublicKey]: the fields the sources set and read. The
    public key is an interface value, nil when it is not set. *)
Record AccountPublicKey : Type := {
  APublicKey : option sdkcrypto.PublicKey;
  ASignAlgo : sdkcrypto.SignatureAlgorithm;
  AHashAlgo : sdkcrypto.HashAlgorithm;
  AWeight : Z
}.

(** ** Package flowgo (github.com/onflow/flow-go/model/flow): data *)
Module flowgo.

(** [flow.Identifier], a 32-byte content hash. *)
Definition Identifier : Type := N.
(** [flow.Address]. *)
Definition Address : Type := N.

Record Header : Type := {
  Height : Z;            (* uint64 *)
  View : Z;              (* uint64 *)
  ParentID : Identifier;
  Timestamp : Z          (* time.Time, as an instant *)
}.

Record Payload : Type := {
  Guarantees : list Identifier   (* CollectionGuarantee.CollectionID *)
}.

Record Block : Type := {
  BHeader : Header;
  BPayload : Payload
}.

Record LightCollection : Type := {
  Transactions : list Identifier
}.

(** [flow.TransactionSignature]: the account and the index of the key
    that signed, and the signature. *)
Record TransactionSignature : Type := {
  SigAddress : Address;
  KeyIndex : N;          (* uint64 *)
  Signature : list N     (* []byte *)
}.

Record TransactionBody : Type := {
  Script : string;
  TxArguments : list string;
  ReferenceBlockID : Identifier;
  GasLimit : Z;
  ProposalKeySequenceNumber : Z;
  Payer : Address;
  PayloadSignatures : list TransactionSignature;
  EnvelopeSignatures : list TransactionSignature
}.

Record Event : Type := {
  EType : string;
  TransactionID : Identifier;
  TransactionIndex : Z;
  EventIndex : Z;
  EPayload : string
}.

Record BlockEvents : Type := {
  BlockID : Identifier;
  BlockHeight : Z;
  BlockTimestamp : Z;
  Events : list Event
}.

Record Account : Type := {
  AAddress : Address;
  Balance : Z;
  Keys : list AccountPublicKey;
  KeySeqNumbers : list Z
}.

Inductive TransactionStatus : Type :=
| TransactionStatusUnknown
| TransactionStatusPending
| TransactionStatusFinalized
| TransactionStatusExecuted
| TransactionStatusSealed
| TransactionStatusExpired.

Inductive BlockStatus : Type :=
| BlockStatusUnknown
| BlockStatusFinalized
| BlockStatusSealed.

End flowgo.

(** Content hashes of flow-go: [Header.ID()], [LightCollection.ID()] and
    [TransactionBody.ID()]. [Block.ID()] is the ID of the block's header. *)
Class Hashing : Type := {
  Header_ID : flowgo.Header → flowgo.Identifier;
  LightCollection_ID : flowgo.LightCollection → flowgo.Identifier;
  TransactionBody_ID : flowgo.TransactionBody → flowgo.Identifier
}.

Definition Block_ID `{Hashing} (b : flowgo.Block) : flowgo.Identifier :=
  Header_ID (flowgo.BHeader b).

(** ** The ledger view *)

(** Modelled from the spec: the ledger view type ([delta.View]) is declared
    outside the sources. "Versioned key-value snapshot; supports deriving a
    child view (delta starts empty, reads fall through to parent) and
    flattening accumulated writes into a delta for persistence." *)
Record LedgerView : Type := {
  parentRegisters : gmap N N;
  Delta : gmap N N
}.

Definition NewChild (v : LedgerView) : LedgerView :=
  {| parentRegisters := Delta v ∪ parentRegisters v; Delta := ∅ |}.

Definition viewGet (v : LedgerView) (k : N) : option N :=
  (Delta v ∪ parentRegisters v) !! k.

Definition viewSet (k x : N) (v : LedgerView) : LedgerView :=
  {| parentRegisters := parentRegisters v; Delta := <[k := x]> (Delta v) |}.

(** ** Package storage: the [Store] interface *)
Module storage.

(** Errors a backend returns. [ErrNotFound] is the sentinel; a backend may
    wrap it ([fmt.Errorf("...: %w", err)]), and [errors.Is] looks through
    the wrapping. *)
Inductive error : Type :=
| ErrNotFound
| Wrapped (msg : string) (inner : error)
| Failure (msg : string).

Fixpoint errors_Is_ErrNotFound (e : error) : bool :=
  match e with
  | ErrNotFound => true
  | Wrapped _ inner => errors_Is_ErrNotFound inner
  | Failure _ => false
  end.

Record StorableTransactionResult : Type := {
  ErrorCode : Z;
  ErrorMessage : string;
  Logs : list string;
  Events : list flowgo.Event
}.

(** [storage.Store]. Reads return a value or an error; [CommitBlock]
    returns the backend's next state and its error, if any. *)
Class Store (S : Type) : Type := {
  LatestBlock : S → result error flowgo.Block;
  BlockByHeight : S → Z → result error flowgo.Block;
  BlockByID : S → flowgo.Identifier → result error flowgo.Block;
  CollectionByID : S → flowgo.Identifier → result error flowgo.LightCollection;
  TransactionByID : S → flowgo.Identifier → result error flowgo.TransactionBody;
  TransactionResultByID :
    S → flowgo.Identifier → result error StorableTransactionResult;
  EventsByHeight : S → Z → string → result error (list flowgo.Event);
  LedgerViewByHeight : S → Z → LedgerView;
  CommitBlock :
    S → flowgo.Block → list flowgo.LightCollection →
    gmap flowgo.Identifier flowgo.TransactionBody →
    gmap flowgo.Identifier StorableTransactionResult →
    gmap N N → list flowgo.Event → S * option error
}.

End storage.

(** ** Package fvm: the virtual machine *)
Module fvm.

(** [fvmerrors]: a coded error. *)
Record CodedError : Type := {
  Code : Z;
  Message : string
}.

Definition ErrCodeAccountNotFoundError : Z := 1201.

(** [fvmerrors.IsAccountNotFoundError(err)]; false on a nil error. *)
Definition IsAccountNotFoundError (err : option CodedError) : bool :=
  match err with
  | Some e => Code e =? ErrCodeAccountNotFoundError
  | None => false
  end.

(** [fvm.Context]: the chain parameters are fixed; the block header is the
    option the emulator sets per block ([fvm.WithBlockHeader]). *)
Record Context : Type := {
  BlockHeader : option flowgo.Header
}.

Definition NewContextFromParent (parent : Context) (header : flowgo.Header) : Context :=
  {| BlockHeader := Some header |}.

(** [*fvm.TransactionProcedure]. [Err] is the transaction-level error: a
    procedure whose [Err] is set has reverted. *)
Record TransactionProcedure : Type := {
  ID : flowgo.Identifier;
  Transaction : flowgo.TransactionBody;
  TxIndex : Z;                     (* uint32 *)
  Logs : list string;
  Events : list flowgo.Event;
  GasUsed : Z;
  Err : option CodedError
}.

(** [fvm.Transaction(txBody, txIndex)]. *)
Definition NewTransaction `{Hashing} (txBody : flowgo.TransactionBody) (txIndex : Z)
  : TransactionProcedure :=
  {| ID := TransactionBody_ID txBody; Transaction := txBody; TxIndex := txIndex;
     Logs := []; Events := []; GasUsed := 0; Err := None |}.

(** [*fvm.ScriptProcedure]. *)
Record ScriptProcedure : Type := {
  SScript : string;
  SArguments : list string;
  Value : option string;
  SLogs : list string;
  SEvents : list flowgo.Event;
  SGasUsed : Z;
  SErr : option CodedError
}.

(** [fvm.Script(script).WithArguments(arguments...)]. *)
Definition NewScript (script : string) (arguments : list string) : ScriptProcedure :=
  {| SScript := script; SArguments := arguments; Value := None; SLogs := [];
     SEvents := []; SGasUsed := 0; SErr := None |}.

(** [vm.Run(ctx, proc, view) error] updates the procedure and the view in
    place and returns a fatal error or nil: the functions below return the
    updated procedure and view next to the error. [vm.GetAccount] returns an
    account and an error. *)
Class VirtualMachine : Type := {
  RunTransaction :
    Context → TransactionProcedure → LedgerView →
    TransactionProcedure * LedgerView * option CodedError;
  RunScript :
    Context → ScriptProcedure → LedgerView →
    ScriptProcedure * LedgerView * option CodedError;
  GetAccount :
    Context → flowgo.Address → LedgerView →
    option flowgo.Account * option CodedError
}.

End fvm.

(** ** Package types and the emulator's errors *)

(** The emulator's error values. The error types are declared outside the
    sources; each constructor is one of the types the sources build, with
    the fields they set. *)
Inductive error : Type :=
| BackendError (e : storage.error)            (* a storage error returned as it is *)
| StorageError (inner : storage.error)         (* &StorageError{err} *)
| BlockNotFoundByHeightError (Height : Z)
| BlockNotFoundByIDError (ID : flowgo.Identifier)
| CollectionNotFoundError (ID : flowgo.Identifier)
| TransactionNotFoundError (ID : flowgo.Identifier)
| AccountNotFoundError (Address : flowgo.Address)
| DuplicateTransactionError (TxID : flowgo.Identifier)
| PendingBlockMidExecutionError (BlockID : flowgo.Identifier)
| PendingBlockCommitBeforeExecutionError (BlockID : flowgo.Identifier)
| PendingBlockTransactionsExhaustedError (BlockID : flowgo.Identifier)
| InvalidArgumentError (msg : string)          (* NewInvalidArgumentError(msg) *)
| InternalError (msg : string)                 (* NewInternalError(msg) *)
| Errorf (msg : string) (wrapped : option storage.error)   (* fmt.Errorf *)
| FlowError (e : fvm.CodedError)               (* an error of the virtual machine *)
| ValidationError (msg : string)               (* convertAccessError(err) *)
| ConversionError (msg : string).              (* an error of package convert *)

(** The [NotFoundError] interface: the five not-found kinds. *)
Definition isNotFoundError (e : error) : bool :=
  match e with
  | BlockNotFoundByHeightError _ | BlockNotFoundByIDError _
  | CollectionNotFoundError _ | TransactionNotFoundError _
  | AccountNotFoundError _ => true
  | _ => false
  end.

Definition isInvalidArgumentError (e : error) : bool :=
  match e with InvalidArgumentError _ => true | _ => false end.

Module types.

Record TransactionResultDebug : Type := {
  DebugMessage : string
}.

(** [types.TransactionResult]. *)
Record TransactionResult : Type := {
  TransactionID : flowgo.Identifier;
  ComputationUsed : Z;
  Error : option error;
  Logs : list string;
  Events : list flowgo.Event;
  Debug : option TransactionResultDebug
}.

Definition Succeeded (r : TransactionResult) : bool :=
  match Error r with None => true | Some _ => false end.
Definition Reverted (r : TransactionResult) : bool := negb (Succeeded r).

Definition withDebug (d : option TransactionResultDebug) (r : TransactionResult)
  : TransactionResult :=
  {| TransactionID := TransactionID r; ComputationUsed := ComputationUsed r;
     Error := Error r; Logs := Logs r; Events := Events r; Debug := d |}.

(** [types.ScriptResult]. *)
Record ScriptResult : Type := {
  ScriptID : flowgo.Identifier;
  Value : option string;
  SError : option error;
  SLogs : list string;
  SEvents : list flowgo.Event;
  SComputationUsed : Z
}.

End types.

Module access.

(** [access.TransactionResult]; fields the sources leave at their zero
    value are zero here. *)
Record TransactionResult : Type := {
  Status : flowgo.TransactionStatus;
  StatusCode : Z;
  ErrorMessage : string;
  Events : list flowgo.Event;
  TransactionID : flowgo.Identifier;
  BlockHeight : Z
}.

Definition withStatus (s : flowgo.TransactionStatus) : TransactionResult :=
  {| Status := s; StatusCode := 0; ErrorMessage := EmptyString; Events := [];
     TransactionID := 0%N; BlockHeight := 0 |}.

End access.

(** Package convert and the helpers of the emulator whose bodies are outside
    the sources. *)
Class Convert : Type := {
  VMTransactionResultToEmulator :
    fvm.TransactionProcedure → result error types.TransactionResult;
  ToStorableResult :
    fvm.TransactionProcedure → result error storage.StorableTransactionResult;
  VMErrorToEmulator : fvm.CodedError → error;
  FlowEventsToSDK : list flowgo.Event → result error (list flowgo.Event);
  HashToID : string → flowgo.Identifier            (* SHA3-256 of the script *)
}.

(** The error codes of [fvmerrors] that [SendTransaction] and
    [debugSignatureError] name, and [fvmerrors.IsAccountNotFoundError]
    applied to a [*types.FlowError] (whether it sees the coded error inside
    is decided by the error types, which are declared outside the
    sources). *)
Class FlowErrorCodes : Type := {
  ErrCodeAccountAuthorizationError : Z;
  ErrCodeInvalidEnvelopeSignatureError : Z;
  ErrCodeInvalidPayloadSignatureError : Z;
  ErrCodeInvalidProposalSignatureError : Z;
  ErrCodeAccountPublicKeyNotFoundError : Z;
  ErrCodeInvalidProposalSeqNumberError : Z;
  ErrCodeInvalidAddressError : Z;
  FlowError_IsAccountNotFoundError : fvm.CodedError → bool
}.

(** What [debugSignatureError] and [testAlternativeHashAlgo] call outside
    the sources: [fvmerrors.HasErrorCode]; the messages a transaction's
    signatures sign; the check of a signature under a hashing algorithm
    ([fvmcrypto.NewPrefixedHashing] with the transaction tag, then
    [PublicKey.Verify], whose error the sources drop); and the two
    constructors of package [types]. *)
Class SignatureChecks : Type := {
  HasErrorCode : error → Z → bool;
  EnvelopeMessage : flowgo.TransactionBody → list N;
  PayloadMessage : flowgo.TransactionBody → list N;
  Verify :
    sdkcrypto.PublicKey → list N → list N → sdkcrypto.HashAlgorithm → bool;
  NewTransactionInvalidHashAlgo :
    AccountPublicKey → flowgo.Address → sdkcrypto.HashAlgorithm →
    types.TransactionResultDebug;
  NewTransactionInvalidSignature :
    flowgo.TransactionBody → types.TransactionResultDebug
}.

(** What [newPendingBlock] reads besides its arguments: the clock and the
    random view increase. *)
Class Environment : Type := {
  now : flowgo.Block → Z;
  freshView : flowgo.Block → Z
}.

(** ** The pending block *)

(** [IndexedTransactionResult]: [convertToSealedResults] reads its
    [Transaction] field. *)
Record IndexedTransactionResult : Type := {
  Transaction : fvm.TransactionProcedure;
  Index : Z
}.

(** Modelled from the spec: the pending block (type [pendingBlock], its
    constructor and its methods) is outside the sources. "Owns one
    block-in-progress (header fields fixed at creation: parent, height =
    parent height+1, a freshly computed view bound), an ordered queue of
    admitted transactions with their bodies, a single shared mutable child
    ledger view, and a mapping from transaction ID to its result plus its
    position", with an execution cursor. *)
Record pendingBlock : Type := {
  height : Z;
  view : Z;
  parentID : flowgo.Identifier;
  timestamp : Z;
  transactions : list flowgo.TransactionBody;     (* the queue, in arrival order *)
  transactionResults : gmap flowgo.Identifier IndexedTransactionResult;
  ledgerView : LedgerView;
  events : list flowgo.Event;
  index : nat                                      (* the execution cursor *)
}.

Module PendingBlock.
Section Methods.
Context `{Hashing} `{Environment}.

(** Modelled from the spec: the constructor. "Created fresh on blockchain
    initialization or immediately after a commit", Open with the cursor at
    0, "height = parent height+1", on a child of the given ledger view. *)
Definition newPendingBlock (prevBlock : flowgo.Block) (ledgerView : LedgerView)
  : pendingBlock :=
  {| height := flowgo.Height (flowgo.BHeader prevBlock) + 1;
     view := freshView prevBlock;
     parentID := Block_ID prevBlock;
     timestamp := now prevBlock;
     transactions := [];
     transactionResults := ∅;
     ledgerView := NewChild ledgerView;
     events := [];
     index := 0%nat |}.

Definition Size (b : pendingBlock) : nat := length (transactions b).

(** Modelled from the spec: "a pending block with zero transactions". *)
Definition Empty (b : pendingBlock) : bool := Nat.eqb (Size b) 0.

(** Modelled from the spec: "Executing (cursor > 0 ...)"; the sources say
    "If index > 0, pending block has begun execution". *)
Definition ExecutionStarted (b : pendingBlock) : bool := Nat.ltb 0 (index b).

(** Modelled from the spec: "Complete (cursor == queue length)". *)
Definition ExecutionComplete (b : pendingBlock) : bool := Nat.eqb (index b) (Size b).

Definition transactionIDs (b : pendingBlock) : list flowgo.Identifier :=
  TransactionBody_ID <$> transactions b.

(** Modelled from the spec: the collection grouping of the block: no
    collection for an empty block ("a block with zero collections"), else
    one collection of the queued transaction IDs in admission order. *)
Definition Collections (b : pendingBlock) : list flowgo.LightCollection :=
  match transactions b with
  | [] => []
  | _ => [ {| flowgo.Transactions := transactionIDs b |} ]
  end.

(** Modelled from the spec: "the header fields are fixed at creation and
    never mutated; only the payload (collection set) is finalized". *)
Definition Block (b : pendingBlock) : flowgo.Block :=
  {| flowgo.BHeader :=
       {| flowgo.Height := height b; flowgo.View := view b;
          flowgo.ParentID := parentID b; flowgo.Timestamp := timestamp b |};
     flowgo.BPayload :=
       {| flowgo.Guarantees := LightCollection_ID <$> Collections b |} |}.

Definition ID (b : pendingBlock) : flowgo.Identifier := Block_ID (Block b).

(** Read accessors used at commit time. *)
Definition Transactions (b : pendingBlock)
  : gmap flowgo.Identifier flowgo.TransactionBody :=
  list_to_map ((λ tx, (TransactionBody_ID tx, tx)) <$> transactions b).
Definition TransactionResults (b : pendingBlock)
  : gmap flowgo.Identifier IndexedTransactionResult := transactionResults b.
Definition LedgerDelta (b : pendingBlock) : gmap N N := Delta (ledgerView b).
Definition Events (b : pendingBlock) : list flowgo.Event := events b.

Definition ContainsTransaction (b : pendingBlock) (txID : flowgo.Identifier) : bool :=
  bool_decide (txID ∈ transactionIDs b).

Definition GetTransaction (b : pendingBlock) (txID : flowgo.Identifier)
  : option flowgo.TransactionBody :=
  List.find (λ tx, N.eqb (TransactionBody_ID tx) txID) (transactions b).

(** Modelled from the spec: "appends to queue in arrival order". The
    lifecycle checks are the caller's ([Blockchain.AddTransaction]). *)
Definition AddTransaction (tx : flowgo.TransactionBody) (b : pendingBlock)
  : pendingBlock :=
  {| height := height b; view := view b; parentID := parentID b;
     timestamp := timestamp b;
     transactions := transactions b ++ [tx];
     transactionResults := transactionResults b;
     ledgerView := ledgerView b; events := events b; index := index b |}.

Definition withLedgerView (v : LedgerView) (b : pendingBlock) : pendingBlock :=
  {| height := height b; view := view b; parentID := parentID b;
     timestamp := timestamp b; transactions := transactions b;
     transactionResults := transactionResults b;
     ledgerView := v; events := events b; index := index b |}.

(** The callback [ExecuteNextTransaction] receives: it runs the virtual
    machine on the view it is given (updated in place, so it is returned)
    and yields a procedure or a fatal error. *)
Definition executor : Type :=
  LedgerView → Z → flowgo.TransactionBody →
  result error fvm.TransactionProcedure * LedgerView.

(** Modelled from the spec: "advances the cursor by one", "stores the
    result keyed by transaction ID" with its position, "accumulating
    events/results". *)
Definition record (tx : flowgo.TransactionBody) (tp : fvm.TransactionProcedure)
    (v : LedgerView) (b : pendingBlock) : pendingBlock :=
  {| height := height b; view := view b; parentID := parentID b;
     timestamp := timestamp b; transactions := transactions b;
     transactionResults :=
       <[TransactionBody_ID tx :=
           {| Transaction := tp; Index := Z.of_nat (index b) |}]>
         (transactionResults b);
     ledgerView := v;
     events := events b ++ fvm.Events tp;
     index := Datatypes.S (index b) |}.

(** Modelled from the spec: "takes the transaction at the cursor, invokes
    the VM Adapter against the block's shared child ledger view with the
    transaction index as its declared position, advances the cursor by one
    regardless of execution outcome, stores the result keyed by transaction
    ID. A fatal error from the VM Adapter aborts without advancing the
    cursor and is propagated to the caller"; "fails with
    TransactionsExhausted if cursor == queue length". *)
Definition ExecuteNextTransaction (execute : executor) (b : pendingBlock)
  : result error fvm.TransactionProcedure * pendingBlock :=
  match transactions b !! index b with
  | None => (Err (PendingBlockTransactionsExhaustedError (ID b)), b)
  | Some tx =>
      let '(r, v) := execute (ledgerView b) (Z.of_nat (index b)) tx in
      match r with
      | Err e => (Err e, withLedgerView v b)
      | Ok tp => (Ok tp, record tx tp v b)
      end
  end.

End Methods.
End PendingBlock.

(** ** strings.TrimSpace *)

(** Go strings are UTF-8 byte sequences; [unicode.IsSpace] holds of the six
    ASCII white-space characters, U+0085, U+00A0, U+1680, U+2000..U+200A,
    U+2028, U+2029, U+202F, U+205F and U+3000. *)
Definition bytes_of_string (s : string) : list N :=
  N_of_ascii <$> String.list_ascii_of_string s.

Definition isSpace1 (a : N) : bool :=
  ((9 <=? a) && (a <=? 13) || (a =? 32))%N.
Definition isSpace2 (a b : N) : bool :=
  ((a =? 194) && ((b =? 133) || (b =? 160)))%N.
Definition isSpace3 (a b c : N) : bool :=
  ((a =? 225) && (b =? 154) && (c =? 128)
   || (a =? 226) && (b =? 128)
      && ((128 <=? c) && (c <=? 138) || (c =? 168) || (c =? 169) || (c =? 175))
   || (a =? 226) && (b =? 129) && (c =? 159)
   || (a =? 227) && (b =? 128) && (c =? 128))%N.

Fixpoint trimLeftSpace (l : list N) : list N :=
  match l with
  | [] => []
  | a :: r1 =>
      if isSpace1 a then trimLeftSpace r1 else
      match r1 with
      | [] => l
      | b :: r2 =>
          if isSpace2 a b then trimLeftSpace r2 else
          match r2 with
          | [] => l
          | c :: r3 => if isSpace3 a b c then trimLeftSpace r3 else l
          end
      end
  end.

(** The same scan from the right end, over the reversed bytes. *)
Fixpoint trimLeftSpaceRev (l : list N) : list N :=
  match l with
  | [] => []
  | c :: r1 =>
      if isSpace1 c then trimLeftSpaceRev r1 else
      match r1 with
      | [] => l
      | b :: r2 =>
          if isSpace2 b c then trimLeftSpaceRev r2 else
          match r2 with
          | [] => l
          | a :: r3 => if isSpace3 a b c then trimLeftSpaceRev r3 else l
          end
      end
  end.

Definition TrimSpace (s : string) : list N :=
  rev (trimLeftSpaceRev (rev (trimLeftSpace (bytes_of_string s)))).

(** [validateEventType]. *)
Definition validateEventType (eventType : string) : option error :=
  if Nat.eqb (length (TrimSpace eventType)) 0
  then Some (Errorf "invalid query: eventType must not be empty" None)
  else None.

(** ** sync.RWMutex *)

(** The calls made on the mutex, oldest first. *)
Inductive RWMutexCall : Type := Lock | Unlock | RLock | RUnlock.

#[global] Instance RWMutexCall_eq_dec : EqDecision RWMutexCall.
Proof. solve_decision. Defined.

(** ** Blockchain *)
Section Emulator.
Context {S : Type} `{!storage.Store S} `{!fvm.VirtualMachine}
        `{!Hashing} `{!Environment} `{!Convert}
        `{!FlowErrorCodes} `{!SignatureChecks}.

(** [Blockchain]. The virtual machine, the validator and the logger are
    interfaces of the section; [storage_] and [pendingBlock_] are the
    fields [storage] and [pendingBlock]. *)
Record Blockchain : Type := {
  storage_ : S;                        (* committed chain state *)
  mu : list RWMutexCall;               (* mutex protecting pending block *)
  pendingBlock_ : pendingBlock;
  vmCtx : fvm.Context;
  autoMine : bool
}.

(** [access.TransactionValidator] reads the chain through [blocks]: it is
    a function of the blockchain it is called on. *)
Class Validation : Type := {
  Validate : Blockchain → flowgo.TransactionBody → option string;
  convertAccessError : string → error
}.
Context `{!Validation}.

(** *** The state monad of the methods of [*Blockchain] *)
Definition M (A : Type) : Type := Blockchain → A * Blockchain.

#[local] Instance M_ret : MRet M := λ A a b, (a, b).
#[local] Instance M_bind : MBind M := λ A B f m b, let '(a, b') := m b in f a b'.

Definition get : M Blockchain := λ b, (b, b).
Definition gets {A} (f : Blockchain → A) : M A := λ b, (f b, b).
Definition put (b : Blockchain) : M unit := λ _, (tt, b).

Definition setPendingBlock (p : pendingBlock) : M unit :=
  b ← get;
  put {| storage_ := storage_ b; mu := mu b; pendingBlock_ := p;
         vmCtx := vmCtx b; autoMine := autoMine b |}.

Definition setStorage (s : S) : M unit :=
  b ← get;
  put {| storage_ := s; mu := mu b; pendingBlock_ := pendingBlock_ b;
         vmCtx := vmCtx b; autoMine := autoMine b |}.

Definition call (c : RWMutexCall) : M unit :=
  b ← get;
  put {| storage_ := storage_ b; mu := mu b ++ [c];
         pendingBlock_ := pendingBlock_ b;
         vmCtx := vmCtx b; autoMine := autoMine b |}.

(** [b.mu.Lock(); defer b.mu.Unlock()] around a body, and the read side. *)
Definition locked {A} (body : M A) : M A :=
  call Lock;; r ← body; call Unlock;; mret r.
Definition rlocked {A} (body : M A) : M A :=
  call RLock;; r ← body; call RUnlock;; mret r.

(** Whether a computation acquires the write lock. *)
Definition acquiresLock {A} (m : M A) (b : Blockchain) : bool :=
  bool_decide (Lock ∈ drop (length (mu b)) (mu (m b).2)).

Definition mapErr {A} (f : storage.error → error) (r : result storage.error A)
  : result error A :=
  match r with Ok a => Ok a | Err e => Err (f e) end.

(** *** Lookups *)

(** [GetLatestBlock]. *)
Definition GetLatestBlock : M (result error flowgo.Block * flowgo.BlockStatus) :=
  b ← get;
  match storage.LatestBlock (storage_ b) with
  | Err err => mret (Err (StorageError err), flowgo.BlockStatusUnknown)
  | Ok block => mret (Ok block, flowgo.BlockStatusSealed)
  end.

(** [getBlockByHeight]. *)
Definition getBlockByHeight (height : Z) : M (result error flowgo.Block) :=
  b ← get;
  match storage.BlockByHeight (storage_ b) height with
  | Err err =>
      if storage.errors_Is_ErrNotFound err
      then mret (Err (BlockNotFoundByHeightError height))
      else mret (Err (BackendError err))
  | Ok block => mret (Ok block)
  end.

(** [GetBlockByHeight]. *)
Definition GetBlockByHeight (height : Z)
  : M (result error flowgo.Block * flowgo.BlockStatus) :=
  r ← getBlockByHeight height;
  match r with
  | Err err => mret (Err err, flowgo.BlockStatusUnknown)
  | Ok block => mret (Ok block, flowgo.BlockStatusSealed)
  end.

(** [GetBlockByID]. *)
Definition GetBlockByID (id : flowgo.Identifier)
  : M (result error flowgo.Block * flowgo.BlockStatus) :=
  b ← get;
  match storage.BlockByID (storage_ b) id with
  | Err err =>
      if storage.errors_Is_ErrNotFound err
      then mret (Err (BlockNotFoundByIDError id), flowgo.BlockStatusUnknown)
      else mret (Err (StorageError err), flowgo.BlockStatusUnknown)
  | Ok block => mret (Ok block, flowgo.BlockStatusSealed)
  end.

(** [GetCollectionByID]. *)
Definition GetCollectionByID (colID : flowgo.Identifier)
  : M (result error flowgo.LightCollection) :=
  rlocked (
    b ← get;
    match storage.CollectionByID (storage_ b) colID with
    | Err err =>
        if storage.errors_Is_ErrNotFound err
        then mret (Err (CollectionNotFoundError colID))
        else mret (Err (StorageError err))
    | Ok col => mret (Ok col)
    end).

(** [GetTransaction]: "first looks in the pending block, then the current
    blockchain state". *)
Definition GetTransaction (txID : flowgo.Identifier)
  : M (result error flowgo.TransactionBody) :=
  rlocked (
    b ← get;
    match PendingBlock.GetTransaction (pendingBlock_ b) txID with
    | Some pendingTx => mret (Ok pendingTx)
    | None =>
        match storage.TransactionByID (storage_ b) txID with
        | Err err =>
            if storage.errors_Is_ErrNotFound err
            then mret (Err (TransactionNotFoundError txID))
            else mret (Err (StorageError err))
        | Ok tx => mret (Ok tx)
        end
    end).

(** [GetTransactionResult]. *)
Definition GetTransactionResult (txID : flowgo.Identifier)
  : M (result error access.TransactionResult) :=
  rlocked (
    b ← get;
    if PendingBlock.ContainsTransaction (pendingBlock_ b) txID
    then mret (Ok (access.withStatus flowgo.TransactionStatusPending))
    else
      match storage.TransactionResultByID (storage_ b) txID with
      | Err err =>
          if storage.errors_Is_ErrNotFound err
          then mret (Ok (access.withStatus flowgo.TransactionStatusUnknown))
          else mret (Err (StorageError err))
      | Ok storedResult =>
          mret (Ok {| access.Status := flowgo.TransactionStatusSealed;
                      access.StatusCode := storage.ErrorCode storedResult;
                      access.ErrorMessage := storage.ErrorMessage storedResult;
                      access.Events := storage.Events storedResult;
                      access.TransactionID := txID;
                      access.BlockHeight := 0 |})
      end).

(** [GetAccountAtBlockHeight]. *)
Definition GetAccountAtBlockHeight (address : flowgo.Address) (blockHeight : Z)
  : M (result error (option flowgo.Account)) :=
  b ← get;
  let '(account, err) :=
    fvm.GetAccount (vmCtx b) address
      (storage.LedgerViewByHeight (storage_ b) blockHeight) in
  if fvm.IsAccountNotFoundError err
  then mret (Err (AccountNotFoundError address))
  else mret (Ok account).

(** [GetAccount]. *)
Definition GetAccount (address : flowgo.Address)
  : M (result error (option flowgo.Account)) :=
  '(r, _) ← GetLatestBlock;
  match r with
  | Err err => mret (Err err)
  | Ok latestBlock =>
      GetAccountAtBlockHeight address (flowgo.Height (flowgo.BHeader latestBlock))
  end.

(** *** Signature errors *)

(** The loop of [testAlternativeHashAlgo] over SHA2_256 and SHA3_256. The
    key's own algorithm is skipped; [key.PublicKey.Verify] is a call on an
    interface value, which panics when the value is nil. *)
Fixpoint alternativeHashAlgos (key : AccountPublicKey) (address : flowgo.Address)
    (sig : flowgo.TransactionSignature) (msg : list N)
    (algos : list sdkcrypto.HashAlgorithm)
  : outcome (option types.TransactionResultDebug) :=
  match algos with
  | [] => Returned None
  | algo :: algos' =>
      if bool_decide (AHashAlgo key = algo)
      then alternativeHashAlgos key address sig msg algos'   (* skip valid hash algo *)
      else
        match APublicKey key with
        | None => Panicked
        | Some publicKey =>
            if Verify publicKey (flowgo.Signature sig) msg algo
            then Returned (Some (NewTransactionInvalidHashAlgo key address algo))
            else alternativeHashAlgos key address sig msg algos'
        end
  end.

(** [testAlternativeHashAlgo]: "tries to verify the signature with
    alternative hashing algorithm". [GetAccount] can return a nil account
    with a nil error (the last line of [GetAccountAtBlockHeight]), and
    [acc.Keys[sig.KeyIndex]] is read with no check of the account or of
    the index: both cases panic. *)
Definition testAlternativeHashAlgo (sig : flowgo.TransactionSignature) (msg : list N)
  : M (outcome (option types.TransactionResultDebug)) :=
  r ← GetAccount (flowgo.SigAddress sig);
  match r with
  | Err _ => mret (Returned None)
  | Ok None => mret Panicked
  | Ok (Some acc) =>
      match flowgo.Keys acc !! N.to_nat (flowgo.KeyIndex sig) with
      | None => mret Panicked
      | Some key =>
          mret (alternativeHashAlgos key (flowgo.AAddress acc) sig msg
                  [sdkcrypto.SHA2_256; sdkcrypto.SHA3_256])
      end
  end.

(** The two loops of [debugSignatureError], over the signatures of the
    envelope and over those of the payload: the first debug value that is
    not nil ends the loop. *)
Fixpoint signaturesLoop (msg : list N) (sigs : list flowgo.TransactionSignature)
  : M (outcome (option types.TransactionResultDebug)) :=
  match sigs with
  | [] => mret (Returned None)
  | sig :: sigs' =>
      d ← testAlternativeHashAlgo sig msg;
      match d with
      | Panicked => mret Panicked
      | Returned (Some debug) => mret (Returned (Some debug))
      | Returned None => signaturesLoop msg sigs'
      end
  end.

(** [debugSignatureError]: "tries to unwrap error to the root and test for
    invalid hashing algorithms". *)
Definition debugSignatureError (err : error) (tx : flowgo.TransactionBody)
  : M (outcome types.TransactionResultDebug) :=
  envelope ←
    (if HasErrorCode err ErrCodeInvalidEnvelopeSignatureError
     then signaturesLoop (EnvelopeMessage tx) (flowgo.EnvelopeSignatures tx)
     else mret (Returned None));
  match envelope with
  | Panicked => mret Panicked
  | Returned (Some debug) => mret (Returned debug)
  | Returned None =>
      payload ←
        (if HasErrorCode err ErrCodeInvalidPayloadSignatureError
         then signaturesLoop (PayloadMessage tx) (flowgo.PayloadSignatures tx)
         else mret (Returned None));
      match payload with
      | Panicked => mret Panicked
      | Returned (Some debug) => mret (Returned debug)
      | Returned None => mret (Returned (NewTransactionInvalidSignature tx))
      end
  end.

(** *** Events *)

(** [GetEventsByHeight]. *)
Definition GetEventsByHeight (blockHeight : Z) (eventType : string)
  : M (result error (list flowgo.Event)) :=
  b ← get;
  mret (mapErr BackendError (storage.EventsByHeight (storage_ b) blockHeight eventType)).

(** The loop of [GetEventsForHeightRange]:
    [for height := startHeight; height <= endHeight; height++], the counter
    a [uint64]. [fuel] bounds the iterations; [None] says the fuel ran out
    (the counter wrapped around before passing [endHeight]). *)
Fixpoint heightRangeLoop (fuel : nat) (eventType : string) (height endHeight : Z)
    (results : list flowgo.BlockEvents)
  : M (option (result error (list flowgo.BlockEvents))) :=
  if endHeight <? height then mret (Some (Ok results)) else
  match fuel with
  | O => mret None
  | Datatypes.S fuel' =>
      '(r, _) ← GetBlockByHeight height;
      match r with
      | Err err => mret (Some (Err err))
      | Ok block =>
          ev ← GetEventsByHeight height eventType;
          match ev with
          | Err err => mret (Some (Err err))
          | Ok events =>
              let result :=
                {| flowgo.BlockID := Block_ID block;
                   flowgo.BlockHeight := flowgo.Height (flowgo.BHeader block);
                   flowgo.BlockTimestamp := flowgo.Timestamp (flowgo.BHeader block);
                   flowgo.Events := events |} in
              heightRangeLoop fuel' eventType (wrap64 (height + 1)) endHeight
                (results ++ [result])
          end
      end
  end.

(** [GetEventsForHeightRange]. *)
Definition GetEventsForHeightRange (eventType : string) (startHeight endHeight : Z)
  : M (option (result error (list flowgo.BlockEvents))) :=
  match validateEventType eventType with
  | Some err => mret (Some (Err err))
  | None =>
      '(r, _) ← GetLatestBlock;
      match r with
      | Err err => mret (Some (Err err))
      | Ok latestBlock =>
          let latest := flowgo.Height (flowgo.BHeader latestBlock) in
          (* if end height is not set, or higher than latest, use latest *)
          let endHeight :=
            if (endHeight =? 0) || (latest <? endHeight) then latest else endHeight in
          (* check for invalid queries *)
          if endHeight <? startHeight
          then mret (Some (Err (InvalidArgumentError "startHeight > endHeight")))
          else heightRangeLoop (Z.to_nat (endHeight - startHeight + 1))
                 eventType startHeight endHeight []
      end
  end.

(** *** Scripts *)

(** [executeScriptAtBlock]. The view the virtual machine has updated is
    a local of the function. *)
Definition executeScriptAtBlock (script : string) (arguments : list string)
    (requestedBlock : flowgo.Block) : M (result error types.ScriptResult) :=
  b ← get;
  let requestedLedgerView :=
    storage.LedgerViewByHeight (storage_ b)
      (flowgo.Height (flowgo.BHeader requestedBlock)) in
  let header := flowgo.BHeader requestedBlock in
  let blockContext := fvm.NewContextFromParent (vmCtx b) header in
  let '(scriptProc, _, err) :=
    fvm.RunScript blockContext (fvm.NewScript script arguments) requestedLedgerView in
  match err with
  | Some err => mret (Err (FlowError err))
  | None =>
      let scriptID := HashToID script in
      match FlowEventsToSDK (fvm.SEvents scriptProc) with
      | Err err => mret (Err err)
      | Ok events =>
          let '(scriptError, convertedValue) :=
            match fvm.SErr scriptProc with
            | None => (None, fvm.Value scriptProc)
            | Some e => (Some (VMErrorToEmulator e), None)
            end in
          mret (Ok {| types.ScriptID := scriptID;
                      types.Value := convertedValue;
                      types.SError := scriptError;
                      types.SLogs := fvm.SLogs scriptProc;
                      types.SEvents := events;
                      types.SComputationUsed := fvm.SGasUsed scriptProc |})
      end
  end.

(** [ExecuteScript]. *)
Definition ExecuteScript (script : string) (arguments : list string)
  : M (result error types.ScriptResult) :=
  rlocked (
    '(r, _) ← GetLatestBlock;
    match r with
    | Err err => mret (Err err)
    | Ok latestBlock => executeScriptAtBlock script arguments latestBlock
    end).

(** [ExecuteScriptAtBlockID]. *)
Definition ExecuteScriptAtBlockID (script : string) (arguments : list string)
    (blockID : flowgo.Identifier) : M (result error types.ScriptResult) :=
  '(r, _) ← GetBlockByID blockID;
  match r with
  | Err err => mret (Err err)
  | Ok requestedBlock => executeScriptAtBlock script arguments requestedBlock
  end.

(** [ExecuteScriptAtBlockHeight]. *)
Definition ExecuteScriptAtBlockHeight (script : string) (arguments : list string)
    (blockHeight : Z) : M (result error types.ScriptResult) :=
  rlocked (
    r ← getBlockByHeight blockHeight;
    match r with
    | Err err => mret (Err err)
    | Ok requestedBlock => executeScriptAtBlock script arguments requestedBlock
    end).

(** *** The pending block lifecycle *)

(** [AddTransaction]: validates a transaction and adds it to the current
    pending block. *)
Definition AddTransaction (tx : flowgo.TransactionBody) : M (option error) :=
  b ← get;
  (* If index > 0, pending block has begun execution *)
  if PendingBlock.ExecutionStarted (pendingBlock_ b)
  then mret (Some (PendingBlockMidExecutionError (PendingBlock.ID (pendingBlock_ b))))
  else if PendingBlock.ContainsTransaction (pendingBlock_ b) (TransactionBody_ID tx)
  then mret (Some (DuplicateTransactionError (TransactionBody_ID tx)))
  else
    match storage.TransactionByID (storage_ b) (TransactionBody_ID tx) with
    | Ok _ =>
        (* Found the transaction, this is a duplicate *)
        mret (Some (DuplicateTransactionError (TransactionBody_ID tx)))
    | Err err =>
        if negb (storage.errors_Is_ErrNotFound err)
        then mret (Some (Errorf "failed to check storage for transaction" (Some err)))
        else
          match Validate b tx with
          | Some err => mret (Some (convertAccessError err))
          | None =>
              (* add transaction to pending block *)
              setPendingBlock (PendingBlock.AddTransaction tx (pendingBlock_ b));;
              mret None
          end
    end.

(** The callback [executeNextTransaction] hands to the pending block. *)
Definition runTransaction (ctx : fvm.Context) : PendingBlock.executor :=
  λ ledgerView txIndex txBody,
    let tx := fvm.NewTransaction txBody txIndex in
    let '(tx, ledgerView, err) := fvm.RunTransaction ctx tx ledgerView in
    match err with
    | Some err => (Err (FlowError err), ledgerView)
    | None => (Ok tx, ledgerView)
    end.

(** [executeNextTransaction]. The pending block is updated before the
    result is converted and its error looked into, so it stays updated
    when [debugSignatureError] panics. *)
Definition executeNextTransaction (ctx : fvm.Context)
  : M (outcome (result error types.TransactionResult)) :=
  b ← get;
  (* check if there are remaining txs to be executed *)
  if PendingBlock.ExecutionComplete (pendingBlock_ b)
  then mret (Returned (Err (PendingBlockTransactionsExhaustedError
                              (PendingBlock.ID (pendingBlock_ b)))))
  else
    let '(r, p) :=
      PendingBlock.ExecuteNextTransaction (runTransaction ctx) (pendingBlock_ b) in
    setPendingBlock p;;
    match r with
    | Err err => mret (Returned (Err err))     (* fail fast if fatal error occurs *)
    | Ok tp =>
        match VMTransactionResultToEmulator tp with
        | Err err => mret (Returned (Err err))
        | Ok tr =>
            (* if transaction error exist try to further debug what was the problem *)
            match types.Error tr with
            | Some e =>
                d ← debugSignatureError e (fvm.Transaction tp);
                match d with
                | Panicked => mret Panicked
                | Returned debug =>
                    mret (Returned (Ok (types.withDebug (Some debug) tr)))
                end
            | None => mret (Returned (Ok tr))
            end
        end
    end.

(** The loop of [ExecuteBlock]: "continue executing transactions until
    execution is complete". [None] says the fuel ran out; a panic of a step
    ends the loop. *)
Fixpoint executeLoop (fuel : nat) (ctx : fvm.Context)
    (results : list types.TransactionResult)
  : M (option (outcome (list types.TransactionResult * option error))) :=
  b ← get;
  if PendingBlock.ExecutionComplete (pendingBlock_ b)
  then mret (Some (Returned (results, None)))
  else
    match fuel with
    | O => mret None
    | Datatypes.S fuel' =>
        r ← executeNextTransaction ctx;
        match r with
        | Panicked => mret (Some Panicked)
        | Returned (Err err) => mret (Some (Returned (results, Some err)))
        | Returned (Ok result) => executeLoop fuel' ctx (results ++ [result])
        end
    end.

(** [ExecuteBlock]. *)
Definition ExecuteBlock
  : M (option (outcome (list types.TransactionResult * option error))) :=
  b ← get;
  (* empty blocks do not require execution, treat as a no-op *)
  if PendingBlock.Empty (pendingBlock_ b) then mret (Some (Returned ([], None))) else
  let header := flowgo.BHeader (PendingBlock.Block (pendingBlock_ b)) in
  let blockContext := fvm.NewContextFromParent (vmCtx b) header in
  (* cannot execute a block that has already executed *)
  if PendingBlock.ExecutionComplete (pendingBlock_ b)
  then mret (Some (Returned ([], Some (PendingBlockTransactionsExhaustedError
                                         (PendingBlock.ID (pendingBlock_ b))))))
  else
    executeLoop
      (Datatypes.S (PendingBlock.Size (pendingBlock_ b) - index (pendingBlock_ b)))
      blockContext [].

(** [ExecuteNextTransaction]; the unlock is deferred, so it runs when the
    step panics too. *)
Definition ExecuteNextTransaction
  : M (outcome (result error types.TransactionResult)) :=
  locked (
    b ← get;
    let header := flowgo.BHeader (PendingBlock.Block (pendingBlock_ b)) in
    let blockContext := fvm.NewContextFromParent (vmCtx b) header in
    executeNextTransaction blockContext).

(** [convertToSealedResults]. The sources range over a Go map; here the
    entries are visited in the order of [map_to_list]. *)
Definition convertToSealedResults
    (results : gmap flowgo.Identifier IndexedTransactionResult)
  : result error (gmap flowgo.Identifier storage.StorableTransactionResult) :=
  foldr (λ '(id, result) acc,
           match acc with
           | Err err => Err err
           | Ok output =>
               match ToStorableResult (Transaction result) with
               | Err err => Err err
               | Ok temp => Ok (<[id := temp]> output)
               end
           end)
        (Ok ∅) (map_to_list results).

(** [commitBlock]. *)
Definition commitBlock : M (result error flowgo.Block) :=
  b ← get;
  let p := pendingBlock_ b in
  (* pending block cannot be committed before execution starts (unless empty) *)
  if negb (PendingBlock.ExecutionStarted p) && negb (PendingBlock.Empty p)
  then mret (Err (PendingBlockCommitBeforeExecutionError (PendingBlock.ID p)))
  (* pending block cannot be committed before execution completes *)
  else if PendingBlock.ExecutionStarted p && negb (PendingBlock.ExecutionComplete p)
  then mret (Err (PendingBlockMidExecutionError (PendingBlock.ID p)))
  else
    let block := PendingBlock.Block p in
    let collections := PendingBlock.Collections p in
    let transactions := PendingBlock.Transactions p in
    match convertToSealedResults (PendingBlock.TransactionResults p) with
    | Err err => mret (Err err)
    | Ok transactionResults =>
        let ledgerDelta := PendingBlock.LedgerDelta p in
        let events := PendingBlock.Events p in
        (* commit the pending block to storage *)
        let '(s, err) :=
          storage.CommitBlock (storage_ b) block collections transactions
            transactionResults ledgerDelta events in
        setStorage s;;
        match err with
        | Some err => mret (Err (BackendError err))
        | None =>
            let ledgerView :=
              storage.LedgerViewByHeight s (flowgo.Height (flowgo.BHeader block)) in
            (* reset pending block using current block and ledger state *)
            setPendingBlock (PendingBlock.newPendingBlock block ledgerView);;
            mret (Ok block)
        end
    end.

(** [CommitBlock]: seals the current pending block and saves it to storage. *)
Definition CommitBlock : M (result error flowgo.Block) :=
  locked commitBlock.

(** [executeAndCommitBlock]: the block, the results and the error. *)
Definition executeAndCommitBlock
  : M (option (outcome (option flowgo.Block * option (list types.TransactionResult)
                        * option error))) :=
  r ← ExecuteBlock;
  match r with
  | None => mret None
  | Some Panicked => mret (Some Panicked)
  | Some (Returned (results, Some err)) => mret (Some (Returned (None, None, Some err)))
  | Some (Returned (results, None)) =>
      c ← commitBlock;
      match c with
      | Err err => mret (Some (Returned (None, Some results, Some err)))
      | Ok block => mret (Some (Returned (Some block, Some results, None)))
      end
  end.

(** [ExecuteAndCommitBlock]; the unlock is deferred. *)
Definition ExecuteAndCommitBlock := locked executeAndCommitBlock.

(** [ResetPendingBlock]: clears the transactions in pending block. *)
Definition ResetPendingBlock : M (option error) :=
  locked (
    b ← get;
    match storage.LatestBlock (storage_ b) with
    | Err err => mret (Some (StorageError err))
    | Ok latestBlock =>
        let latestLedgerView :=
          storage.LedgerViewByHeight (storage_ b)
            (flowgo.Height (flowgo.BHeader latestBlock)) in
        (* reset pending block using latest committed block and ledger state *)
        setPendingBlock (PendingBlock.newPendingBlock latestBlock latestLedgerView);;
        mret None
    end).

(** *** Execution in admission order, as a walk of the queue

    "It executes the queued transactions in order until complete, and if a
    fatal error occurs it stops immediately and returns the partial list of
    results collected before the failure together with that error": the
    queue is walked as a list; each transaction is run by the virtual
    machine at its position in the block, on the view that the one before
    it left; its result is converted and collected; the first error ends
    the walk, and so does a panic of [debugSignatureError], which is read
    on the blockchain [b]. [ExecuteBlock_in_order] compares the loop of the
    code, which takes each transaction from under the cursor of the pending
    block, with this walk. *)
Fixpoint executeInOrder (b : Blockchain) (ctx : fvm.Context)
    (queue : list flowgo.TransactionBody) (position : nat) (view : LedgerView)
  : outcome (list types.TransactionResult * option error) :=
  match queue with
  | [] => Returned ([], None)
  | tx :: queue' =>
      let '(tp, view', fatal) :=
        fvm.RunTransaction ctx (fvm.NewTransaction tx (Z.of_nat position)) view in
      match fatal with
      | Some e => Returned ([], Some (FlowError e))
      | None =>
          match VMTransactionResultToEmulator tp with
          | Err e => Returned ([], Some e)
          | Ok tr =>
              let collected :=
                match types.Error tr with
                | None => Returned tr
                | Some e =>
                    match (debugSignatureError e (fvm.Transaction tp) b).1 with
                    | Panicked => Panicked
                    | Returned debug => Returned (types.withDebug (Some debug) tr)
                    end
                end in
              match collected with
              | Panicked => Panicked
              | Returned result =>
                  match executeInOrder b ctx queue' (Datatypes.S position) view' with
                  | Panicked => Panicked
                  | Returned (results, err) => Returned (result :: results, err)
                  end
              end
          end
      end
  end.

(** The view the walk ends on when no transaction meets a fatal error. *)
Fixpoint viewInOrder (ctx : fvm.Context) (queue : list flowgo.TransactionBody)
    (position : nat) (view : LedgerView) : LedgerView :=
  match queue with
  | [] => view
  | tx :: queue' =>
      viewInOrder ctx queue' (Datatypes.S position)
        (fvm.RunTransaction ctx (fvm.NewTransaction tx (Z.of_nat position)) view).1.2
  end.

(** What a step of execution returns for the procedure that the pending
    block hands back: the converted result, completed with the debug value
    when it holds an error. *)
Definition collected (b : Blockchain) (tp : fvm.TransactionProcedure)
  : outcome (result error types.TransactionResult) :=
  match VMTransactionResultToEmulator tp with
  | Err err => Returned (Err err)
  | Ok tr =>
      match types.Error tr with
      | Some e =>
          match (debugSignatureError e (fvm.Transaction tp) b).1 with
          | Panicked => Panicked
          | Returned debug => Returned (Ok (types.withDebug (Some debug) tr))
          end
      | None => Returned (Ok tr)
      end
  end.

End Emulator.

(** ** The states of a pending block *)

(** The pending blocks the emulator can hold: created on a committed block,
    grown by admissions while execution has not started (the guards of
    [AddTransaction]), advanced by execution steps. *)
Inductive lifecycle `{Hashing} `{Environment} (prev : flowgo.Block)
  : pendingBlock → Prop :=
| lifecycle_new (v : LedgerView) :
    lifecycle prev (PendingBlock.newPendingBlock prev v)
| lifecycle_add (p : pendingBlock) (tx : flowgo.TransactionBody) :
    lifecycle prev p →
    PendingBlock.ExecutionStarted p = false →
    PendingBlock.ContainsTransaction p (TransactionBody_ID tx) = false →
    lifecycle prev (PendingBlock.AddTransaction tx p)
| lifecycle_exec (p : pendingBlock) (execute : PendingBlock.executor) :
    lifecycle prev p →
    lifecycle prev (PendingBlock.ExecuteNextTransaction execute p).2.

(** The part of a blockchain that is chain state: everything but the
    history of the mutex. *)
Definition chainState {S : Type} (b : Blockchain (S := S))
  : S * pendingBlock * fvm.Context * bool :=
  (storage_ b, pendingBlock_ b, vmCtx b, autoMine b).

(** The ID under which a transaction's result is recorded, and the IDs of
    the transactions already executed. *)
Definition executedIDs `{Hashing} (p : pendingBlock) : list flowgo.Identifier :=
  take (index p) (PendingBlock.transactionIDs p).

(** The entry of an event query for one height: the block stored at the
    height and the events stored for it under the type. *)
Definition blockEventsAt {S : Type} `{!storage.Store S} `{!Hashing}
    (s : S) (eventType : string) (h : Z) (entry : flowgo.BlockEvents) : Prop :=
  ∃ block events,
    storage.BlockByHeight s h = Ok block
    ∧ storage.EventsByHeight s h eventType = Ok events
    ∧ entry = {| flowgo.BlockID := Block_ID block;
                 flowgo.BlockHeight := flowgo.Height (flowgo.BHeader block);
                 flowgo.BlockTimestamp := flowgo.Timestamp (flowgo.BHeader block);
                 flowgo.Events := events |}.


(** The entry of an event query for one block ID: the block stored under
    the ID and the events stored for that block's height under the type. *)
Definition blockEventsOf {S : Type} `{!storage.Store S} `{!Hashing}
    (s : S) (eventType : string) (id : flowgo.Identifier)
    (entry : flowgo.BlockEvents) : Prop :=
  ∃ block events,
    storage.BlockByID s id = Ok block
    ∧ storage.EventsByHeight s (flowgo.Height (flowgo.BHeader block)) eventType
      = Ok events
    ∧ entry = {| flowgo.BlockID := Header_ID (flowgo.BHeader block);
                 flowgo.BlockHeight := flowgo.Height (flowgo.BHeader block);
                 flowgo.BlockTimestamp := flowgo.Timestamp (flowgo.BHeader block);
                 flowgo.Events := events |}.

(** The error an event query for one block ID fails with. *)
Definition blockEventsFail {S : Type} `{!storage.Store S}
    (s : S) (eventType : string) (id : flowgo.Identifier) (e : error) : Prop :=
  (∃ se, storage.BlockByID s id = Err se
         ∧ e = if storage.errors_Is_ErrNotFound se
               then BlockNotFoundByIDError id else StorageError se)
  ∨ (∃ block se,
       storage.BlockByID s id = Ok block
       ∧ storage.EventsByHeight s (flowgo.Height (flowgo.BHeader block)) eventType
         = Err se
       ∧ e = BackendError se).

(** A store that holds a block consistently: the block found at a height
    has that height and is found under its own ID. *)
Definition blockAt {S : Type} `{!storage.Store S} `{!Hashing}
    (s : S) (h : Z) (block : flowgo.Block) : Prop :=
  storage.BlockByHeight s h = Ok block
  ∧ storage.BlockByID s (Block_ID block) = Ok block
  ∧ flowgo.Height (flowgo.BHeader block) = h.

(** The blockchain after more calls on its mutex. *)
Definition withCalls {S : Type} (b : Blockchain (S := S)) (calls : list RWMutexCall)
  : Blockchain (S := S) :=
  {| storage_ := storage_ b; mu := mu b ++ calls; pendingBlock_ := pendingBlock_ b;
     vmCtx := vmCtx b; autoMine := autoMine b |}.

(** A computation that only reads: all it changes is the history of the
    mutex, by calls on the read side, and what it returns depends on the
    chain state alone. *)
Definition reader {S A : Type} (m : M (S := S) A) : Prop :=
  ∀ b,
    (∃ calls, (m b).2 = withCalls b calls
              ∧ Forall (λ c, c = RLock ∨ c = RUnlock) calls)
    ∧ ∀ b', chainState b' = chainState b → (m b').1 = (m b).1.

(** The collection the store holds under an ID, and the error
    [GetCollectionByID] makes of a failure of the store. *)
Definition collectionOf {S : Type} `{!storage.Store S}
    (s : S) (id : flowgo.Identifier) (col : flowgo.LightCollection) : Prop :=
  storage.CollectionByID s id = Ok col.

Definition collectionFail {S : Type} `{!storage.Store S}
    (s : S) (id : flowgo.Identifier) (e : error) : Prop :=
  ∃ se, storage.CollectionByID s id = Err se
        ∧ e = if storage.errors_Is_ErrNotFound se
              then CollectionNotFoundError id else StorageError se.

(** A blockchain whose pending block is in a state of the lifecycle. *)
Definition inLifecycle {S : Type} `{!Hashing} `{!Environment}
    (b : Blockchain (S := S)) : Prop :=
  ∃ prev, lifecycle prev (pendingBlock_ b).

(** What execution leaves alone: the store, the context, the auto-mine
    flag, the history of the mutex, and of the pending block its header
    fields and its queue. *)
Definition sameQueue (p p' : pendingBlock) : Prop :=
  height p' = height p ∧ view p' = view p ∧ parentID p' = parentID p
  ∧ timestamp p' = timestamp p ∧ transactions p' = transactions p.

Definition executionFrame {S : Type} (b b' : Blockchain (S := S)) : Prop :=
  storage_ b' = storage_ b ∧ vmCtx b' = vmCtx b ∧ autoMine b' = autoMine b
  ∧ mu b' = mu b ∧ sameQueue (pendingBlock_ b) (pendingBlock_ b').

(** ** Submission, auto-mine and the queries by block *)

(** [google.golang.org/grpc/codes]: the two codes the queries by block use. *)
Inductive Code : Type := codes_NotFound | codes_Internal.

(** The error of a query by block: an error of the emulator passed on as
    it is, or [status.Error(code, msg)]. *)
Inductive queryError : Type :=
| Passed (err : error)
| StatusError (code : Code) (msg : string).

(** [err.Error()], the text of an error. *)
Class ErrorText : Type := { Error_ : error → string }.

Section Queries.
Context {S : Type} `{!storage.Store S} `{!fvm.VirtualMachine}
        `{!Hashing} `{!Environment} `{!Convert}
        `{!FlowErrorCodes} `{!SignatureChecks} `{!Validation (S := S)}
        `{!ErrorText}.

#[local] Existing Instance M_ret.
#[local] Existing Instance M_bind.

(** [EnableAutoMine] and [DisableAutoMine]. *)
Definition EnableAutoMine : M (S := S) unit :=
  b ← get;
  put {| storage_ := storage_ b; mu := mu b; pendingBlock_ := pendingBlock_ b;
         vmCtx := vmCtx b; autoMine := true |}.

Definition DisableAutoMine : M (S := S) unit :=
  b ← get;
  put {| storage_ := storage_ b; mu := mu b; pendingBlock_ := pendingBlock_ b;
         vmCtx := vmCtx b; autoMine := false |}.

(** [SendTransaction]: submits a transaction to the network. The outer
    option is that of [executeAndCommitBlock] (the fuel of its loop), and
    so is the panic. *)
Definition SendTransaction (flowTx : flowgo.TransactionBody)
  : M (S := S) (option (outcome (option error))) :=
  err ← AddTransaction flowTx;
  match err with
  | Some err =>
      mret (Some (Returned (Some
        match err with
        | DuplicateTransactionError _ => InvalidArgumentError (Error_ err)
        | FlowError t =>
            if bool_decide (fvm.Code t ∈
                 [ ErrCodeAccountAuthorizationError;
                   ErrCodeInvalidEnvelopeSignatureError;
                   ErrCodeInvalidPayloadSignatureError;
                   ErrCodeInvalidProposalSignatureError;
                   ErrCodeAccountPublicKeyNotFoundError;
                   ErrCodeInvalidProposalSeqNumberError;
                   ErrCodeInvalidAddressError ])
            then InvalidArgumentError (Error_ err)
            else if FlowError_IsAccountNotFoundError t
            then InvalidArgumentError (Error_ err)
            else InternalError (Error_ err)
        | _ => InternalError (Error_ err)
        end)))
  | None =>
      b ← get;
      if autoMine b then
        r ← executeAndCommitBlock;
        match r with
        | None => mret None
        | Some Panicked => mret (Some Panicked)
        | Some (Returned (_, _, Some err)) => mret (Some (Returned (Some err)))
        | Some (Returned (_, _, None)) => mret (Some (Returned None))
        end
      else mret (Some (Returned None))
  end.

(** The loop of [GetEventsForBlockIDs], [results] the slice it appends to. *)
Fixpoint blockIDsLoop (eventType : string) (blockIDs : list flowgo.Identifier)
    (results : list flowgo.BlockEvents)
  : M (S := S) (result error (list flowgo.BlockEvents)) :=
  match blockIDs with
  | [] => mret (Ok results)
  | blockID :: blockIDs' =>
      '(r, _) ← GetBlockByID blockID;
      match r with
      | Err err => mret (Err err)
      | Ok block =>
          ev ← GetEventsByHeight (flowgo.Height (flowgo.BHeader block)) eventType;
          match ev with
          | Err err => mret (Err err)
          | Ok events =>
              blockIDsLoop eventType blockIDs'
                (results ++
                 [ {| flowgo.BlockID := Header_ID (flowgo.BHeader block);
                      flowgo.BlockHeight := flowgo.Height (flowgo.BHeader block);
                      flowgo.BlockTimestamp := flowgo.Timestamp (flowgo.BHeader block);
                      flowgo.Events := events |} ])
          end
      end
  end.

(** [GetEventsForBlockIDs]. *)
Definition GetEventsForBlockIDs (eventType : string)
    (blockIDs : list flowgo.Identifier)
  : M (S := S) (result error (list flowgo.BlockEvents)) :=
  match validateEventType eventType with
  | Some err => mret (Err err)
  | None => blockIDsLoop eventType blockIDs []
  end.

(** The two loops that [GetTransactionsByBlockID] and
    [GetTransactionResultsByBlockID] share word for word but for the lookup
    of the inner one ([GetTransaction], [GetTransactionResult]): over the
    transaction IDs of a collection, and over the collection IDs of the
    block. [res] is the named result [result] they append to. *)
Fixpoint transactionsLoop {A} (lookup : flowgo.Identifier → M (S := S) (result error A))
    (transactionIDs : list flowgo.Identifier) (res : list A)
  : M (S := S) (result error (list A)) :=
  match transactionIDs with
  | [] => mret (Ok res)
  | transactionID :: transactionIDs' =>
      r ← lookup transactionID;
      match r with
      | Err err => mret (Err err)
      | Ok transaction => transactionsLoop lookup transactionIDs' (res ++ [transaction])
      end
  end.

Fixpoint collectionsLoop {A} (lookup : flowgo.Identifier → M (S := S) (result error A))
    (collectionIDs : list flowgo.Identifier) (res : list A)
  : M (S := S) (result error (list A)) :=
  match collectionIDs with
  | [] => mret (Ok res)
  | collectionID :: collectionIDs' =>
      c ← GetCollectionByID collectionID;
      match c with
      | Err err => mret (Err err)
      | Ok collection =>
          r ← transactionsLoop lookup (flowgo.Transactions collection) res;
          match r with
          | Err err => mret (Err err)
          | Ok res' => collectionsLoop lookup collectionIDs' res'
          end
      end
  end.

(** The body the two functions share: the block by its ID, its lookup
    error turned into a gRPC status, then the loops over
    [block.Payload.Index().CollectionIDs], the collection IDs of the
    payload's guarantees. *)
Definition byBlockID {A} (lookup : flowgo.Identifier → M (S := S) (result error A))
    (id : flowgo.Identifier) : M (S := S) (result queryError (list A)) :=
  '(r, _) ← GetBlockByID id;
  match r with
  | Err err =>
      if isNotFoundError err
      then mret (Err (StatusError codes_NotFound (Error_ err)))
      else mret (Err (StatusError codes_Internal (Error_ err)))
  | Ok block =>
      let collectionIDs := flowgo.Guarantees (flowgo.BPayload block) in
      r ← collectionsLoop lookup collectionIDs [];
      match r with
      | Err err => mret (Err (Passed err))
      | Ok res => mret (Ok res)
      end
  end.

(** [GetTransactionsByBlockID]. *)
Definition GetTransactionsByBlockID (id : flowgo.Identifier)
  : M (S := S) (result queryError (list flowgo.TransactionBody)) :=
  byBlockID GetTransaction id.

(** [GetTransactionResultsByBlockID]. *)
Definition GetTransactionResultsByBlockID (id : flowgo.Identifier)
  : M (S := S) (result queryError (list access.TransactionResult)) :=
  byBlockID GetTransactionResult id.

(** [GetTransactionResultByIndex], [index] a [uint32]; [results[index]]
    panics when the index is out of range. *)
Definition GetTransactionResultByIndex (id : flowgo.Identifier) (index : Z)
  : M (S := S) (outcome (result queryError access.TransactionResult)) :=
  r ← GetTransactionResultsByBlockID id;
  match r with
  | Err err => mret (Returned (Err err))
  | Ok results =>
      if Z.of_nat (length results) mod 2 ^ 32 <=? index
      then mret (Returned (Err (StatusError codes_NotFound "TransactionResult not found")))
      else
        match results !! Z.to_nat index with
        | Some r => mret (Returned (Ok r))
        | None => mret Panicked
        end
  end.

End Queries.

(** ** Configuration and start-up *)

(** [flowgo.ChainID], a string, and the two chains the sources name. *)
Definition ChainID : Type := string.
Definition flowgo_Emulator : ChainID := "flow-emulator".
Definition flowgo_MonotonicEmulator : ChainID := "flow-emulator-monotonic".

(** [ServiceKey]. *)
Record ServiceKey : Type := {
  SKIndex : Z;
  SKAddress : flowgo.Address;
  SKSequenceNumber : Z;
  SKPrivateKey : option sdkcrypto.PrivateKey;
  SKPublicKey : option sdkcrypto.PublicKey;
  SKHashAlgo : sdkcrypto.HashAlgorithm;
  SKSigAlgo : sdkcrypto.SignatureAlgorithm;
  SKWeight : Z
}.

(** [sdk.AccountKey]. *)
Record AccountKey : Type := {
  AKIndex : Z;
  AKPublicKey : option sdkcrypto.PublicKey;
  AKSigAlgo : sdkcrypto.SignatureAlgorithm;
  AKHashAlgo : sdkcrypto.HashAlgorithm;
  AKWeight : Z;
  AKSequenceNumber : Z
}.

(** The options of [fvm.NewContext] that [configureFVM] passes. *)
Inductive fvmOption : Type :=
| WithChain (chain : ChainID)
| WithBlocks
| WithContractDeploymentRestricted (restricted : bool)
| WithContractRemovalRestricted (restricted : bool)
| WithGasLimit (limit : Z)
| WithCadenceLogging (enabled : bool)
| WithAccountStorageLimit (enabled : bool)
| WithTransactionFeesEnabled_ (enabled : bool)
| WithReusableCadenceRuntimePool
| WithLogger_ (logger : string)
| WithAuthorizationChecksEnabled (enabled : bool)
| WithSequenceNumberCheckAndIncrementEnabled (enabled : bool).

(** The options of [fvm.Bootstrap] that [configureBootstrapProcedure]
    passes, and the procedure. *)
Inductive BootstrapProcedureOption : Type :=
| WithInitialTokenSupply (supply : Z)
| WithRestrictedAccountCreationEnabled (enabled : bool)
| WithAccountCreationFee (fee : Z)
| WithMinimumStorageReservation_ (reservation : Z)
| WithStorageMBPerFLOW_ (mb : Z)
| WithTransactionFee (surgeFactor inclusionEffortCost executionEffortCost : Z)
| WithExecutionEffortWeights (weights : list (string * Z)).

Record BootstrapProcedure : Type := {
  ServiceAccountPublicKey : AccountPublicKey;
  BootstrapOptions : list BootstrapProcedureOption
}.

(** [access.TransactionValidationOptions]. *)
Record TransactionValidationOptions : Type := {
  Expiry : Z;
  ExpiryBuffer : Z;
  AllowEmptyReferenceBlockID : bool;
  AllowUnknownReferenceBlockID : bool;
  MaxGasLimit : Z;
  CheckScriptsParse : bool;
  MaxTransactionByteSize : Z;
  MaxCollectionByteSize : Z
}.

(** What start-up takes from outside the sources: the in-memory store of
    [sqlite.New], key generation and derivation, the service address of a
    chain and its genesis block, the constants of [fvm], [flowgo] and
    [sdk], the contexts of [fvm], and the run of the bootstrap procedure
    on a ledger view (which it updates in place). *)
Class Platform (S : Type) : Type := {
  sqlite_New : string → result string S;
  GeneratePrivateKey :
    sdkcrypto.SignatureAlgorithm → string → result string sdkcrypto.PrivateKey;
  PrivateKey_PublicKey : sdkcrypto.PrivateKey → sdkcrypto.PublicKey;
  DecodePublicKey :
    sdkcrypto.SignatureAlgorithm → sdkcrypto.PublicKey → option sdkcrypto.PublicKey;
  ServiceAddress : ChainID → flowgo.Address;
  Genesis : ChainID → flowgo.Block;
  AccountKeyWeightThreshold : Z;
  DefaultMaxTransactionGasLimit : Z;
  DefaultMinimumStorageReservation : Z;
  DefaultStorageMBPerFLOW : Z;
  DefaultMaxTransactionByteSize : Z;
  DefaultMaxCollectionByteSize : Z;
  NewContext : list fvmOption → fvm.Context;
  NewContextFromParent_WithAccountStorageLimit : fvm.Context → bool → fvm.Context;
  Run_Bootstrap : fvm.Context → BootstrapProcedure → LedgerView → LedgerView * option string
}.

(** The errors of start-up: an error of the store as it is, or
    [fmt.Errorf("failed to bootstrap execution state: %w", err)]. *)
Inductive startError : Type :=
| StoreError (err : storage.error)
| BootstrapFailed (msg : string) (err : string).

Section Startup.
Context {S : Type} `{!storage.Store S} `{!Hashing} `{!Environment} `{!Platform S}.

(** [ServiceKey.AccountKey]. *)
Definition ServiceKey_AccountKey (s : ServiceKey) : AccountKey :=
  let publicKey := SKPublicKey s in
  let publicKey :=
    match SKPrivateKey s with
    | Some privateKey => Some (PrivateKey_PublicKey privateKey)
    | None => publicKey
    end in
  {| AKIndex := SKIndex s; AKPublicKey := publicKey; AKSigAlgo := SKSigAlgo s;
     AKHashAlgo := SKHashAlgo s; AKWeight := SKWeight s;
     AKSequenceNumber := SKSequenceNumber s |}.

Definition defaultServiceKeyPrivateKeySeed : string :=
  "elephant ears space cowboy octopus rodeo potato cannon pineapple".
Definition DefaultServiceKeySigAlgo : sdkcrypto.SignatureAlgorithm := sdkcrypto.ECDSA_P256.
Definition DefaultServiceKeyHashAlgo : sdkcrypto.HashAlgorithm := sdkcrypto.SHA3_256.

(** [GenerateDefaultServiceKey]; it panics when the key cannot be
    generated. The fields it does not set have their zero values. *)
Definition GenerateDefaultServiceKey (sigAlgo : sdkcrypto.SignatureAlgorithm)
    (hashAlgo : sdkcrypto.HashAlgorithm) : outcome ServiceKey :=
  match GeneratePrivateKey sigAlgo defaultServiceKeyPrivateKeySeed with
  | Err _ => Panicked
  | Ok privateKey =>
      Returned {| SKIndex := 0; SKAddress := 0%N; SKSequenceNumber := 0;
                  SKPrivateKey := Some privateKey; SKPublicKey := None;
                  SKHashAlgo := hashAlgo; SKSigAlgo := sigAlgo; SKWeight := 0 |}
  end.

(** [DefaultServiceKey]. *)
Definition DefaultServiceKey : outcome ServiceKey :=
  GenerateDefaultServiceKey DefaultServiceKeySigAlgo DefaultServiceKeyHashAlgo.

(** [config]: a set of configuration options for an emulated blockchain.
    [cadence.UFix64] is the number of 1e-8 units. *)
Record config : Type := {
  ServiceKey_ : ServiceKey;
  Store_ : option S;
  SimpleAddresses : bool;
  GenesisTokenSupply : Z;
  TransactionMaxGasLimit : Z;
  ScriptGasLimit : Z;
  TransactionExpiry : Z;
  StorageLimitEnabled : bool;
  TransactionFeesEnabled : bool;
  ContractRemovalEnabled : bool;
  MinimumStorageReservation : Z;
  StorageMBPerFLOW : Z;
  Logger : option string;
  TransactionValidationEnabled : bool;
  ChainID_ : ChainID;
  AutoMine : bool
}.

(** [config.GetStore]; it panics when the in-memory store cannot be made. *)
Definition GetStore (conf : config) : outcome S :=
  match Store_ conf with
  | None =>
      match sqlite_New ":memory:" with
      | Err _ => Panicked
      | Ok store => Returned store
      end
  | Some store => Returned store
  end.

(** [config.GetChainID]. *)
Definition GetChainID (conf : config) : ChainID :=
  if SimpleAddresses conf then flowgo_MonotonicEmulator else ChainID_ conf.

(** [config.GetServiceKey]. *)
Definition GetServiceKey (conf : config) : ServiceKey :=
  let serviceKey := ServiceKey_ conf in
  {| SKIndex := SKIndex serviceKey;
     SKAddress := ServiceAddress (GetChainID conf);
     SKSequenceNumber := SKSequenceNumber serviceKey;
     SKPrivateKey := SKPrivateKey serviceKey;
     SKPublicKey := SKPublicKey serviceKey;
     SKHashAlgo := SKHashAlgo serviceKey;
     SKSigAlgo := SKSigAlgo serviceKey;
     SKWeight := AccountKeyWeightThreshold |}.

Definition defaultGenesisTokenSupply : Z := 1000000000 * 10 ^ 8.   (* "1000000000.0" *)
Definition defaultScriptGasLimit : Z := 100000.
Definition defaultTransactionMaxGasLimit : Z := DefaultMaxTransactionGasLimit.

(** [defaultConfig]: the default configuration for an emulated blockchain. *)
Definition defaultConfig : outcome config :=
  match DefaultServiceKey with
  | Panicked => Panicked
  | Returned serviceKey =>
      Returned
        {| ServiceKey_ := serviceKey;
           Store_ := None;
           SimpleAddresses := false;
           GenesisTokenSupply := defaultGenesisTokenSupply;
           ScriptGasLimit := defaultScriptGasLimit;
           TransactionMaxGasLimit := defaultTransactionMaxGasLimit;
           MinimumStorageReservation := DefaultMinimumStorageReservation;
           StorageMBPerFLOW := DefaultStorageMBPerFLOW;
           TransactionExpiry := 0;
           StorageLimitEnabled := true;
           TransactionFeesEnabled := false;
           ContractRemovalEnabled := false;
           Logger := None;
           TransactionValidationEnabled := true;
           ChainID_ := flowgo_Emulator;
           AutoMine := false |}
  end.

(** [Option]: a function applying a change to the emulator config. *)
Definition Option : Type := config → config.

(** [WithLogger] sets the logger. *)
Definition WithLogger (logger : option string) : Option := λ c,
  {| ServiceKey_ := ServiceKey_ c; Store_ := Store_ c;
     SimpleAddresses := SimpleAddresses c;
     GenesisTokenSupply := GenesisTokenSupply c;
     TransactionMaxGasLimit := TransactionMaxGasLimit c;
     ScriptGasLimit := ScriptGasLimit c; TransactionExpiry := TransactionExpiry c;
     StorageLimitEnabled := StorageLimitEnabled c;
     TransactionFeesEnabled := TransactionFeesEnabled c;
     ContractRemovalEnabled := ContractRemovalEnabled c;
     MinimumStorageReservation := MinimumStorageReservation c;
     StorageMBPerFLOW := StorageMBPerFLOW c; Logger := logger;
     TransactionValidationEnabled := TransactionValidationEnabled c;
     ChainID_ := ChainID_ c; AutoMine := AutoMine c |}.

(** [WithServicePublicKey] sets the service key from a public key: a new
    [ServiceKey] with these three fields, the others zero. *)
Definition WithServicePublicKey (servicePublicKey : option sdkcrypto.PublicKey)
    (sigAlgo : sdkcrypto.SignatureAlgorithm) (hashAlgo : sdkcrypto.HashAlgorithm) : Option := λ c,
  {|
     ServiceKey_ := {| SKIndex := 0; SKAddress := 0%N; SKSequenceNumber := 0;
                    SKPrivateKey := None; SKPublicKey := servicePublicKey;
                    SKHashAlgo := hashAlgo; SKSigAlgo := sigAlgo; SKWeight := 0 |};
     Store_ := Store_ c; SimpleAddresses := SimpleAddresses c;
     GenesisTokenSupply := GenesisTokenSupply c;
     TransactionMaxGasLimit := TransactionMaxGasLimit c;
     ScriptGasLimit := ScriptGasLimit c; TransactionExpiry := TransactionExpiry c;
     StorageLimitEnabled := StorageLimitEnabled c;
     TransactionFeesEnabled := TransactionFeesEnabled c;
     ContractRemovalEnabled := ContractRemovalEnabled c;
     MinimumStorageReservation := MinimumStorageReservation c;
     StorageMBPerFLOW := StorageMBPerFLOW c; Logger := Logger c;
     TransactionValidationEnabled := TransactionValidationEnabled c;
     ChainID_ := ChainID_ c; AutoMine := AutoMine c |}.

(** [WithServicePrivateKey] sets the service key from private key. *)
Definition WithServicePrivateKey (privateKey : sdkcrypto.PrivateKey)
    (sigAlgo : sdkcrypto.SignatureAlgorithm) (hashAlgo : sdkcrypto.HashAlgorithm) : Option := λ c,
  {|
     ServiceKey_ := {| SKIndex := 0; SKAddress := 0%N; SKSequenceNumber := 0;
                    SKPrivateKey := Some privateKey;
                    SKPublicKey := Some (PrivateKey_PublicKey privateKey);
                    SKHashAlgo := hashAlgo; SKSigAlgo := sigAlgo; SKWeight := 0 |};
     Store_ := Store_ c; SimpleAddresses := SimpleAddresses c;
     GenesisTokenSupply := GenesisTokenSupply c;
     TransactionMaxGasLimit := TransactionMaxGasLimit c;
     ScriptGasLimit := ScriptGasLimit c; TransactionExpiry := TransactionExpiry c;
     StorageLimitEnabled := StorageLimitEnabled c;
     TransactionFeesEnabled := TransactionFeesEnabled c;
     ContractRemovalEnabled := ContractRemovalEnabled c;
     MinimumStorageReservation := MinimumStorageReservation c;
     StorageMBPerFLOW := StorageMBPerFLOW c; Logger := Logger c;
     TransactionValidationEnabled := TransactionValidationEnabled c;
     ChainID_ := ChainID_ c; AutoMine := AutoMine c |}.

(** [WithStore] sets the persistent storage provider (a nil store is the
    [None] here). *)
Definition WithStore (store : option S) : Option := λ c,
  {| ServiceKey_ := ServiceKey_ c; Store_ := store;
     SimpleAddresses := SimpleAddresses c;
     GenesisTokenSupply := GenesisTokenSupply c;
     TransactionMaxGasLimit := TransactionMaxGasLimit c;
     ScriptGasLimit := ScriptGasLimit c; TransactionExpiry := TransactionExpiry c;
     StorageLimitEnabled := StorageLimitEnabled c;
     TransactionFeesEnabled := TransactionFeesEnabled c;
     ContractRemovalEnabled := ContractRemovalEnabled c;
     MinimumStorageReservation := MinimumStorageReservation c;
     StorageMBPerFLOW := StorageMBPerFLOW c; Logger := Logger c;
     TransactionValidationEnabled := TransactionValidationEnabled c;
     ChainID_ := ChainID_ c; AutoMine := AutoMine c |}.

(** [WithSimpleAddresses] enables simple addresses. *)
Definition WithSimpleAddresses : Option := λ c,
  {| ServiceKey_ := ServiceKey_ c; Store_ := Store_ c; SimpleAddresses := true;
     GenesisTokenSupply := GenesisTokenSupply c;
     TransactionMaxGasLimit := TransactionMaxGasLimit c;
     ScriptGasLimit := ScriptGasLimit c; TransactionExpiry := TransactionExpiry c;
     StorageLimitEnabled := StorageLimitEnabled c;
     TransactionFeesEnabled := TransactionFeesEnabled c;
     ContractRemovalEnabled := ContractRemovalEnabled c;
     MinimumStorageReservation := MinimumStorageReservation c;
     StorageMBPerFLOW := StorageMBPerFLOW c; Logger := Logger c;
     TransactionValidationEnabled := TransactionValidationEnabled c;
     ChainID_ := ChainID_ c; AutoMine := AutoMine c |}.

(** [WithGenesisTokenSupply]. *)
Definition WithGenesisTokenSupply (supply : Z) : Option := λ c,
  {| ServiceKey_ := ServiceKey_ c; Store_ := Store_ c;
     SimpleAddresses := SimpleAddresses c; GenesisTokenSupply := supply;
     TransactionMaxGasLimit := TransactionMaxGasLimit c;
     ScriptGasLimit := ScriptGasLimit c; TransactionExpiry := TransactionExpiry c;
     StorageLimitEnabled := StorageLimitEnabled c;
     TransactionFeesEnabled := TransactionFeesEnabled c;
     ContractRemovalEnabled := ContractRemovalEnabled c;
     MinimumStorageReservation := MinimumStorageReservation c;
     StorageMBPerFLOW := StorageMBPerFLOW c; Logger := Logger c;
     TransactionValidationEnabled := TransactionValidationEnabled c;
     ChainID_ := ChainID_ c; AutoMine := AutoMine c |}.

(** [WithTransactionMaxGasLimit]. *)
Definition WithTransactionMaxGasLimit (maxLimit : Z) : Option := λ c,
  {| ServiceKey_ := ServiceKey_ c; Store_ := Store_ c;
     SimpleAddresses := SimpleAddresses c;
     GenesisTokenSupply := GenesisTokenSupply c;
     TransactionMaxGasLimit := maxLimit; ScriptGasLimit := ScriptGasLimit c;
     TransactionExpiry := TransactionExpiry c;
     StorageLimitEnabled := StorageLimitEnabled c;
     TransactionFeesEnabled := TransactionFeesEnabled c;
     ContractRemovalEnabled := ContractRemovalEnabled c;
     MinimumStorageReservation := MinimumStorageReservation c;
     StorageMBPerFLOW := StorageMBPerFLOW c; Logger := Logger c;
     TransactionValidationEnabled := TransactionValidationEnabled c;
     ChainID_ := ChainID_ c; AutoMine := AutoMine c |}.

(** [WithScriptGasLimit]. *)
Definition WithScriptGasLimit (limit : Z) : Option := λ c,
  {| ServiceKey_ := ServiceKey_ c; Store_ := Store_ c;
     SimpleAddresses := SimpleAddresses c;
     GenesisTokenSupply := GenesisTokenSupply c;
     TransactionMaxGasLimit := TransactionMaxGasLimit c; ScriptGasLimit := limit;
     TransactionExpiry := TransactionExpiry c;
     StorageLimitEnabled := StorageLimitEnabled c;
     TransactionFeesEnabled := TransactionFeesEnabled c;
     ContractRemovalEnabled := ContractRemovalEnabled c;
     MinimumStorageReservation := MinimumStorageReservation c;
     StorageMBPerFLOW := StorageMBPerFLOW c; Logger := Logger c;
     TransactionValidationEnabled := TransactionValidationEnabled c;
     ChainID_ := ChainID_ c; AutoMine := AutoMine c |}.

(** [WithTransactionExpiry]. *)
Definition WithTransactionExpiry (expiry : Z) : Option := λ c,
  {| ServiceKey_ := ServiceKey_ c; Store_ := Store_ c;
     SimpleAddresses := SimpleAddresses c;
     GenesisTokenSupply := GenesisTokenSupply c;
     TransactionMaxGasLimit := TransactionMaxGasLimit c;
     ScriptGasLimit := ScriptGasLimit c; TransactionExpiry := expiry;
     StorageLimitEnabled := StorageLimitEnabled c;
     TransactionFeesEnabled := TransactionFeesEnabled c;
     ContractRemovalEnabled := ContractRemovalEnabled c;
     MinimumStorageReservation := MinimumStorageReservation c;
     StorageMBPerFLOW := StorageMBPerFLOW c; Logger := Logger c;
     TransactionValidationEnabled := TransactionValidationEnabled c;
     ChainID_ := ChainID_ c; AutoMine := AutoMine c |}.

(** [WithStorageLimitEnabled]. *)
Definition WithStorageLimitEnabled (enabled : bool) : Option := λ c,
  {| ServiceKey_ := ServiceKey_ c; Store_ := Store_ c;
     SimpleAddresses := SimpleAddresses c;
     GenesisTokenSupply := GenesisTokenSupply c;
     TransactionMaxGasLimit := TransactionMaxGasLimit c;
     ScriptGasLimit := ScriptGasLimit c; TransactionExpiry := TransactionExpiry c;
     StorageLimitEnabled := enabled;
     TransactionFeesEnabled := TransactionFeesEnabled c;
     ContractRemovalEnabled := ContractRemovalEnabled c;
     MinimumStorageReservation := MinimumStorageReservation c;
     StorageMBPerFLOW := StorageMBPerFLOW c; Logger := Logger c;
     TransactionValidationEnabled := TransactionValidationEnabled c;
     ChainID_ := ChainID_ c; AutoMine := AutoMine c |}.

(** [WithMinimumStorageReservation]. *)
Definition WithMinimumStorageReservation (minimumStorageReservation : Z) : Option := λ c,
  {| ServiceKey_ := ServiceKey_ c; Store_ := Store_ c;
     SimpleAddresses := SimpleAddresses c;
     GenesisTokenSupply := GenesisTokenSupply c;
     TransactionMaxGasLimit := TransactionMaxGasLimit c;
     ScriptGasLimit := ScriptGasLimit c; TransactionExpiry := TransactionExpiry c;
     StorageLimitEnabled := StorageLimitEnabled c;
     TransactionFeesEnabled := TransactionFeesEnabled c;
     ContractRemovalEnabled := ContractRemovalEnabled c;
     MinimumStorageReservation := minimumStorageReservation;
     StorageMBPerFLOW := StorageMBPerFLOW c; Logger := Logger c;
     TransactionValidationEnabled := TransactionValidationEnabled c;
     ChainID_ := ChainID_ c; AutoMine := AutoMine c |}.

(** [WithStorageMBPerFLOW]. *)
Definition WithStorageMBPerFLOW (storageMBPerFLOW : Z) : Option := λ c,
  {| ServiceKey_ := ServiceKey_ c; Store_ := Store_ c;
     SimpleAddresses := SimpleAddresses c;
     GenesisTokenSupply := GenesisTokenSupply c;
     TransactionMaxGasLimit := TransactionMaxGasLimit c;
     ScriptGasLimit := ScriptGasLimit c; TransactionExpiry := TransactionExpiry c;
     StorageLimitEnabled := StorageLimitEnabled c;
     TransactionFeesEnabled := TransactionFeesEnabled c;
     ContractRemovalEnabled := ContractRemovalEnabled c;
     MinimumStorageReservation := MinimumStorageReservation c;
     StorageMBPerFLOW := storageMBPerFLOW; Logger := Logger c;
     TransactionValidationEnabled := TransactionValidationEnabled c;
     ChainID_ := ChainID_ c; AutoMine := AutoMine c |}.

(** [WithTransactionFeesEnabled]. *)
Definition WithTransactionFeesEnabled (enabled : bool) : Option := λ c,
  {| ServiceKey_ := ServiceKey_ c; Store_ := Store_ c;
     SimpleAddresses := SimpleAddresses c;
     GenesisTokenSupply := GenesisTokenSupply c;
     TransactionMaxGasLimit := TransactionMaxGasLimit c;
     ScriptGasLimit := ScriptGasLimit c; TransactionExpiry := TransactionExpiry c;
     StorageLimitEnabled := StorageLimitEnabled c;
     TransactionFeesEnabled := enabled;
     ContractRemovalEnabled := ContractRemovalEnabled c;
     MinimumStorageReservation := MinimumStorageReservation c;
     StorageMBPerFLOW := StorageMBPerFLOW c; Logger := Logger c;
     TransactionValidationEnabled := TransactionValidationEnabled c;
     ChainID_ := ChainID_ c; AutoMine := AutoMine c |}.

(** [WithContractRemovalEnabled]. *)
Definition WithContractRemovalEnabled (enabled : bool) : Option := λ c,
  {| ServiceKey_ := ServiceKey_ c; Store_ := Store_ c;
     SimpleAddresses := SimpleAddresses c;
     GenesisTokenSupply := GenesisTokenSupply c;
     TransactionMaxGasLimit := TransactionMaxGasLimit c;
     ScriptGasLimit := ScriptGasLimit c; TransactionExpiry := TransactionExpiry c;
     StorageLimitEnabled := StorageLimitEnabled c;
     TransactionFeesEnabled := TransactionFeesEnabled c;
     ContractRemovalEnabled := enabled;
     MinimumStorageReservation := MinimumStorageReservation c;
     StorageMBPerFLOW := StorageMBPerFLOW c; Logger := Logger c;
     TransactionValidationEnabled := TransactionValidationEnabled c;
     ChainID_ := ChainID_ c; AutoMine := AutoMine c |}.

(** [WithTransactionValidationEnabled]. *)
Definition WithTransactionValidationEnabled (enabled : bool) : Option := λ c,
  {| ServiceKey_ := ServiceKey_ c; Store_ := Store_ c;
     SimpleAddresses := SimpleAddresses c;
     GenesisTokenSupply := GenesisTokenSupply c;
     TransactionMaxGasLimit := TransactionMaxGasLimit c;
     ScriptGasLimit := ScriptGasLimit c; TransactionExpiry := TransactionExpiry c;
     StorageLimitEnabled := StorageLimitEnabled c;
     TransactionFeesEnabled := TransactionFeesEnabled c;
     ContractRemovalEnabled := ContractRemovalEnabled c;
     MinimumStorageReservation := MinimumStorageReservation c;
     StorageMBPerFLOW := StorageMBPerFLOW c; Logger := Logger c;
     TransactionValidationEnabled := enabled; ChainID_ := ChainID_ c;
     AutoMine := AutoMine c |}.

(** [WithChainID] sets chain type for address generation. *)
Definition WithChainID (chainID : ChainID) : Option := λ c,
  {| ServiceKey_ := ServiceKey_ c; Store_ := Store_ c;
     SimpleAddresses := SimpleAddresses c;
     GenesisTokenSupply := GenesisTokenSupply c;
     TransactionMaxGasLimit := TransactionMaxGasLimit c;
     ScriptGasLimit := ScriptGasLimit c; TransactionExpiry := TransactionExpiry c;
     StorageLimitEnabled := StorageLimitEnabled c;
     TransactionFeesEnabled := TransactionFeesEnabled c;
     ContractRemovalEnabled := ContractRemovalEnabled c;
     MinimumStorageReservation := MinimumStorageReservation c;
     StorageMBPerFLOW := StorageMBPerFLOW c; Logger := Logger c;
     TransactionValidationEnabled := TransactionValidationEnabled c;
     ChainID_ := chainID; AutoMine := AutoMine c |}.

(** The options this package provides. *)
Inductive packageOption : Option → Prop :=
| is_WithLogger (logger : option string) :
    packageOption (WithLogger logger)
| is_WithServicePublicKey (servicePublicKey : option sdkcrypto.PublicKey)
    (sigAlgo : sdkcrypto.SignatureAlgorithm) (hashAlgo : sdkcrypto.HashAlgorithm) :
    packageOption (WithServicePublicKey servicePublicKey sigAlgo hashAlgo)
| is_WithServicePrivateKey (privateKey : sdkcrypto.PrivateKey)
    (sigAlgo : sdkcrypto.SignatureAlgorithm) (hashAlgo : sdkcrypto.HashAlgorithm) :
    packageOption (WithServicePrivateKey privateKey sigAlgo hashAlgo)
| is_WithStore (store : option S) :
    packageOption (WithStore store)
| is_WithSimpleAddresses :
    packageOption WithSimpleAddresses
| is_WithGenesisTokenSupply (supply : Z) :
    packageOption (WithGenesisTokenSupply supply)
| is_WithTransactionMaxGasLimit (maxLimit : Z) :
    packageOption (WithTransactionMaxGasLimit maxLimit)
| is_WithScriptGasLimit (limit : Z) :
    packageOption (WithScriptGasLimit limit)
| is_WithTransactionExpiry (expiry : Z) :
    packageOption (WithTransactionExpiry expiry)
| is_WithStorageLimitEnabled (enabled : bool) :
    packageOption (WithStorageLimitEnabled enabled)
| is_WithMinimumStorageReservation (minimumStorageReservation : Z) :
    packageOption (WithMinimumStorageReservation minimumStorageReservation)
| is_WithStorageMBPerFLOW (storageMBPerFLOW : Z) :
    packageOption (WithStorageMBPerFLOW storageMBPerFLOW)
| is_WithTransactionFeesEnabled (enabled : bool) :
    packageOption (WithTransactionFeesEnabled enabled)
| is_WithContractRemovalEnabled (enabled : bool) :
    packageOption (WithContractRemovalEnabled enabled)
| is_WithTransactionValidationEnabled (enabled : bool) :
    packageOption (WithTransactionValidationEnabled enabled)
| is_WithChainID (chainID : ChainID) :
    packageOption (WithChainID chainID).

(** The options that set the service key. *)
Definition serviceKeyOption (o : Option) : Prop :=
  (∃ pk sa ha, o = WithServicePublicKey pk sa ha)
  ∨ (∃ k sa ha, o = WithServicePrivateKey k sa ha).

(** The loop of [NewBlockchain] over its options:
    [for _, opt := range opts { opt(&conf) }]. *)
Definition applyOptions (opts : list Option) (conf : config) : config :=
  foldl (λ conf opt, opt conf) conf opts.

(** [configureFVM]: the context it builds (the virtual machine is the
    interface [fvm.VirtualMachine]); it returns no error. *)
Definition configureFVM (conf : config) : fvm.Context :=
  let fvmOptions :=
    [ WithChain (GetChainID conf);
      WithBlocks;
      WithContractDeploymentRestricted false;
      WithContractRemovalRestricted (negb (ContractRemovalEnabled conf));
      WithGasLimit (ScriptGasLimit conf);
      WithCadenceLogging true;
      WithAccountStorageLimit (StorageLimitEnabled conf);
      WithTransactionFeesEnabled_ (TransactionFeesEnabled conf);
      WithReusableCadenceRuntimePool ] in
  let fvmOptions :=
    match Logger conf with
    | Some logger => fvmOptions ++ [WithLogger_ logger]
    | None => fvmOptions
    end in
  let fvmOptions :=
    if negb (TransactionValidationEnabled conf)
    then fvmOptions ++ [ WithAuthorizationChecksEnabled false;
                         WithSequenceNumberCheckAndIncrementEnabled false ]
    else fvmOptions in
  NewContext fvmOptions.

(** [configureBootstrapProcedure]. *)
Definition configureBootstrapProcedure (conf : config)
    (flowAccountKey : AccountPublicKey) (supply : Z) : BootstrapProcedure :=
  let options :=
    [ WithInitialTokenSupply supply; WithRestrictedAccountCreationEnabled false ] in
  let options :=
    if StorageLimitEnabled conf
    then options ++ [ WithAccountCreationFee (MinimumStorageReservation conf);
                      WithMinimumStorageReservation_ (MinimumStorageReservation conf);
                      WithStorageMBPerFLOW_ (StorageMBPerFLOW conf) ]
    else options in
  let options :=
    if TransactionFeesEnabled conf
    then options ++
         [ WithTransactionFee 100000000 100 499000000;
           WithExecutionEffortWeights
             [ ("Statement", 1569); ("Loop", 1569); ("FunctionInvocation", 1569);
               ("GetValue", 808); ("CreateAccount", 2837670); ("SetValue", 765) ] ]
    else options in
  {| ServiceAccountPublicKey := flowAccountKey; BootstrapOptions := options |}.

(** [bootstrapLedger]: the ledger view after the run, and the error. A
    service key without any key makes [accountKey.PublicKey.Encode()]
    panic. *)
Definition bootstrapLedger (ctx : fvm.Context) (ledger : LedgerView) (conf : config)
  : outcome (LedgerView * option string) :=
  let accountKey := ServiceKey_AccountKey (GetServiceKey conf) in
  match AKPublicKey accountKey with
  | None => Panicked
  | Some encoded =>
      let publicKey := DecodePublicKey (AKSigAlgo accountKey) encoded in
      let ctx := NewContextFromParent_WithAccountStorageLimit ctx false in
      let flowAccountKey :=
        {| APublicKey := publicKey; ASignAlgo := AKSigAlgo accountKey;
           AHashAlgo := AKHashAlgo accountKey; AWeight := AccountKeyWeightThreshold |} in
      let bootstrap :=
        configureBootstrapProcedure conf flowAccountKey (GenesisTokenSupply conf) in
      Returned (Run_Bootstrap ctx bootstrap ledger)
  end.

(** [configureNewLedger]: the store after it, and the genesis block with
    its ledger view, or the error. *)
Definition configureNewLedger (conf : config) (store : S) (ctx : fvm.Context)
  : outcome (S * result startError (flowgo.Block * LedgerView)) :=
  let genesisLedgerView := storage.LedgerViewByHeight store 0 in
  match bootstrapLedger ctx genesisLedgerView conf with
  | Panicked => Panicked
  | Returned (genesisLedgerView, Some err) =>
      Returned (store, Err (BootstrapFailed "failed to bootstrap execution state" err))
  | Returned (genesisLedgerView, None) =>
      (* commit the genesis block to storage *)
      let genesis := Genesis (GetChainID conf) in
      let '(store, err) :=
        storage.CommitBlock store genesis [] ∅ ∅ (Delta genesisLedgerView) [] in
      match err with
      | Some err => Returned (store, Err (StoreError err))
      | None =>
          (* get empty ledger view *)
          let ledgerView := storage.LedgerViewByHeight store 0 in
          Returned (store, Ok (genesis, ledgerView))
      end
  end.

(** [configureExistingLedger]. *)
Definition configureExistingLedger (latestBlock : flowgo.Block) (store : S)
  : flowgo.Block * LedgerView :=
  let latestLedgerView :=
    storage.LedgerViewByHeight store (flowgo.Height (flowgo.BHeader latestBlock)) in
  (latestBlock, latestLedgerView).

(** [configureLedger]. *)
Definition configureLedger (conf : config) (store : S) (ctx : fvm.Context)
  : outcome (S * result startError (flowgo.Block * LedgerView)) :=
  match storage.LatestBlock store with
  | Err err =>
      if storage.errors_Is_ErrNotFound err
      then (* storage is empty, bootstrap new ledger state *)
        configureNewLedger conf store ctx
      else (* internal storage error, fail fast *)
        Returned (store, Err (StoreError err))
  | Ok latestBlock =>
      (* storage contains data, load state from storage *)
      Returned (store, Ok (configureExistingLedger latestBlock store))
  end.

(** [configureTransactionValidator]: the options it gives the validator. *)
Definition configureTransactionValidator (conf : config) : TransactionValidationOptions :=
  {| Expiry := TransactionExpiry conf;
     ExpiryBuffer := 0;
     AllowEmptyReferenceBlockID := TransactionExpiry conf =? 0;
     AllowUnknownReferenceBlockID := false;
     MaxGasLimit := TransactionMaxGasLimit conf;
     CheckScriptsParse := true;
     MaxTransactionByteSize := DefaultMaxTransactionByteSize;
     MaxCollectionByteSize := DefaultMaxCollectionByteSize |}.

(** What [NewBlockchain] returns: the blockchain, with the fields of
    [Blockchain] that the record of the lookups leaves out. *)
Record Started : Type := {
  blockchain : Blockchain (S := S);
  serviceKey : ServiceKey;
  logger : option string;
  transactionValidator : TransactionValidationOptions
}.

(** [NewBlockchain]: instantiates a new emulated blockchain with the
    provided options. *)
Definition NewBlockchain (opts : list Option) : outcome (result startError Started) :=
  match defaultConfig with
  | Panicked => Panicked
  | Returned conf =>
      (* apply options to the default config *)
      let conf := applyOptions opts conf in
      match GetStore conf with
      | Panicked => Panicked
      | Returned storage =>
          let vmCtx := configureFVM conf in
          match configureLedger conf storage vmCtx with
          | Panicked => Panicked
          | Returned (_, Err err) => Returned (Err err)
          | Returned (storage, Ok (latestBlock, latestLedgerView)) =>
              Returned (Ok
                {| blockchain :=
                     {| storage_ := storage; mu := [];
                        pendingBlock_ :=
                          PendingBlock.newPendingBlock latestBlock latestLedgerView;
                        vmCtx := vmCtx; autoMine := false |};
                   serviceKey := GetServiceKey conf;
                   logger := Logger conf;
                   transactionValidator := configureTransactionValidator conf |})
          end
      end
  end.

End Startup.

(** A Go [int] of [bits] bits (32 or 64 by platform): the value a number
    has after a conversion to [int] or an overflow. *)
Definition wrapInt (bits : Z) (z : Z) : Z :=
  (z + 2 ^ (bits - 1)) mod 2 ^ bits - 2 ^ (bits - 1).

(** ** The HTTP API of the emulator server *)

Module http.
Definition StatusOK : Z := 200.
Definition StatusNotFound : Z := 404.
Definition StatusConflict : Z := 409.
Definition StatusInternalServerError : Z := 500.
End http.

(** [BlockResponse]; [BlockId] is the identifier that the sources render
    with [String()]. *)
Record BlockResponse : Type := {
  RHeight : Z;
  RBlockId : flowgo.Identifier;
  RContext : string
}.

(** What the handlers write as a body. *)
Inductive payload : Type :=
| BlockBody (blockResponse : BlockResponse)
| SnapshotsBody (snapshots : list string).

(** What a handler has done to its [http.ResponseWriter]: the content type
    it set, the status it wrote with [WriteHeader] (none when it left the
    status to the first write, which sends 200), and the body. *)
Record Response : Type := {
  contentType : string;
  statusCode : option Z;
  body : option payload
}.

(** The handlers' surroundings: the store seen as a
    [storage.SnapshotProvider]; [configureBlockchain], a function of this
    repository that the sources leave out, taken as a parameter: handed the
    store, it builds a blockchain on it, and what it returns here is the
    store as it left it and, unless it failed, the pending block, the
    context and the auto-mine flag of that blockchain; the JSON encoding of
    a body (an error or none); and the size of [int]. *)
Class ApiPlatform (S : Type) : Type := {
  isSnapshotProvider : S → bool;
  SupportSnapshotsWithCurrentConfig : S → bool;
  Snapshots : S → result string (list string);
  JumpToSnapshot : S → string → bool → S * option string;
  configureBlockchain : S → S * result string (pendingBlock * fvm.Context * bool);
  json_Encode : payload → option string;
  intBits : Z
}.

(** [EmulatorAPIServer]: the emulator behind the adapter. The field
    [store] holds the store that this blockchain is built on, the same
    object: what the blockchain commits is in [m.store], and a jump to a
    snapshot changes the store under the blockchain. *)
Record EmulatorAPIServer {S : Type} : Type := {
  emulator : Blockchain (S := S)
}.
Arguments EmulatorAPIServer S : clear implicits.

Definition store {S : Type} (m : EmulatorAPIServer S) : S := storage_ (emulator m).

(** The server after a call that changed the store. *)
Definition onStore {S : Type} (s : S) (m : EmulatorAPIServer S) : EmulatorAPIServer S :=
  {| emulator :=
       {| storage_ := s; mu := mu (emulator m);
          pendingBlock_ := pendingBlock_ (emulator m);
          vmCtx := vmCtx (emulator m); autoMine := autoMine (emulator m) |} |}.

Module api.
Section Handlers.
Context {S : Type} `{!storage.Store S} `{!fvm.VirtualMachine}
        `{!Hashing} `{!Environment} `{!Convert} `{!Validation (S := S)}
        `{!ApiPlatform S}.

Definition json : string := "application/json".

(** [w.WriteHeader(status); return]. *)
Definition failed (status : Z) : Response :=
  {| contentType := json; statusCode := Some status; body := None |}.

(** [CommitBlock], the handler of /emulator/newBlock. *)
Definition CommitBlock (m : EmulatorAPIServer S) : Response * EmulatorAPIServer S :=
  let '(r, b) := CommitBlock (emulator m) in
  let m := {| emulator := b |} in
  match r with
  | Err _ => (failed http.StatusInternalServerError, m)
  | Ok _ =>
      let '((r, _), b) := GetLatestBlock (emulator m) in
      let m := {| emulator := b |} in
      match r with
      | Err _ => (failed http.StatusInternalServerError, m)
      | Ok block =>
          let blockResponse :=
            {| RHeight := wrapInt intBits (flowgo.Height (flowgo.BHeader block));
               RBlockId := Block_ID block; RContext := "" |} in
          match json_Encode (BlockBody blockResponse) with
          | Some _ => (failed http.StatusInternalServerError, m)
          | None =>
              ({| contentType := json; statusCode := None;
                  body := Some (BlockBody blockResponse) |}, m)
          end
      end
  end.

(** [SnapshotList]. *)
Definition SnapshotList (m : EmulatorAPIServer S) : Response * EmulatorAPIServer S :=
  if negb (isSnapshotProvider (store m))
     || negb (SupportSnapshotsWithCurrentConfig (store m))
  then (failed http.StatusInternalServerError, m)
  else
    match Snapshots (store m) with
    | Err _ => (failed http.StatusInternalServerError, m)
    | Ok snapshots =>
        match json_Encode (SnapshotsBody snapshots) with
        | Some _ => (failed http.StatusInternalServerError, m)
        | None =>
            ({| contentType := json; statusCode := Some http.StatusOK;
                body := Some (SnapshotsBody snapshots) |}, m)
        end
    end.

(** [reloadBlockchainFromSnapshot]. When [configureBlockchain] fails, the
    adapter keeps the blockchain it had, on the store as it is now. *)
Definition reloadBlockchainFromSnapshot (name : string) (snapshotProvider : S)
    (m : EmulatorAPIServer S) : Response * EmulatorAPIServer S :=
  let '(store', r) := configureBlockchain snapshotProvider in
  match r with
  | Err _ => (failed http.StatusInternalServerError, onStore store' m)
  | Ok (pending, ctx, mining) =>
      let blockchain :=
        {| storage_ := store'; mu := []; pendingBlock_ := pending;
           vmCtx := ctx; autoMine := mining |} in
      let m := {| emulator := blockchain |} in
      let '((r, _), b) := GetLatestBlock (emulator m) in
      let m := {| emulator := b |} in
      match r with
      | Err _ => (failed http.StatusInternalServerError, m)
      | Ok block =>
          let blockResponse :=
            {| RHeight := wrapInt intBits (flowgo.Height (flowgo.BHeader block));
               RBlockId := Header_ID (flowgo.BHeader block); RContext := name |} in
          match json_Encode (BlockBody blockResponse) with
          | Some _ => (failed http.StatusInternalServerError, m)
          | None =>
              ({| contentType := json; statusCode := Some http.StatusOK;
                  body := Some (BlockBody blockResponse) |}, m)
          end
      end
  end.

(** [SnapshotJump], for the name in the path. *)
Definition SnapshotJump (name : string) (m : EmulatorAPIServer S)
  : Response * EmulatorAPIServer S :=
  if negb (isSnapshotProvider (store m))
     || negb (SupportSnapshotsWithCurrentConfig (store m))
  then (failed http.StatusInternalServerError, m)
  else
    match Snapshots (store m) with
    | Err _ => (failed http.StatusInternalServerError, m)
    | Ok snapshots =>
        if negb (bool_decide (name ∈ snapshots))
        then (failed http.StatusNotFound, m)
        else
          let '(store', err) := JumpToSnapshot (store m) name false in
          let m := onStore store' m in
          match err with
          | Some _ => (failed http.StatusInternalServerError, m)
          | None => reloadBlockchainFromSnapshot name (store m) m
          end
    end.

(** [SnapshotCreate], for the form value [name]. *)
Definition SnapshotCreate (name : string) (m : EmulatorAPIServer S)
  : Response * EmulatorAPIServer S :=
  if String.eqb name ""
  then (failed http.StatusInternalServerError, m)
  else if negb (isSnapshotProvider (store m))
          || negb (SupportSnapshotsWithCurrentConfig (store m))
  then (failed http.StatusInternalServerError, m)
  else
    match Snapshots (store m) with
    | Err _ => (failed http.StatusInternalServerError, m)
    | Ok snapshots =>
        if bool_decide (name ∈ snapshots)
        then (failed http.StatusConflict, m)
        else
          let '(store', err) := JumpToSnapshot (store m) name true in
          let m := onStore store' m in
          match err with
          | Some _ => (failed http.StatusInternalServerError, m)
          | None => reloadBlockchainFromSnapshot name (store m) m
          end
    end.

End Handlers.
End api.

(** ** Package badger: the stand-in for the key-value store *)
Module badger.

Record Item : Type := {
  key : list N;
  value : list N
}.

(** [Entries]. *)
Definition Entries (prefix : list N) : list Item := [].

Record IteratorOptions : Type := { Prefix : list N }.

(** [Iterator]; [index] and [length] are Go [int]s. *)
Record Iterator : Type := {
  prefix : list N;
  index : Z;
  length : Z;
  items : list Item
}.

(** [Txn.NewIterator]; the slice [items] is left nil. *)
Definition NewIterator (opt : IteratorOptions) : Iterator :=
  {| prefix := Prefix opt; index := 0; length := 0; items := [] |}.

(** [Txn.Get] and [Txn.Set]. *)
Definition Get (k : list N) : Item * option string :=
  ({| key := []; value := [] |}, None).
Definition Set_ (k val : list N) : option string := None.

(** [Iterator.Item]: [it.items[it.index]], which panics out of range. *)
Definition Item_ (it : Iterator) : outcome Item :=
  if index it <? 0 then Panicked
  else match items it !! Z.to_nat (index it) with
       | Some item => Returned item
       | None => Panicked
       end.

(** [Iterator.Valid]. *)
Definition Valid (it : Iterator) : bool := index it <? length it.

(** [Iterator.Next]. *)
Definition Next (bits : Z) (it : Iterator) : Iterator :=
  {| prefix := prefix it; index := wrapInt bits (index it + 1);
     length := length it; items := items it |}.

(** [Iterator.Seek]. *)
Definition Seek (k : list N) (it : Iterator) : Iterator :=
  {| prefix := prefix it; index := 0; length := length it; items := items it |}.

(** [Iterator.Rewind]. *)
Definition Rewind (it : Iterator) : Iterator :=
  let items := Entries (prefix it) in
  {| prefix := prefix it; index := 0;
     length := Z.of_nat (Datatypes.length items); items := items |}.

(** The calls that move an iterator, and a sequence of them. *)
Inductive move : Type := CallNext | CallSeek (k : list N) | CallRewind.

Definition step (bits : Z) (it : Iterator) (m : move) : Iterator :=
  match m with
  | CallNext => Next bits it
  | CallSeek k => Seek k it
  | CallRewind => Rewind it
  end.

Definition moves (bits : Z) (ms : list move) (it : Iterator) : Iterator :=
  foldl (step bits) it ms.

End badger.

(** ** A concrete chain

    Instances of the interfaces, to evaluate the model on concrete inputs: an
    in-memory store whose operations can be made to fail, a virtual machine
    that reads the script as a command, and a validator that checks the gas
    limit. *)
Module Scenario.

#[export] Instance hashing : Hashing := {|
  Header_ID h := (Z.to_N (flowgo.Height h) + 100)%N;
  LightCollection_ID c := (foldr N.add 0 (flowgo.Transactions c) + 7)%N;
  TransactionBody_ID tx :=
    (N.of_nat (String.length (flowgo.Script tx)) * 1000
     + Z.to_N (flowgo.ProposalKeySequenceNumber tx))%N
|}.

#[export] Instance environment : Environment := {|
  now prev := flowgo.Timestamp (flowgo.BHeader prev) + 10;
  freshView prev := flowgo.View (flowgo.BHeader prev) + 1
|}.

Record MemStore : Type := {
  ms_blocks : list flowgo.Block;                       (* newest first *)
  ms_collections : gmap N flowgo.LightCollection;
  ms_transactions : gmap N flowgo.TransactionBody;
  ms_results : gmap N storage.StorableTransactionResult;
  ms_events : gmap Z (list flowgo.Event);
  ms_ledgers : gmap Z (gmap N N);
  ms_fault : option storage.error                      (* every call fails with it *)
}.

Definition guarded {A} (s : MemStore) (r : option A) : result storage.error A :=
  match ms_fault s with
  | Some e => Err e
  | None => match r with Some a => Ok a | None => Err storage.ErrNotFound end
  end.

Definition registersAt (s : MemStore) (h : Z) : gmap N N :=
  default ∅ (ms_ledgers s !! h).

#[export] Instance store : storage.Store MemStore := {|
  storage.LatestBlock s := guarded s (head (ms_blocks s));
  storage.BlockByHeight s h :=
    guarded s (List.find (λ blk, flowgo.Height (flowgo.BHeader blk) =? h) (ms_blocks s));
  storage.BlockByID s id :=
    guarded s (List.find (λ blk, N.eqb (Block_ID blk) id) (ms_blocks s));
  storage.CollectionByID s id := guarded s (ms_collections s !! id);
  storage.TransactionByID s id := guarded s (ms_transactions s !! id);
  storage.TransactionResultByID s id := guarded s (ms_results s !! id);
  storage.EventsByHeight s h eventType :=
    guarded s
      (Some (List.filter (λ ev, String.eqb (flowgo.EType ev) eventType)
               (default [] (ms_events s !! h))));
  storage.LedgerViewByHeight s h :=
    {| parentRegisters := registersAt s h; Delta := ∅ |};
  storage.CommitBlock s block cols txs res delta evs :=
    match ms_fault s with
    | Some e => (s, Some e)
    | None =>
        let h := flowgo.Height (flowgo.BHeader block) in
        ({| ms_blocks := block :: ms_blocks s;
            ms_collections :=
              list_to_map ((λ c, (LightCollection_ID c, c)) <$> cols) ∪ ms_collections s;
            ms_transactions := txs ∪ ms_transactions s;
            ms_results := res ∪ ms_results s;
            ms_events := <[h := evs]> (ms_events s);
            ms_ledgers := <[h := delta ∪ registersAt s (h - 1)]> (ms_ledgers s);
            ms_fault := None |}, None)
    end
|}.

#[export] Instance flowErrorCodes : FlowErrorCodes := {|
  ErrCodeAccountAuthorizationError := 1055;
  ErrCodeInvalidEnvelopeSignatureError := 1009;
  ErrCodeInvalidPayloadSignatureError := 1008;
  ErrCodeInvalidProposalSignatureError := 1006;
  ErrCodeAccountPublicKeyNotFoundError := 1202;
  ErrCodeInvalidProposalSeqNumberError := 1007;
  ErrCodeInvalidAddressError := 1054;
  FlowError_IsAccountNotFoundError ce := fvm.IsAccountNotFoundError (Some ce)
|}.

Definition revertError : fvm.CodedError :=
  {| fvm.Code := 1101; fvm.Message := "panic: revert!" |}.
Definition invalidEnvelopeSignature : fvm.CodedError :=
  {| fvm.Code := 1009; fvm.Message := "invalid envelope signature" |}.
Definition ledgerFailure : fvm.CodedError :=
  {| fvm.Code := 2000; fvm.Message := "ledger failure" |}.
Definition accountNotFound : fvm.CodedError :=
  {| fvm.Code := fvm.ErrCodeAccountNotFoundError; fvm.Message := "account not found" |}.

Definition withErr (e : fvm.CodedError) (tp : fvm.TransactionProcedure)
  : fvm.TransactionProcedure :=
  {| fvm.ID := fvm.ID tp; fvm.Transaction := fvm.Transaction tp;
     fvm.TxIndex := fvm.TxIndex tp; fvm.Logs := fvm.Logs tp;
     fvm.Events := []; fvm.GasUsed := 1; fvm.Err := Some e |}.

Definition withEvent (tp : fvm.TransactionProcedure) : fvm.TransactionProcedure :=
  {| fvm.ID := fvm.ID tp; fvm.Transaction := fvm.Transaction tp;
     fvm.TxIndex := fvm.TxIndex tp; fvm.Logs := fvm.Logs tp;
     fvm.Events :=
       [ {| flowgo.EType := "Deposit"; flowgo.TransactionID := fvm.ID tp;
            flowgo.TransactionIndex := fvm.TxIndex tp; flowgo.EventIndex := 0;
            flowgo.EPayload := flowgo.Script (fvm.Transaction tp) |} ];
     fvm.GasUsed := 2; fvm.Err := None |}.

(** The one key of every account: public key 7, hashed with SHA3_256. *)
Definition accountKey : AccountPublicKey :=
  {| APublicKey := Some 7%N; ASignAlgo := sdkcrypto.ECDSA_P256;
     AHashAlgo := sdkcrypto.SHA3_256; AWeight := 1000 |}.

(** The script "revert" reverts, "badsig" reverts with the error of an
    invalid envelope signature, "fatal" is a fatal fault of the machine,
    any other script credits the payer's register and emits an event. An
    account exists when its register is set; address 999 cannot be read. *)
#[export] Instance vm : fvm.VirtualMachine := {|
  fvm.RunTransaction ctx tp v :=
    let script := flowgo.Script (fvm.Transaction tp) in
    if String.eqb script "revert" then (withErr revertError tp, v, None)
    else if String.eqb script "badsig" then (withErr invalidEnvelopeSignature tp, v, None)
    else if String.eqb script "fatal" then (tp, v, Some ledgerFailure)
    else
      let payer := flowgo.Payer (fvm.Transaction tp) in
      (withEvent tp, viewSet payer (default 0%N (viewGet v payer) + 1)%N v, None);
  fvm.RunScript ctx sp v :=
    if String.eqb (fvm.SScript sp) "fatal" then (sp, v, Some ledgerFailure)
    else
      ({| fvm.SScript := fvm.SScript sp; fvm.SArguments := fvm.SArguments sp;
          fvm.Value := Some (fvm.SScript sp); fvm.SLogs := ["ran"];
          fvm.SEvents := []; fvm.SGasUsed := 1; fvm.SErr := None |},
       viewSet 0%N 42%N v, None);
  fvm.GetAccount ctx address v :=
    if N.eqb address 999 then (None, Some ledgerFailure)
    else
      match viewGet v address with
      | Some balance =>
          (Some {| flowgo.AAddress := address; flowgo.Balance := Z.of_N balance;
                   flowgo.Keys := [accountKey]; flowgo.KeySeqNumbers := [0] |}, None)
      | None => (None, Some accountNotFound)
      end
|}.

#[export] Instance conversions : Convert := {|
  VMTransactionResultToEmulator tp :=
    Ok {| types.TransactionID := fvm.ID tp; types.ComputationUsed := fvm.GasUsed tp;
          types.Error := FlowError <$> fvm.Err tp; types.Logs := fvm.Logs tp;
          types.Events := fvm.Events tp; types.Debug := None |};
  ToStorableResult tp :=
    Ok {| storage.ErrorCode := default 0 (fvm.Code <$> fvm.Err tp);
          storage.ErrorMessage := default EmptyString (fvm.Message <$> fvm.Err tp);
          storage.Logs := fvm.Logs tp; storage.Events := fvm.Events tp |};
  VMErrorToEmulator e := FlowError e;
  FlowEventsToSDK evs := Ok evs;
  HashToID script := N.of_nat (String.length script)
|}.

(** A signature is the public key, the number of the hashing algorithm
    and the message. *)
Definition algoNumber (algo : sdkcrypto.HashAlgorithm) : N :=
  match algo with
  | sdkcrypto.SHA2_256 => 1%N
  | sdkcrypto.SHA3_256 => 3%N
  | sdkcrypto.OtherHashAlgorithm code => Z.to_N code
  end.

#[export] Instance signatureChecks : SignatureChecks := {|
  HasErrorCode e code :=
    match e with FlowError ce => fvm.Code ce =? code | _ => false end;
  EnvelopeMessage tx := bytes_of_string (flowgo.Script tx);
  PayloadMessage tx := bytes_of_string (flowgo.Script tx);
  Verify publicKey signature msg algo :=
    bool_decide (signature = publicKey :: algoNumber algo :: msg);
  NewTransactionInvalidHashAlgo key address algo :=
    {| types.DebugMessage := "invalid hashing algorithm" |};
  NewTransactionInvalidSignature tx :=
    {| types.DebugMessage := "invalid signature" |}
|}.

#[export] Instance validation : Validation (S := MemStore) := {|
  Validate b tx :=
    if flowgo.GasLimit tx <=? 9999 then None else Some "gas limit exceeded";
  convertAccessError msg := ValidationError msg
|}.

(** Genesis, and a chain that has just been started on it. *)
Definition genesis : flowgo.Block :=
  {| flowgo.BHeader :=
       {| flowgo.Height := 0; flowgo.View := 0; flowgo.ParentID := 0%N;
          flowgo.Timestamp := 0 |};
     flowgo.BPayload := {| flowgo.Guarantees := [] |} |}.

Definition genesisStore (fault : option storage.error) : MemStore :=
  {| ms_blocks := [genesis]; ms_collections := ∅; ms_transactions := ∅;
     ms_results := ∅; ms_events := ∅;
     ms_ledgers := {[ 0 := {[ 1%N := 100%N ]} ]};
     ms_fault := fault |}.

Definition chainOn (s : MemStore) : Blockchain :=
  {| storage_ := s; mu := [];
     pendingBlock_ :=
       PendingBlock.newPendingBlock genesis (storage.LedgerViewByHeight s 0);
     vmCtx := {| fvm.BlockHeader := None |};
     autoMine := false |}.

Definition chain0 : Blockchain := chainOn (genesisStore None).

Definition tx (script : string) (seq : Z) : flowgo.TransactionBody :=
  {| flowgo.Script := script; flowgo.TxArguments := [];
     flowgo.ReferenceBlockID := Block_ID genesis; flowgo.GasLimit := 9999;
     flowgo.ProposalKeySequenceNumber := seq; flowgo.Payer := 1%N;
     flowgo.PayloadSignatures := []; flowgo.EnvelopeSignatures := [] |}.

(** The transaction "badsig" with one envelope signature, by the key of
    the given account at the given index. *)
Definition signed (address : flowgo.Address) (keyIndex : N) (signature : list N)
  : flowgo.TransactionBody :=
  {| flowgo.Script := "badsig"; flowgo.TxArguments := [];
     flowgo.ReferenceBlockID := Block_ID genesis; flowgo.GasLimit := 9999;
     flowgo.ProposalKeySequenceNumber := 0; flowgo.Payer := 1%N;
     flowgo.PayloadSignatures := [];
     flowgo.EnvelopeSignatures :=
       [ {| flowgo.SigAddress := address; flowgo.KeyIndex := keyIndex;
            flowgo.Signature := signature |} ] |}.

(** Runs a computation for its state. *)
Definition after {A} (m : M A) (b : Blockchain (S := MemStore)) : Blockchain := (m b).2.

(** The store made to fail from now on. *)
Definition failing (e : storage.error) (b : Blockchain (S := MemStore)) : Blockchain :=
  {| storage_ :=
       {| ms_blocks := ms_blocks (storage_ b);
          ms_collections := ms_collections (storage_ b);
          ms_transactions := ms_transactions (storage_ b);
          ms_results := ms_results (storage_ b);
          ms_events := ms_events (storage_ b);
          ms_ledgers := ms_ledgers (storage_ b);
          ms_fault := Some e |};
     mu := mu b; pendingBlock_ := pendingBlock_ b; vmCtx := vmCtx b;
     autoMine := autoMine b |}.

(** Pending blocks built on genesis: open and empty; two transactions
    admitted, the second one reverting; then one and both of them
    executed; and a queue whose second transaction meets a fatal fault. *)
Definition v0 : LedgerView := storage.LedgerViewByHeight (genesisStore None) 0.
Definition p0 : pendingBlock := PendingBlock.newPendingBlock genesis v0.
Definition p2 : pendingBlock :=
  PendingBlock.AddTransaction (tx "revert" 1)
    (PendingBlock.AddTransaction (tx "deposit" 0) p0).
Definition ctx1 : fvm.Context :=
  fvm.NewContextFromParent {| fvm.BlockHeader := None |}
    (flowgo.BHeader (PendingBlock.Block p2)).
Definition p2a : pendingBlock :=
  (PendingBlock.ExecuteNextTransaction (runTransaction ctx1) p2).2.
Definition p2b : pendingBlock :=
  (PendingBlock.ExecuteNextTransaction (runTransaction ctx1) p2a).2.
Definition p3 : pendingBlock :=
  PendingBlock.AddTransaction (tx "deposit" 2)
    (PendingBlock.AddTransaction (tx "fatal" 1)
       (PendingBlock.AddTransaction (tx "deposit" 0) p0)).

(** The chain on the genesis store that holds a given pending block. *)
Definition holding (p : pendingBlock) : Blockchain :=
  {| storage_ := genesisStore None; mu := []; pendingBlock_ := p;
     vmCtx := {| fvm.BlockHeader := None |}; autoMine := false |}.

(** One transaction whose envelope signature the machine rejects: signed
    with key 0 of account 1 under SHA2_256, where the key asks for
    SHA3_256; signed with a key 5 that account 1 does not have; and signed
    by account 999, which the machine fails to read. *)
Definition wrongHash : flowgo.TransactionBody :=
  signed 1%N 0%N (7 :: 1 :: bytes_of_string "badsig")%N.
Definition wrongKey : flowgo.TransactionBody := signed 1%N 5%N [].
Definition unreadableSigner : flowgo.TransactionBody := signed 999%N 0%N [].
Definition pWrongHash : pendingBlock := PendingBlock.AddTransaction wrongHash p0.
Definition pWrongKey : pendingBlock := PendingBlock.AddTransaction wrongKey p0.
Definition pUnreadableSigner : pendingBlock :=
  PendingBlock.AddTransaction unreadableSigner p0.

End Scenario.

(** The texts of the errors for the concrete chain, and the chain after
    one transaction has been submitted with auto-mine on. *)
Module Submissions.
Import Scenario.

#[export] Instance errorText : ErrorText := {|
  Error_ e :=
    match e with
    | DuplicateTransactionError _ => "transaction has already been submitted"
    | PendingBlockMidExecutionError _ => "pending block is currently being executed"
    | Errorf msg _ => msg
    | InvalidArgumentError msg => msg
    | InternalError msg => msg
    | ValidationError msg => msg
    | FlowError ce => fvm.Message ce
    | _ => "error"
    end
|}.

Definition autoMining : Blockchain := (EnableAutoMine chain0).2.

Definition mined : Blockchain := (SendTransaction (tx "deposit" 0) autoMining).2.

(** The block that was mined: the latest block of that chain. *)
Definition minedBlock : flowgo.Block :=
  match storage.LatestBlock (storage_ mined) with
  | Ok block => block
  | Err _ => genesis
  end.

End Submissions.

(** The platform of the concrete chain: keys are numbers, the bootstrap
    procedure credits the service account, and the in-memory store of
    [sqlite.New] starts empty. *)
Module Boot.
Import Scenario.

Definition emptyStore : MemStore :=
  {| ms_blocks := []; ms_collections := ∅; ms_transactions := ∅; ms_results := ∅;
     ms_events := ∅; ms_ledgers := ∅; ms_fault := None |}.

#[export] Instance platform : Platform MemStore := {|
  sqlite_New path := Ok emptyStore;
  GeneratePrivateKey sigAlgo seed := Ok (N.of_nat (String.length seed));
  PrivateKey_PublicKey privateKey := (privateKey + 1)%N;
  DecodePublicKey sigAlgo encoded := Some encoded;
  ServiceAddress chain :=
    if String.eqb chain flowgo_MonotonicEmulator then 1%N else 8%N;
  Genesis chain := genesis;
  AccountKeyWeightThreshold := 1000;
  DefaultMaxTransactionGasLimit := 9999;
  DefaultMinimumStorageReservation := 100000;
  DefaultStorageMBPerFLOW := 10000000000;
  DefaultMaxTransactionByteSize := 1500000;
  DefaultMaxCollectionByteSize := 3000000;
  NewContext options := {| fvm.BlockHeader := None |};
  NewContextFromParent_WithAccountStorageLimit ctx enabled := ctx;
  Run_Bootstrap ctx bootstrap ledger := (viewSet 8%N 1000%N ledger, None)
|}.

(** The default configuration on this platform. *)
Definition baseConfig : config (S := MemStore) :=
  {| ServiceKey_ :=
       {| SKIndex := 0; SKAddress := 0%N; SKSequenceNumber := 0;
          SKPrivateKey := Some 64%N; SKPublicKey := None;
          SKHashAlgo := sdkcrypto.SHA3_256; SKSigAlgo := sdkcrypto.ECDSA_P256;
          SKWeight := 0 |};
     Store_ := None; SimpleAddresses := false;
     GenesisTokenSupply := 100000000000000000; TransactionMaxGasLimit := 9999;
     ScriptGasLimit := 100000; TransactionExpiry := 0; StorageLimitEnabled := true;
     TransactionFeesEnabled := false; ContractRemovalEnabled := false;
     MinimumStorageReservation := 100000; StorageMBPerFLOW := 10000000000;
     Logger := None; TransactionValidationEnabled := true;
     ChainID_ := flowgo_Emulator; AutoMine := false |}.

End Boot.

(** The server on the concrete chain: one snapshot, named base; a jump
    leaves the store as it is, and the blockchain is reloaded as a chain
    started on the store. *)
Module Server.
Import Scenario.

#[export] Instance apiPlatform : ApiPlatform MemStore := {|
  isSnapshotProvider s := true;
  SupportSnapshotsWithCurrentConfig s := true;
  Snapshots s := Ok ["base"];
  JumpToSnapshot s name createIfNotExists := (s, None);
  configureBlockchain s :=
    (s, Ok (pendingBlock_ (chainOn s), vmCtx (chainOn s), autoMine (chainOn s)));
  json_Encode body := None;
  intBits := 64
|}.

Definition serving (b : Blockchain) : EmulatorAPIServer MemStore :=
  Build_EmulatorAPIServer MemStore b.

End Server.

(** ** Theorems *)

Section Theorems.
Context {S : Type} `{!storage.Store S} `{!fvm.VirtualMachine}
        `{!Hashing} `{!Environment} `{!Convert}
        `{!FlowErrorCodes} `{!SignatureChecks} `{!Validation (S := S)}.

#[local] Existing Instance M_ret.
#[local] Existing Instance M_bind.
#[local] Arguments executeLoop : simpl never.
#[local] Arguments heightRangeLoop : simpl never.

Ltac run :=
  unfold rlocked, locked, call, setPendingBlock, setStorage, gets, get, put,
    mbind, M_bind, mret, M_ret in *; simpl in *.

Lemma lifecycle_index_le prev p :
  lifecycle prev p → (index p ≤ PendingBlock.Size p)%nat.
Proof.
  induction 1 as [v|p tx Hl IH Hs Hc|p execute Hl IH].
  - simpl. unfold PendingBlock.Size. simpl. lia.
  - unfold PendingBlock.Size in *. simpl. rewrite length_app. simpl. lia.
  - unfold PendingBlock.ExecuteNextTransaction, PendingBlock.Size in *.
    destruct (transactions p !! index p) as [tx|] eqn:Hq; simpl; [|done].
    apply lookup_lt_Some in Hq.
    destruct (execute _ _ _) as [[tp|e] v]; simpl; lia.
Qed.

Lemma lifecycle_height prev p :
  lifecycle prev p →
  height p = flowgo.Height (flowgo.BHeader prev) + 1 ∧ parentID p = Block_ID prev.
Proof.
  induction 1 as [v|p tx Hl IH Hs Hc|p execute Hl IH]; [done|done|].
  unfold PendingBlock.ExecuteNextTransaction.
  destruct (transactions p !! index p) as [tx|]; simpl; [|done].
  destruct (execute _ _ _) as [[tp|e] v]; simpl; done.
Qed.

Lemma lifecycle_results prev p id :
  lifecycle prev p → is_Some (transactionResults p !! id) → id ∈ executedIDs p.
Proof.
  intros Hl. revert id.
  induction Hl as [v|p tx Hl IH Hs Hc|p execute Hl IH]; intros id.
  - simpl. rewrite lookup_empty. intros [? [=]].
  - simpl. intros Hid. specialize (IH id Hid).
    unfold executedIDs, PendingBlock.transactionIDs in *. simpl.
    rewrite fmap_app. rewrite take_app_le; [done|].
    rewrite length_fmap. by apply lifecycle_index_le with prev.
  - unfold PendingBlock.ExecuteNextTransaction.
    destruct (transactions p !! index p) as [tx|] eqn:Hq; simpl; [|by apply IH].
    destruct (execute _ _ _) as [[tp|e] v]; simpl; [|by apply IH].
    unfold executedIDs, PendingBlock.transactionIDs in *. simpl.
    assert (Ht : (TransactionBody_ID <$> transactions p) !! index p
                 = Some (TransactionBody_ID tx)) by (by rewrite list_lookup_fmap, Hq).
    rewrite (take_S_r _ _ _ Ht).
    destruct (decide (TransactionBody_ID tx = id)) as [->|Hne].
    + intros _. apply elem_of_app. right. by apply list_elem_of_singleton.
    + rewrite lookup_insert_ne by done. intros Hid.
      apply elem_of_app. left. by apply IH.
Qed.

Lemma lifecycle_NoDup prev p :
  lifecycle prev p → NoDup (PendingBlock.transactionIDs p).
Proof.
  induction 1 as [v|p tx Hl IH Hs Hc|p execute Hl IH].
  - constructor.
  - unfold PendingBlock.transactionIDs in *. simpl. rewrite fmap_app. simpl.
    apply NoDup_app. split; [done|]. split; [|apply NoDup_singleton].
    intros x Hx Hx'. apply list_elem_of_singleton in Hx'. subst x.
    unfold PendingBlock.ContainsTransaction, PendingBlock.transactionIDs in Hc.
    by apply bool_decide_eq_false in Hc.
  - unfold PendingBlock.ExecuteNextTransaction.
    destruct (transactions p !! index p) as [tx|]; simpl; [|done].
    destruct (execute _ _ _) as [[tp|e] v]; simpl; done.
Qed.

(** *** Lookups *)



(** *** Admission *)

(** C2, as amended. [AddTransaction] fails with the mid-execution error
    whenever the execution of the pending block has started; otherwise
    with the duplicate error whenever the ID is in the pending block or
    stored as a committed transaction; otherwise, when the store fails
    with an error other than not-found during the duplicate check, with
    that failure, before validation, and nothing is appended; otherwise
    (the store reports the ID not found), once validation succeeds, the
    transaction is appended to the queue, and when validation fails its
    error is returned and nothing is appended. *)
Theorem AddTransaction_admission (b : Blockchain) (tx : flowgo.TransactionBody) :
  let p := pendingBlock_ b in
  let id := TransactionBody_ID tx in
  let r := AddTransaction tx b in
  (PendingBlock.ExecutionStarted p = true →
     r = (Some (PendingBlockMidExecutionError (PendingBlock.ID p)), b))
  ∧ (PendingBlock.ExecutionStarted p = false →
     PendingBlock.ContainsTransaction p id = true
     ∨ (∃ stored, storage.TransactionByID (storage_ b) id = Ok stored) →
     r = (Some (DuplicateTransactionError id), b))
  ∧ (PendingBlock.ExecutionStarted p = false →
     PendingBlock.ContainsTransaction p id = false →
     ∀ e, storage.TransactionByID (storage_ b) id = Err e →
          storage.errors_Is_ErrNotFound e = true →
          (Validate b tx = None →
             r.1 = None
             ∧ transactions (pendingBlock_ r.2) = transactions p ++ [tx]
             ∧ pendingBlock_ r.2 = PendingBlock.AddTransaction tx p
             ∧ storage_ r.2 = storage_ b)
          ∧ (∀ msg, Validate b tx = Some msg →
               r = (Some (convertAccessError msg), b)))
  ∧ (PendingBlock.ExecutionStarted p = false →
     PendingBlock.ContainsTransaction p id = false →
     ∀ e, storage.TransactionByID (storage_ b) id = Err e →
          storage.errors_Is_ErrNotFound e = false →
          r = (Some (Errorf "failed to check storage for transaction" (Some e)), b)).
Proof.
  simpl. unfold AddTransaction. run. split; [|split; [|split]].
  - intros ->. done.
  - intros -> [Hc|[stored Hs]].
    + rewrite Hc. done.
    + destruct (PendingBlock.ContainsTransaction _ _); [done|]. rewrite Hs. done.
  - intros -> -> e -> ->. simpl. split.
    + intros ->. done.
    + intros msg ->. done.
  - intros -> -> e -> ->. done.
Qed.

(** *** Commit *)

Lemma lifecycle_empty prev p :
  lifecycle prev p → PendingBlock.Empty p = true →
  transactions p = [] ∧ index p = 0%nat ∧ transactionResults p = ∅.
Proof.
  intros Hl He. unfold PendingBlock.Empty, PendingBlock.Size in He.
  apply Nat.eqb_eq in He. apply length_zero_iff_nil in He.
  pose proof (lifecycle_index_le _ _ Hl) as Hi.
  unfold PendingBlock.Size in Hi. rewrite He in Hi. simpl in Hi.
  split; [done|]. split; [lia|].
  apply map_empty. intros id.
  destruct (transactionResults p !! id) as [r|] eqn:Hr; [|done].
  assert (Hin : id ∈ executedIDs p) by (eapply lifecycle_results; eauto).
  unfold executedIDs, PendingBlock.transactionIDs in Hin. rewrite He in Hin.
  simpl in Hin. rewrite take_nil in Hin. by apply elem_of_nil in Hin.
Qed.

Lemma newPendingBlock_open block v :
  PendingBlock.Empty (PendingBlock.newPendingBlock block v) = true
  ∧ PendingBlock.ExecutionStarted (PendingBlock.newPendingBlock block v) = false.
Proof. done. Qed.

(** C1, as amended. For a pending block with N > 0 admitted
    transactions: [CommitBlock] fails with CommitBeforeExecution when none
    has been executed and with MidExecution when some but fewer than N
    have; when all N have been executed, and the conversion of the results
    and the store's commit succeed, it returns the block, whose height is
    that of the block the pending block was built on plus one, the store
    holds what its commit returned, and the pending block is a fresh open
    one built on the returned block; when the conversion or the store's
    commit fails, it returns that error and keeps the pending block. *)
Theorem CommitBlock_lifecycle (b : Blockchain) (prev : flowgo.Block) :
  let p := pendingBlock_ b in
  let r := CommitBlock b in
  let commit sealed :=
    storage.CommitBlock (storage_ b) (PendingBlock.Block p)
      (PendingBlock.Collections p) (PendingBlock.Transactions p) sealed
      (PendingBlock.LedgerDelta p) (PendingBlock.Events p) in
  lifecycle prev p →
  (0 < PendingBlock.Size p)%nat →
  (index p = 0%nat →
     r.1 = Err (PendingBlockCommitBeforeExecutionError (PendingBlock.ID p))
     ∧ chainState r.2 = chainState b)
  ∧ ((0 < index p < PendingBlock.Size p)%nat →
     r.1 = Err (PendingBlockMidExecutionError (PendingBlock.ID p))
     ∧ chainState r.2 = chainState b)
  ∧ (index p = PendingBlock.Size p →
     (∀ sealed s',
        convertToSealedResults (PendingBlock.TransactionResults p) = Ok sealed →
        commit sealed = (s', None) →
        r.1 = Ok (PendingBlock.Block p)
        ∧ flowgo.Height (flowgo.BHeader (PendingBlock.Block p))
          = flowgo.Height (flowgo.BHeader prev) + 1
        ∧ storage_ r.2 = s'
        ∧ pendingBlock_ r.2
          = PendingBlock.newPendingBlock (PendingBlock.Block p)
              (storage.LedgerViewByHeight s' (height p))
        ∧ lifecycle (PendingBlock.Block p) (pendingBlock_ r.2)
        ∧ PendingBlock.Empty (pendingBlock_ r.2) = true
        ∧ PendingBlock.ExecutionStarted (pendingBlock_ r.2) = false)
     ∧ (∀ e,
        convertToSealedResults (PendingBlock.TransactionResults p) = Err e →
        r.1 = Err e ∧ chainState r.2 = chainState b)
     ∧ (∀ sealed s' e,
        convertToSealedResults (PendingBlock.TransactionResults p) = Ok sealed →
        commit sealed = (s', Some e) →
        r.1 = Err (BackendError e) ∧ storage_ r.2 = s' ∧ pendingBlock_ r.2 = p)).
Proof.
  intros p r commit Hl Hn. subst r commit.
  unfold CommitBlock, commitBlock, chainState. run.
  fold p. unfold PendingBlock.ExecutionStarted, PendingBlock.ExecutionComplete,
    PendingBlock.Empty.
  split; [|split].
  - intros Hi. rewrite Hi. simpl.
    destruct (Nat.eqb_spec (PendingBlock.Size p) 0) as [E|E]; [lia|]. simpl. done.
  - intros [Hi1 Hi2].
    destruct (Nat.ltb_spec 0 (index p)) as [L|L]; [|lia]. simpl.
    destruct (Nat.eqb_spec (index p) (PendingBlock.Size p)) as [E|E]; [lia|].
    simpl. done.
  - intros Hi.
    destruct (Nat.ltb_spec 0 (index p)) as [L|L]; [|lia]. simpl.
    destruct (Nat.eqb_spec (index p) (PendingBlock.Size p)) as [E|E]; [|lia].
    simpl. split; [|split].
    + intros sealed s' Hc Hs. rewrite Hc, Hs. simpl.
      repeat split; try done.
      * by destruct (lifecycle_height _ _ Hl) as [-> _].
      * apply lifecycle_new.
    + intros e Hc. rewrite Hc. done.
    + intros sealed s' e Hc Hs. rewrite Hc, Hs. done.
Qed.

(** C8, as amended. [CommitBlock] on a pending block with no admitted
    transaction needs no execution phase: the block it hands to the store
    has zero collections and the height of the block the pending block was
    built on plus one, with no transaction and no result; when the store's
    commit succeeds, [CommitBlock] returns that block and the store holds
    what the commit returned; when the store's commit fails, it returns
    that error and keeps the pending block. *)
Theorem CommitBlock_empty (b : Blockchain) (prev : flowgo.Block) :
  let p := pendingBlock_ b in
  let r := CommitBlock b in
  let commit :=
    storage.CommitBlock (storage_ b) (PendingBlock.Block p) [] ∅ ∅
      (PendingBlock.LedgerDelta p) (PendingBlock.Events p) in
  lifecycle prev p →
  PendingBlock.Empty p = true →
  PendingBlock.ExecutionStarted p = false
  ∧ PendingBlock.Collections p = []
  ∧ flowgo.Guarantees (flowgo.BPayload (PendingBlock.Block p)) = []
  ∧ flowgo.Height (flowgo.BHeader (PendingBlock.Block p))
    = flowgo.Height (flowgo.BHeader prev) + 1
  ∧ (∀ s', commit = (s', None) →
       r.1 = Ok (PendingBlock.Block p)
       ∧ storage_ r.2 = s'
       ∧ pendingBlock_ r.2
         = PendingBlock.newPendingBlock (PendingBlock.Block p)
             (storage.LedgerViewByHeight s' (height p)))
  ∧ (∀ s' e, commit = (s', Some e) →
       r.1 = Err (BackendError e) ∧ storage_ r.2 = s' ∧ pendingBlock_ r.2 = p).
Proof.
  intros p r commit Hl He. subst r commit.
  destruct (lifecycle_empty _ _ Hl He) as (Ht & Hi & Hr).
  destruct (lifecycle_height _ _ Hl) as [Hh _].
  assert (Hcol : PendingBlock.Collections p = [])
    by (unfold PendingBlock.Collections; by rewrite Ht).
  assert (Htx : PendingBlock.Transactions p = ∅)
    by (unfold PendingBlock.Transactions; by rewrite Ht).
  unfold CommitBlock, commitBlock. run. fold p.
  unfold PendingBlock.ExecutionStarted. rewrite Hi, He. simpl.
  unfold PendingBlock.TransactionResults, convertToSealedResults.
  rewrite Hr, map_to_list_empty. simpl.
  rewrite Hcol, Htx.
  split; [done|]. split; [done|]. split; [done|]. split; [done|]. split.
  - intros s' Hs. rewrite Hs. done.
  - intros s' e Hs. rewrite Hs. done.
Qed.

(** *** The coordination lock *)

(** [debugSignatureError] only reads: the latest block, and the accounts
    on the ledger view of its height. *)
Lemma GetAccount_state address (b : Blockchain) : (GetAccount address b).2 = b.
Proof.
  unfold GetAccount, GetLatestBlock, GetAccountAtBlockHeight. run.
  destruct (storage.LatestBlock _) as [blk|e]; simpl; [|done].
  destruct (fvm.GetAccount _ _ _) as [account err].
  destruct (fvm.IsAccountNotFoundError err); done.
Qed.

Lemma testAlternativeHashAlgo_state sig msg (b : Blockchain) :
  (testAlternativeHashAlgo sig msg b).2 = b.
Proof.
  unfold testAlternativeHashAlgo, mbind, M_bind.
  pose proof (GetAccount_state (flowgo.SigAddress sig) b) as Hs.
  destruct (GetAccount _ b) as [[[acc|]|e] b']; simpl in *; subst b'; try done.
  destruct (flowgo.Keys acc !! _); done.
Qed.

Lemma signaturesLoop_state msg sigs (b : Blockchain) :
  (signaturesLoop msg sigs b).2 = b.
Proof.
  induction sigs as [|sig sigs IH]; simpl; [done|].
  unfold mbind, M_bind.
  pose proof (testAlternativeHashAlgo_state sig msg b) as Hs.
  destruct (testAlternativeHashAlgo sig msg b) as [[[d|]|] b']; simpl in *;
    subst b'; done.
Qed.

Lemma debugSignatureError_state err tx (b : Blockchain) :
  (debugSignatureError err tx b).2 = b.
Proof.
  assert (Hloop : ∀ (c : bool) msg sigs,
            ((if c then signaturesLoop msg sigs else mret (Returned None)) b).2 = b).
  { intros [|] msg sigs; [apply signaturesLoop_state|done]. }
  unfold debugSignatureError, mbind, M_bind.
  match goal with |- context [(if ?c then signaturesLoop ?m ?l else _) b] =>
    pose proof (Hloop c m l) as Hs;
    destruct ((if c then signaturesLoop m l else mret (Returned None)) b)
      as [[[d|]|] b'] end; simpl in *; subst b'; try done.
  match goal with |- context [(if ?c then signaturesLoop ?m ?l else _) b] =>
    pose proof (Hloop c m l) as Hs;
    destruct ((if c then signaturesLoop m l else mret (Returned None)) b)
      as [[[d|]|] b'] end; simpl in *; subst b'; done.
Qed.

(** What it returns depends on the store and on the context alone. *)
Lemma GetAccount_reads address (b b' : Blockchain) :
  storage_ b' = storage_ b → vmCtx b' = vmCtx b →
  (GetAccount address b').1 = (GetAccount address b).1.
Proof.
  intros Hs Hc. unfold GetAccount, GetLatestBlock, GetAccountAtBlockHeight. run.
  rewrite Hs. destruct (storage.LatestBlock _) as [blk|e]; simpl; [|done].
  rewrite Hs, Hc. destruct (fvm.GetAccount _ _ _) as [account err].
  destruct (fvm.IsAccountNotFoundError err); done.
Qed.

Lemma testAlternativeHashAlgo_reads sig msg (b b' : Blockchain) :
  storage_ b' = storage_ b → vmCtx b' = vmCtx b →
  (testAlternativeHashAlgo sig msg b').1 = (testAlternativeHashAlgo sig msg b).1.
Proof.
  intros Hs Hc. unfold testAlternativeHashAlgo, mbind, M_bind.
  pose proof (GetAccount_reads (flowgo.SigAddress sig) b b' Hs Hc) as Hr.
  destruct (GetAccount _ b) as [r b1], (GetAccount _ b') as [r' b1'].
  simpl in Hr. subst r'. destruct r as [[acc|]|e]; try done.
  destruct (flowgo.Keys acc !! _); done.
Qed.

Lemma signaturesLoop_reads msg sigs (b b' : Blockchain) :
  storage_ b' = storage_ b → vmCtx b' = vmCtx b →
  (signaturesLoop msg sigs b').1 = (signaturesLoop msg sigs b).1.
Proof.
  intros Hs Hc. induction sigs as [|sig sigs IH]; simpl; [done|].
  unfold mbind, M_bind.
  pose proof (testAlternativeHashAlgo_reads sig msg b b' Hs Hc) as Hr.
  pose proof (testAlternativeHashAlgo_state sig msg b) as Hs1.
  pose proof (testAlternativeHashAlgo_state sig msg b') as Hs2.
  destruct (testAlternativeHashAlgo sig msg b) as [d b1],
           (testAlternativeHashAlgo sig msg b') as [d' b1'].
  simpl in *. subst d' b1 b1'. destruct d as [[d|]|]; done.
Qed.

Lemma debugSignatureError_reads err tx (b b' : Blockchain) :
  storage_ b' = storage_ b → vmCtx b' = vmCtx b →
  (debugSignatureError err tx b').1 = (debugSignatureError err tx b).1.
Proof.
  intros Hs Hc.
  assert (Hloop : ∀ (c : bool) msg sigs,
            ((if c then signaturesLoop msg sigs else mret (Returned None)) b').1
            = ((if c then signaturesLoop msg sigs else mret (Returned None)) b).1
            ∧ ((if c then signaturesLoop msg sigs else mret (Returned None)) b).2 = b
            ∧ ((if c then signaturesLoop msg sigs else mret (Returned None)) b').2 = b').
  { intros [|] msg sigs; [|done].
    split; [by apply signaturesLoop_reads|]. split; apply signaturesLoop_state. }
  unfold debugSignatureError, mbind, M_bind.
  match goal with |- context [(if ?c then signaturesLoop ?m ?l else _) b] =>
    destruct (Hloop c m l) as (Hr & Hs1 & Hs2);
    destruct ((if c then signaturesLoop m l else mret (Returned None)) b) as [d b1],
             ((if c then signaturesLoop m l else mret (Returned None)) b') as [d' b1']
  end; simpl in *; subst d' b1 b1'. destruct d as [[d|]|]; try done.
  match goal with |- context [(if ?c then signaturesLoop ?m ?l else _) b] =>
    destruct (Hloop c m l) as (Hr & Hs1 & Hs2);
    destruct ((if c then signaturesLoop m l else mret (Returned None)) b) as [d b1],
             ((if c then signaturesLoop m l else mret (Returned None)) b') as [d' b1']
  end; simpl in *; subst d' b1 b1'. destruct d as [[d|]|]; done.
Qed.

(** The step of execution in terms of the step of the pending block. *)
Lemma executeNextTransaction_unfold ctx (b : Blockchain) :
  executeNextTransaction ctx b =
  if PendingBlock.ExecutionComplete (pendingBlock_ b)
  then (Returned (Err (PendingBlockTransactionsExhaustedError
                         (PendingBlock.ID (pendingBlock_ b)))), b)
  else
    let '(r, p) :=
      PendingBlock.ExecuteNextTransaction (runTransaction ctx) (pendingBlock_ b) in
    let b1 := (setPendingBlock p b).2 in
    (match r with
     | Err err => Returned (Err err)
     | Ok tp => collected b tp
     end, b1).
Proof.
  unfold executeNextTransaction, collected. run.
  destruct (PendingBlock.ExecutionComplete _); [done|].
  destruct (PendingBlock.ExecuteNextTransaction _ _) as [[tp|e] p]; simpl; [|done].
  destruct (VMTransactionResultToEmulator tp) as [tr|e]; simpl; [|done].
  destruct (types.Error tr) as [e|]; simpl; [|done].
  match goal with |- context [debugSignatureError e ?t ?x] =>
    pose proof (debugSignatureError_state e t x) as Hs;
    pose proof (debugSignatureError_reads e t b x eq_refl eq_refl) as Hr;
    destruct (debugSignatureError e t x) as [d b'] end.
  simpl in *. subst b'. rewrite <- Hr. destruct d; done.
Qed.

Lemma mu_executeNextTransaction ctx (b : Blockchain) :
  mu (executeNextTransaction ctx b).2 = mu b.
Proof.
  rewrite executeNextTransaction_unfold.
  destruct (PendingBlock.ExecutionComplete _); [done|].
  destruct (PendingBlock.ExecuteNextTransaction _ _) as [r p]; done.
Qed.

Lemma executeLoop_unfold fuel ctx results (b : Blockchain) :
  executeLoop fuel ctx results b =
  if PendingBlock.ExecutionComplete (pendingBlock_ b)
  then (Some (Returned (results, None)), b)
  else
    match fuel with
    | O => (None, b)
    | Datatypes.S fuel' =>
        match executeNextTransaction ctx b with
        | (Panicked, b') => (Some Panicked, b')
        | (Returned (Err err), b') => (Some (Returned (results, Some err)), b')
        | (Returned (Ok result), b') => executeLoop fuel' ctx (results ++ [result]) b'
        end
    end.
Proof.
  destruct fuel; unfold executeLoop; unfold mbind, M_bind, mret, M_ret, get; simpl;
    destruct (PendingBlock.ExecutionComplete _); try done.
  destruct (executeNextTransaction ctx b) as [[[tr|e]|] b']; done.
Qed.

Lemma mu_executeLoop fuel ctx results (b : Blockchain) :
  mu (executeLoop fuel ctx results b).2 = mu b.
Proof.
  revert results b. induction fuel as [|fuel IH]; intros results b;
    rewrite executeLoop_unfold.
  - destruct (PendingBlock.ExecutionComplete _); done.
  - destruct (PendingBlock.ExecutionComplete _); [done|].
    pose proof (mu_executeNextTransaction ctx b) as Hm.
    destruct (executeNextTransaction ctx b) as [[[tr|e]|] b']; simpl in *; try done.
    rewrite IH. done.
Qed.

Lemma mu_ExecuteBlock (b : Blockchain) : mu (ExecuteBlock b).2 = mu b.
Proof.
  unfold ExecuteBlock. run.
  destruct (PendingBlock.Empty _); [done|].
  destruct (PendingBlock.ExecutionComplete _); [done|].
  apply mu_executeLoop.
Qed.

Lemma mu_AddTransaction tx (b : Blockchain) : mu (AddTransaction tx b).2 = mu b.
Proof.
  unfold AddTransaction. run.
  destruct (PendingBlock.ExecutionStarted _); [done|].
  destruct (PendingBlock.ContainsTransaction _ _); [done|].
  destruct (storage.TransactionByID _ _) as [stored|e]; [done|].
  destruct (storage.errors_Is_ErrNotFound e); simpl; [|done].
  destruct (Validate b tx); done.
Qed.

Lemma mu_commitBlock (b : Blockchain) : mu (commitBlock b).2 = mu b.
Proof.
  unfold commitBlock. run.
  destruct (_ && _); [done|]. destruct (_ && _); [done|].
  destruct (convertToSealedResults _) as [sealed|e]; [|done].
  destruct (storage.CommitBlock _ _ _ _ _ _ _) as [s [e|]]; done.
Qed.

Lemma mu_executeAndCommitBlock (b : Blockchain) :
  mu (executeAndCommitBlock b).2 = mu b.
Proof.
  unfold executeAndCommitBlock, mbind, M_bind, mret, M_ret.
  pose proof (mu_ExecuteBlock b) as He.
  destruct (ExecuteBlock b) as [[[[results [e|]]|]|] b1]; simpl in *; try done.
  pose proof (mu_commitBlock b1) as Hc.
  destruct (commitBlock b1) as [[block|e] b2]; simpl in *; congruence.
Qed.

Lemma acquiresLock_unchanged {A} (m : M (S := S) A) (b : Blockchain) :
  mu (m b).2 = mu b → acquiresLock m b = false.
Proof.
  intros Hm. unfold acquiresLock. rewrite Hm, drop_all.
  apply bool_decide_eq_false. apply not_elem_of_nil.
Qed.

Lemma mu_locked {A} (m : M (S := S) A) (b : Blockchain) :
  (∀ b1, mu (m b1).2 = mu b1) → mu (locked m b).2 = mu b ++ [Lock; Unlock].
Proof.
  intros Hm. unfold locked. run.
  match goal with |- context [m ?x] => specialize (Hm x); destruct (m x) as [a b'] end.
  simpl in *. rewrite Hm, <- app_assoc. done.
Qed.

Lemma acquiresLock_taken {A} (m : M (S := S) A) (b : Blockchain) :
  mu (m b).2 = mu b ++ [Lock; Unlock] → acquiresLock m b = true.
Proof.
  intros Hm. unfold acquiresLock. rewrite Hm, drop_app_length.
  apply bool_decide_eq_true. apply list_elem_of_here.
Qed.

Lemma mu_ResetPendingBlock (b : Blockchain) :
  mu (ResetPendingBlock b).2 = mu b ++ [Lock; Unlock].
Proof.
  unfold ResetPendingBlock. run.
  destruct (storage.LatestBlock _); simpl; by rewrite <- app_assoc.
Qed.

(** C9. The code against the claim: [AddTransaction] and [ExecuteBlock]
    change the pending block without ever calling the mutex, while
    [ExecuteNextTransaction], [CommitBlock], [ExecuteAndCommitBlock] and
    [ResetPendingBlock] take the write lock and release it. *)
Theorem AddTransaction_takes_no_lock (b : Blockchain) (tx : flowgo.TransactionBody) :
  acquiresLock (AddTransaction tx) b = false
  ∧ mu (AddTransaction tx b).2 = mu b
  ∧ acquiresLock ExecuteBlock b = false
  ∧ mu (ExecuteBlock b).2 = mu b
  ∧ acquiresLock ExecuteNextTransaction b = true
  ∧ acquiresLock CommitBlock b = true
  ∧ acquiresLock ExecuteAndCommitBlock b = true
  ∧ acquiresLock ResetPendingBlock b = true.
Proof.
  repeat split.
  - apply acquiresLock_unchanged, mu_AddTransaction.
  - apply mu_AddTransaction.
  - apply acquiresLock_unchanged, mu_ExecuteBlock.
  - apply mu_ExecuteBlock.
  - apply acquiresLock_taken. unfold ExecuteNextTransaction.
    apply mu_locked. intros b1. run. apply mu_executeNextTransaction.
  - apply acquiresLock_taken, mu_locked, mu_commitBlock.
  - apply acquiresLock_taken, mu_locked, mu_executeAndCommitBlock.
  - apply acquiresLock_taken, mu_ResetPendingBlock.
Qed.

(** *** Scripts *)

Lemma executeScriptAtBlock_state script arguments block (b : Blockchain) :
  (executeScriptAtBlock script arguments block b).2 = b.
Proof.
  unfold executeScriptAtBlock. run.
  destruct (fvm.RunScript _ _ _) as [[sp v] [e|]]; [done|].
  destruct (FlowEventsToSDK _); [|done].
  destruct (fvm.SErr sp); done.
Qed.

(** C7. A script run at a committed block leaves the chain state as it
    was: the store (every block, transaction, result, event and register
    of it), the pending block and the machine context after
    [ExecuteScript], [ExecuteScriptAtBlockHeight] and
    [ExecuteScriptAtBlockID] are those before the call. The view the
    machine wrote to is gone: the view of any height is read from the
    store as before, and the same script run again gives the same
    result. *)
Theorem scripts_leave_chain_state (b : Blockchain) (script : string)
    (arguments : list string) (blockHeight : Z) (blockID : flowgo.Identifier) :
  let b1 := (ExecuteScript script arguments b).2 in
  let b2 := (ExecuteScriptAtBlockHeight script arguments blockHeight b).2 in
  let b3 := (ExecuteScriptAtBlockID script arguments blockID b).2 in
  chainState b1 = chainState b
  ∧ chainState b2 = chainState b
  ∧ chainState b3 = chainState b
  ∧ (∀ h, storage.LedgerViewByHeight (storage_ b2) h
          = storage.LedgerViewByHeight (storage_ b) h)
  ∧ (ExecuteScriptAtBlockHeight script arguments blockHeight b2).1
    = (ExecuteScriptAtBlockHeight script arguments blockHeight b).1.
Proof.
  assert (Hs1 : chainState (ExecuteScript script arguments b).2 = chainState b).
  { unfold ExecuteScript, GetLatestBlock, chainState. run.
    destruct (storage.LatestBlock _) as [blk|e]; simpl; [|done].
    match goal with |- context [executeScriptAtBlock ?s ?a ?k ?x] =>
      pose proof (executeScriptAtBlock_state s a k x) as Hs;
      destruct (executeScriptAtBlock s a k x) as [r b'] end.
    simpl in *. subst b'. done. }
  assert (Hs2 : ∀ b0 : Blockchain, chainState b0 = chainState b →
            chainState (ExecuteScriptAtBlockHeight script arguments blockHeight b0).2
            = chainState b
            ∧ (ExecuteScriptAtBlockHeight script arguments blockHeight b0).1
              = (ExecuteScriptAtBlockHeight script arguments blockHeight b).1).
  { intros b0 Hb0. unfold chainState in Hb0.
    injection Hb0 as Hs Hp Hc Ha.
    unfold ExecuteScriptAtBlockHeight, getBlockByHeight, executeScriptAtBlock,
      chainState. run. rewrite Hs, Hc.
    destruct (storage.BlockByHeight _ _) as [blk|e]; simpl.
    - destruct (fvm.RunScript _ _ _) as [[sp v] [e|]]; simpl;
        [by rewrite Hp, Ha|].
      destruct (FlowEventsToSDK _); simpl; [|by rewrite Hp, Ha].
      destruct (fvm.SErr sp); simpl; by rewrite Hp, Ha.
    - destruct (storage.errors_Is_ErrNotFound e); simpl; by rewrite Hp, Ha. }
  assert (Hs3 : chainState (ExecuteScriptAtBlockID script arguments blockID b).2
               = chainState b).
  { unfold ExecuteScriptAtBlockID, GetBlockByID. run.
    destruct (storage.BlockByID _ _) as [blk|e]; simpl.
    - by rewrite executeScriptAtBlock_state.
    - destruct (storage.errors_Is_ErrNotFound e); done. }
  simpl. destruct (Hs2 b eq_refl) as [H2a _].
  repeat split; try done.
  - intros h. unfold chainState in H2a. injection H2a as -> _ _ _. done.
  - by destruct (Hs2 _ H2a) as [_ ->].
Qed.

(** *** Execution *)

Lemma executeNextTransaction_at ctx (b : Blockchain) tx :
  let p := pendingBlock_ b in
  transactions p !! index p = Some tx →
  executeNextTransaction ctx b =
  let '(tp, v, fatal) :=
    fvm.RunTransaction ctx (fvm.NewTransaction tx (Z.of_nat (index p))) (ledgerView p) in
  match fatal with
  | Some e =>
      (Returned (Err (FlowError e)), (setPendingBlock (PendingBlock.withLedgerView v p) b).2)
  | None => (collected b tp, (setPendingBlock (PendingBlock.record tx tp v p) b).2)
  end.
Proof.
  intros p Hq. pose proof (lookup_lt_Some _ _ _ Hq) as Hlt.
  rewrite executeNextTransaction_unfold.
  unfold PendingBlock.ExecuteNextTransaction, PendingBlock.ExecutionComplete,
    PendingBlock.Size, runTransaction. fold p.
  destruct (Nat.eqb_spec (index p) (length (transactions p))) as [E|E]; [lia|].
  rewrite Hq.
  destruct (fvm.RunTransaction _ _ _) as [[tp v] [e|]]; done.
Qed.

(** The loop of the code against the walk of the queue: the same outcome,
    and, when the walk ends without an error, one result for each
    transaction, the cursor at the end of the queue and the view the one
    the machine left after the last transaction. *)
Lemma executeLoop_in_order (b0 : Blockchain) ctx queue :
  ∀ fuel results (b : Blockchain),
    storage_ b = storage_ b0 → vmCtx b = vmCtx b0 →
    (index (pendingBlock_ b) ≤ PendingBlock.Size (pendingBlock_ b))%nat →
    drop (index (pendingBlock_ b)) (transactions (pendingBlock_ b)) = queue →
    (length queue < fuel)%nat →
    let p := pendingBlock_ b in
    let walk := executeInOrder b0 ctx queue (index p) (ledgerView p) in
    let r := executeLoop fuel ctx results b in
    r.1 = Some match walk with
               | Panicked => Panicked
               | Returned (more, err) => Returned (results ++ more, err)
               end
    ∧ match walk with
      | Returned (more, None) =>
          length more = length queue
          ∧ ledgerView (pendingBlock_ r.2) = viewInOrder ctx queue (index p) (ledgerView p)
          ∧ index (pendingBlock_ r.2) = (index p + length queue)%nat
          ∧ transactions (pendingBlock_ r.2) = transactions p
      | Returned (more, Some _) => (length more < length queue)%nat
      | Panicked => True
      end.
Proof.
  induction queue as [|tx queue IH]; intros fuel results b Hs Hc Hle Hq Hf p walk r;
    subst r walk; rewrite executeLoop_unfold;
    unfold PendingBlock.ExecutionComplete, PendingBlock.Size in *; fold p in Hle, Hq |- *.
  - apply drop_nil_inv in Hq.
    destruct (Nat.eqb_spec (index p) (length (transactions p))) as [E|E]; [|lia].
    simpl. rewrite app_nil_r. repeat split; (done || lia).
  - assert (Hlook : transactions p !! index p = Some tx).
    { rewrite <- (Nat.add_0_r (index _)), <- lookup_drop, Hq. done. }
    pose proof (lookup_lt_Some _ _ _ Hlook) as Hlt.
    destruct (Nat.eqb_spec (index p) (length (transactions p))) as [E|E]; [lia|].
    destruct fuel as [|fuel]; [simpl in Hf; lia|].
    rewrite (executeNextTransaction_at ctx b tx Hlook). fold p. simpl.
    destruct (fvm.RunTransaction _ _ _) as [[tp v] [e|]] eqn:Hrun; simpl.
    { rewrite app_nil_r. split; [done|lia]. }
    unfold collected.
    destruct (VMTransactionResultToEmulator tp) as [tr|e]; simpl.
    2: { rewrite app_nil_r. split; [done|lia]. }
    assert (Hgo : ∀ result,
      let b1 := (setPendingBlock (PendingBlock.record tx tp v p) b).2 in
      let walk := executeInOrder b0 ctx queue (Datatypes.S (index p)) v in
      let r := executeLoop fuel ctx (results ++ [result]) b1 in
      r.1 = Some match walk with
                 | Panicked => Panicked
                 | Returned (more, err) => Returned (results ++ result :: more, err)
                 end
      ∧ match walk with
        | Returned (more, None) =>
            length (result :: more) = Datatypes.S (length queue)
            ∧ ledgerView (pendingBlock_ r.2)
              = viewInOrder ctx queue (Datatypes.S (index p)) v
            ∧ index (pendingBlock_ r.2) = (index p + Datatypes.S (length queue))%nat
            ∧ transactions (pendingBlock_ r.2) = transactions p
        | Returned (more, Some _) =>
            (length (result :: more) < Datatypes.S (length queue))%nat
        | Panicked => True
        end).
    { intros result b1 walk r.
      destruct (IH fuel (results ++ [result]) b1) as [IH1 IH2].
      { done. }
      { done. }
      { simpl. lia. }
      { simpl. replace (Datatypes.S (index p)) with (index p + 1)%nat by lia.
        rewrite <- drop_drop. fold p. rewrite Hq. done. }
      { simpl in Hf. lia. }
      simpl in IH1, IH2. fold walk in IH1, IH2. fold r in IH1, IH2.
      split.
      + rewrite IH1. destruct walk as [[more err]|]; [|done].
        by rewrite <- app_assoc.
      + destruct walk as [[more [err|]]|]; simpl; [lia| |done].
        destruct IH2 as (? & ? & ? & ?). repeat split; (done || lia). }
    destruct (types.Error tr) as [e|]; simpl.
    + rewrite (debugSignatureError_reads e (fvm.Transaction tp) b0 b) by done.
      destruct (debugSignatureError e (fvm.Transaction tp) b0).1 as [debug|];
        simpl; [|done].
      specialize (Hgo (types.withDebug (Some debug) tr)). simpl in Hgo.
      destruct (executeInOrder b0 ctx queue _ v) as [[more [err|]]|]; simpl in *;
        exact Hgo.
    + specialize (Hgo tr). simpl in Hgo.
      destruct (executeInOrder b0 ctx queue _ v) as [[more [err|]]|]; simpl in *;
        exact Hgo.
Qed.

(** The walk panics only where [debugSignatureError] does. *)
Lemma executeInOrder_panics (b : Blockchain) ctx queue :
  ∀ position view,
    executeInOrder b ctx queue position view = Panicked →
    ∃ e tx, (debugSignatureError e tx b).1 = Panicked.
Proof.
  induction queue as [|tx queue IH]; intros position view; simpl; [done|].
  destruct (fvm.RunTransaction _ _ _) as [[tp v] [e|]]; [done|].
  destruct (VMTransactionResultToEmulator tp) as [tr|e]; [|done].
  destruct (types.Error tr) as [e|].
  - destruct (debugSignatureError e (fvm.Transaction tp) b).1 as [debug|] eqn:Hd;
      [|by eexists _, _].
    destruct (executeInOrder b ctx queue _ v) as [[more err]|] eqn:Hw; [done|].
    intros _. by eapply IH.
  - destruct (executeInOrder b ctx queue _ v) as [[more err]|] eqn:Hw; [done|].
    intros _. by eapply IH.
Qed.

(** C3. [ExecuteBlock] on an empty pending block returns an empty list
    and no error; on a block whose execution is complete, the
    transactions-exhausted error. Otherwise its outcome is that of the walk
    of the queue from the cursor on: each transaction is run by the
    virtual machine at its position, in admission order, on the view the
    one before it left, and the first fatal error ends the run. When it
    returns without an error it has one result for each of these
    transactions, the block is complete and its view is the one the
    machine left after the last of them; when it returns an error, fewer
    results than transactions. It does not return at all where
    [debugSignatureError] panics, and only there. *)
Theorem ExecuteBlock_in_order (b : Blockchain) (prev : flowgo.Block) :
  let p := pendingBlock_ b in
  let ctx := fvm.NewContextFromParent (vmCtx b) (flowgo.BHeader (PendingBlock.Block p)) in
  let queue := drop (index p) (transactions p) in
  let r := ExecuteBlock b in
  lifecycle prev p →
  (PendingBlock.Empty p = true → r = (Some (Returned ([], None)), b))
  ∧ (PendingBlock.Empty p = false → PendingBlock.ExecutionComplete p = true →
     r = (Some (Returned
                  ([], Some (PendingBlockTransactionsExhaustedError (PendingBlock.ID p)))),
          b))
  ∧ (PendingBlock.Empty p = false → PendingBlock.ExecutionComplete p = false →
     r.1 = Some (executeInOrder b ctx queue (index p) (ledgerView p))
     ∧ (∀ results, r.1 = Some (Returned (results, None)) →
          length results = length queue
          ∧ PendingBlock.ExecutionComplete (pendingBlock_ r.2) = true
          ∧ ledgerView (pendingBlock_ r.2)
            = viewInOrder ctx queue (index p) (ledgerView p))
     ∧ (∀ results e, r.1 = Some (Returned (results, Some e)) →
          (length results < length queue)%nat)
     ∧ (r.1 = Some Panicked → ∃ e tx, (debugSignatureError e tx b).1 = Panicked)).
Proof.
  intros p ctx queue r Hl. pose proof (lifecycle_index_le _ _ Hl) as Hle. fold p in Hle.
  subst r. split; [|split].
  - unfold ExecuteBlock. run. fold p. intros ->. done.
  - unfold ExecuteBlock. run. fold p. intros -> ->. done.
  - intros He Hc.
    assert (Hloop : ExecuteBlock b
              = executeLoop (Datatypes.S (PendingBlock.Size p - index p)) ctx [] b).
    { unfold ExecuteBlock. run. fold p. rewrite He, Hc. done. }
    rewrite Hloop. clear Hloop.
    destruct (executeLoop_in_order b ctx queue
                (Datatypes.S (PendingBlock.Size p - index p)) [] b)
      as [Hr Hw]; try done.
    { subst queue. rewrite length_drop. unfold PendingBlock.Size. lia. }
    fold p in Hr, Hw.
    destruct (executeLoop _ ctx [] b) as [o b'] eqn:Hrun. simpl in Hr, Hw |- *.
    subst o.
    destruct (executeInOrder b ctx queue (index p) (ledgerView p))
      as [[results err]|] eqn:Hwalk.
    + split; [done|]. split; [|split; [|done]].
      * intros results' [= <- ->]. destruct Hw as (Hlen & Hv & Hi & Ht).
        split; [done|]. split; [|done].
        unfold PendingBlock.ExecutionComplete, PendingBlock.Size.
        rewrite Ht, Hi. apply Nat.eqb_eq. subst queue. rewrite length_drop.
        unfold PendingBlock.Size in Hle. lia.
      * intros results' e [= <- ->]. done.
    + split; [done|]. split; [done|]. split; [done|].
      intros _. by eapply executeInOrder_panics.
Qed.

Lemma record_results_other tx tp v p id :
  id ≠ TransactionBody_ID tx →
  transactionResults (PendingBlock.record tx tp v p) !! id = transactionResults p !! id.
Proof. intros Hne. simpl. by rewrite lookup_insert_ne. Qed.

Lemma convertToSealedResults_lookup results sealed id itr :
  convertToSealedResults results = Ok sealed →
  results !! id = Some itr →
  ∃ sr, ToStorableResult (Transaction itr) = Ok sr ∧ sealed !! id = Some sr.
Proof.
  unfold convertToSealedResults. intros Hc Hr.
  apply elem_of_map_to_list in Hr.
  pose proof (NoDup_fst_map_to_list results) as Hnd.
  revert sealed Hc Hr Hnd.
  induction (map_to_list results) as [|[k x] l IH]; intros sealed Hc Hr Hnd.
  - by apply elem_of_nil in Hr.
  - simpl in Hc, Hnd. apply NoDup_cons in Hnd as [Hk Hnd].
    destruct (foldr _ _ l) as [output|e] eqn:Hf; [|done].
    destruct (ToStorableResult (Transaction x)) as [temp|e] eqn:Ht; [|done].
    injection Hc as <-.
    apply elem_of_cons in Hr as [[= <- <-]|Hr].
    + exists temp. split; [done|]. apply lookup_insert_eq.
    + destruct (IH output eq_refl Hr Hnd) as (sr & Hsr & Hlk).
      exists sr. split; [done|].
      rewrite lookup_insert_ne; [done|].
      intros <-. apply Hk. apply list_elem_of_fmap. by exists (k, itr).
Qed.

Lemma lifecycle_executed_in_queue prev p id :
  lifecycle prev p → is_Some (transactionResults p !! id) →
  (0 < index p)%nat ∧ id ∈ PendingBlock.transactionIDs p
  ∧ PendingBlock.Collections p
    = [ {| flowgo.Transactions := PendingBlock.transactionIDs p |} ].
Proof.
  intros Hl Hr. pose proof (lifecycle_results _ _ _ Hl Hr) as Hin.
  unfold executedIDs in Hin.
  assert (Hq : id ∈ PendingBlock.transactionIDs p)
    by (apply (subseteq_take (index p)); exact Hin).
  split; [|split; [done|]].
  - destruct (index p); [|lia]. rewrite take_0 in Hin. by apply elem_of_nil in Hin.
  - unfold PendingBlock.Collections, PendingBlock.transactionIDs in *.
    destruct (transactions p); [|done]. by apply elem_of_nil in Hq.
Qed.

(** C4, as amended. For a pending block with an unexecuted transaction
    that the virtual machine runs to a procedure, succeeded or reverted:
    the step advances the cursor by one and records the procedure under the
    transaction's ID (this much is the pending block's own method), it
    does not return the transaction's error as an error of the step, and
    later steps keep the record. Once the block is complete the guards of
    [CommitBlock] do not refuse it, and the transaction is in the block's
    collection: when the conversion of the results and the store's commit
    succeed, the block is committed and the store has been handed the
    result of the procedure, the one that holds the error, converted for
    storage; when the conversion or the store's commit fails, [CommitBlock]
    returns that error and the pending block stays as it was, the
    transaction in it. *)
Theorem reverted_transaction_is_sealed (b : Blockchain) (prev : flowgo.Block)
    (ctx : fvm.Context) (tx : flowgo.TransactionBody) :
  let p := pendingBlock_ b in
  let id := TransactionBody_ID tx in
  let step := executeNextTransaction ctx b in
  let p1 := pendingBlock_ step.2 in
  let run :=
    fvm.RunTransaction ctx (fvm.NewTransaction tx (Z.of_nat (index p))) (ledgerView p) in
  lifecycle prev p →
  transactions p !! index p = Some tx →
  ∀ tp v, run = (tp, v, None) →
    let recorded := {| Transaction := tp; Index := Z.of_nat (index p) |} in
    index p1 = Datatypes.S (index p)
    ∧ transactionResults p1 !! id = Some recorded
    ∧ lifecycle prev p1
    ∧ (∀ tr, VMTransactionResultToEmulator tp = Ok tr →
         ∀ e, step.1 ≠ Returned (Err e))
    ∧ (∀ execute,
         transactionResults (PendingBlock.ExecuteNextTransaction execute p1).2 !! id
         = Some recorded)
    ∧ (∀ b2 : Blockchain,
         let p2 := pendingBlock_ b2 in
         let commit sealed :=
           storage.CommitBlock (storage_ b2) (PendingBlock.Block p2)
             (PendingBlock.Collections p2) (PendingBlock.Transactions p2) sealed
             (PendingBlock.LedgerDelta p2) (PendingBlock.Events p2) in
         lifecycle prev p2 →
         PendingBlock.ExecutionComplete p2 = true →
         transactionResults p2 !! id = Some recorded →
         (∃ col, PendingBlock.Collections p2 = [col] ∧ id ∈ flowgo.Transactions col)
         ∧ (∀ sealed s',
              convertToSealedResults (PendingBlock.TransactionResults p2) = Ok sealed →
              commit sealed = (s', None) →
              (CommitBlock b2).1 = Ok (PendingBlock.Block p2)
              ∧ storage_ (CommitBlock b2).2 = s'
              ∧ ∃ sr, ToStorableResult tp = Ok sr ∧ sealed !! id = Some sr)
         ∧ (∀ e,
              convertToSealedResults (PendingBlock.TransactionResults p2) = Err e →
              (CommitBlock b2).1 = Err e ∧ pendingBlock_ (CommitBlock b2).2 = p2)
         ∧ (∀ sealed s' e,
              convertToSealedResults (PendingBlock.TransactionResults p2) = Ok sealed →
              commit sealed = (s', Some e) →
              (CommitBlock b2).1 = Err (BackendError e)
              ∧ pendingBlock_ (CommitBlock b2).2 = p2)).
Proof.
  intros p id step p1 run Hl Hq tp v Hrun recorded. subst run.
  assert (Hstep : step = (collected b tp,
                          (setPendingBlock (PendingBlock.record tx tp v p) b).2)).
  { subst step. rewrite (executeNextTransaction_at ctx b tx Hq). fold p.
    rewrite Hrun. done. }
  assert (Hp1 : p1 = PendingBlock.record tx tp v p) by (subst p1; by rewrite Hstep).
  assert (Hl1 : lifecycle prev p1).
  { replace p1 with (PendingBlock.ExecuteNextTransaction (runTransaction ctx) p).2;
      [by apply lifecycle_exec|].
    rewrite Hp1. unfold PendingBlock.ExecuteNextTransaction, runTransaction.
    rewrite Hq, Hrun. done. }
  assert (Hrec : transactionResults p1 !! id = Some recorded).
  { rewrite Hp1. simpl. apply lookup_insert_eq. }
  split; [by rewrite Hp1|]. split; [done|]. split; [done|]. split; [|split].
  - intros tr Htr e. rewrite Hstep. simpl. unfold collected. rewrite Htr.
    destruct (types.Error tr) as [e'|]; [|done].
    destruct (debugSignatureError e' (fvm.Transaction tp) b).1; done.
  - intros execute. unfold PendingBlock.ExecuteNextTransaction.
    destruct (transactions p1 !! index p1) as [tx'|] eqn:Hq'; [|done].
    destruct (execute _ _ _) as [[tp'|e] v']; simpl; [|done].
    rewrite lookup_insert_ne; [done|].
    pose proof (lifecycle_NoDup _ _ Hl1) as Hnd.
    unfold PendingBlock.transactionIDs in Hnd.
    assert (Hk1 : (TransactionBody_ID <$> transactions p1) !! index p
                  = Some (TransactionBody_ID tx)).
    { rewrite list_lookup_fmap, Hp1. simpl. by rewrite Hq. }
    assert (Hk2 : (TransactionBody_ID <$> transactions p1) !! index p1
                  = Some (TransactionBody_ID tx')).
    { by rewrite list_lookup_fmap, Hq'. }
    intros Heq. fold id in Hk1. rewrite Heq in Hk2.
    pose proof (NoDup_lookup _ _ _ _ Hnd Hk1 Hk2) as Hidx.
    rewrite Hp1 in Hidx. simpl in Hidx. lia.
  - intros b2 p2 commit Hl2 Hc Hr. subst commit.
    destruct (lifecycle_executed_in_queue _ _ id Hl2) as (Hi & Hin & Hcol);
      [by rewrite Hr|].
    split; [eexists; split; [exact Hcol|done]|].
    assert (Hgo : CommitBlock b2
              = let b3 := (call Lock b2).2 in
                match convertToSealedResults (PendingBlock.TransactionResults p2) with
                | Err e => (Err e, (call Unlock b3).2)
                | Ok sealed =>
                    let '(s', oe) :=
                      storage.CommitBlock (storage_ b2) (PendingBlock.Block p2)
                        (PendingBlock.Collections p2) (PendingBlock.Transactions p2)
                        sealed (PendingBlock.LedgerDelta p2) (PendingBlock.Events p2) in
                    match oe with
                    | Some e =>
                        (Err (BackendError e), (call Unlock (setStorage s' b3).2).2)
                    | None =>
                        (Ok (PendingBlock.Block p2),
                         (call Unlock
                            (setPendingBlock
                               (PendingBlock.newPendingBlock (PendingBlock.Block p2)
                                  (storage.LedgerViewByHeight s'
                                     (flowgo.Height
                                        (flowgo.BHeader (PendingBlock.Block p2)))))
                               (setStorage s' b3).2).2).2)
                    end
                end).
    { unfold CommitBlock, commitBlock. run. fold p2.
      unfold PendingBlock.ExecutionStarted.
      destruct (Nat.ltb_spec 0 (index p2)) as [L|L]; [|lia]. simpl.
      rewrite Hc. simpl.
      destruct (convertToSealedResults _) as [sealed|e]; [|done].
      destruct (storage.CommitBlock _ _ _ _ _ _ _) as [s' [e|]]; done. }
    rewrite Hgo. clear Hgo. split; [|split].
    + intros sealed s' Hconv Hs. rewrite Hconv, Hs. simpl.
      split; [done|]. split; [done|].
      apply (convertToSealedResults_lookup _ _ _ _ Hconv Hr).
    + intros e Hconv. rewrite Hconv. done.
    + intros sealed s' e Hconv Hs. rewrite Hconv, Hs. done.
Qed.

(** *** Event queries *)

Lemma heightRangeLoop_unfold fuel eventType height endHeight results (b : Blockchain) :
  heightRangeLoop fuel eventType height endHeight results b =
  if endHeight <? height then (Some (Ok results), b) else
  match fuel with
  | O => (None, b)
  | Datatypes.S fuel' =>
      match (getBlockByHeight height b).1 with
      | Err err => (Some (Err err), b)
      | Ok block =>
          match storage.EventsByHeight (storage_ b) height eventType with
          | Err err => (Some (Err (BackendError err)), b)
          | Ok events =>
              heightRangeLoop fuel' eventType (wrap64 (height + 1)) endHeight
                (results ++
                 [ {| flowgo.BlockID := Block_ID block;
                      flowgo.BlockHeight := flowgo.Height (flowgo.BHeader block);
                      flowgo.BlockTimestamp := flowgo.Timestamp (flowgo.BHeader block);
                      flowgo.Events := events |} ]) b
          end
      end
  end.
Proof.
  destruct fuel; unfold heightRangeLoop, GetBlockByHeight, getBlockByHeight,
    GetEventsByHeight; run; destruct (endHeight <? height); try done.
  destruct (storage.BlockByHeight (storage_ b) height) as [blk|e]; simpl.
  - destruct (storage.EventsByHeight (storage_ b) height eventType); done.
  - destruct (storage.errors_Is_ErrNotFound e); done.
Qed.

Lemma heightRangeLoop_spec eventType endHeight (b : Blockchain) :
  endHeight < uint64_max →
  ∀ n height results,
    0 ≤ height → Z.of_nat n = endHeight - height + 1 →
    ∃ out,
      heightRangeLoop n eventType height endHeight results b = (Some out, b)
      ∧ match out with
        | Ok all =>
            ∃ new, all = results ++ new
                   ∧ Forall2 (blockEventsAt (storage_ b) eventType)
                       (seqZ height (Z.of_nat n)) new
        | Err _ =>
            ∃ h, height ≤ h ≤ endHeight
                 ∧ (is_Ok (storage.BlockByHeight (storage_ b) h) = false
                    ∨ is_Ok (storage.EventsByHeight (storage_ b) h eventType) = false)
        end.
Proof.
  intros Hmax. induction n as [|n IH]; intros height results Hh Hn;
    rewrite heightRangeLoop_unfold.
  - destruct (Z.ltb_spec endHeight height) as [L|L]; [|lia].
    exists (Ok results). split; [done|]. exists []. rewrite app_nil_r. split; [done|].
    constructor.
  - destruct (Z.ltb_spec endHeight height) as [L|L]; [lia|].
    unfold getBlockByHeight. run.
    destruct (storage.BlockByHeight (storage_ b) height) as [blk|e] eqn:Hb; simpl.
    2: { destruct (storage.errors_Is_ErrNotFound e); simpl;
           (eexists; split; [done|]; exists height; split; [lia|]; left;
            by rewrite Hb). }
    destruct (storage.EventsByHeight (storage_ b) height eventType) as [evs|e] eqn:He.
    2: { eexists; split; [done|]. exists height. split; [lia|]. right. by rewrite He. }
    assert (Hw : wrap64 (height + 1) = height + 1).
    { unfold wrap64. apply Z.mod_small. unfold uint64_max in Hmax. lia. }
    rewrite Hw.
    match goal with |- context [heightRangeLoop n eventType (height + 1) endHeight ?rs b] =>
      destruct (IH (height + 1) rs) as (out & Hout & Hspec); [lia|lia|] end.
    exists out. split; [done|].
    destruct out as [all|e].
    + destruct Hspec as (new & -> & Hall).
      eexists. split; [by rewrite <- app_assoc|].
      rewrite seqZ_cons by lia.
      constructor.
      * exists blk, evs. done.
      * replace (Z.succ height) with (height + 1) by lia.
        replace (Z.pred (Z.of_nat (Datatypes.S n))) with (Z.of_nat n) by lia. done.
    + destruct Hspec as (h & Hh' & Hfail). exists h. split; [lia|done].
Qed.

Lemma heightRangeLoop_state n eventType height endHeight results (b : Blockchain) :
  (heightRangeLoop n eventType height endHeight results b).2 = b.
Proof.
  revert height results.
  induction n as [|n IH]; intros height results; rewrite heightRangeLoop_unfold;
    destruct (_ <? height); try done.
  destruct ((getBlockByHeight height b).1); [|done].
  destruct (storage.EventsByHeight _ _ _); [|done]. apply IH.
Qed.

Lemma GetEventsForHeightRange_state eventType startHeight endHeight (b : Blockchain) :
  (GetEventsForHeightRange eventType startHeight endHeight b).2 = b.
Proof.
  unfold GetEventsForHeightRange, GetLatestBlock.
  destruct (validateEventType eventType); [done|]. run.
  destruct (storage.LatestBlock (storage_ b)); simpl; [|done].
  destruct (_ <? startHeight); [done|]. apply heightRangeLoop_state.
Qed.

(** C5, as amended. A blank event type is rejected first, with an error
    and no results, whatever the heights, and a failure to read the latest
    block is returned next. For a query whose event type is not blank, on
    a store whose latest block can be read (its height below the largest
    [uint64]):
    an end height of 0 or above the latest height is replaced by the latest
    height; when the start height is above that end, the call returns the
    invalid-argument error and no result; otherwise the call returns, and
    its results have one entry per height from start to end, ascending,
    each with the ID, height and timestamp of the block stored at that
    height and the events stored for it under the type; they are returned
    whenever every block and event lookup in the range succeeds, and an
    error is returned only when a lookup in the range fails. *)
Theorem GetEventsForHeightRange_clamps (b : Blockchain) (eventType : string)
    (startHeight endHeight : Z) :
  let r := GetEventsForHeightRange eventType startHeight endHeight b in
  let s := storage_ b in
  0 ≤ startHeight →
  r.2 = b
  ∧ (∀ e, validateEventType eventType = Some e → r.1 = Some (Err e))
  ∧ (validateEventType eventType = None →
     ∀ e, storage.LatestBlock s = Err e → r.1 = Some (Err (StorageError e)))
  ∧ (validateEventType eventType = None →
     ∀ latest, storage.LatestBlock s = Ok latest →
     let top := flowgo.Height (flowgo.BHeader latest) in
     let clamped := if (endHeight =? 0) || (top <? endHeight) then top else endHeight in
     top < uint64_max →
     (clamped < startHeight →
        r.1 = Some (Err (InvalidArgumentError "startHeight > endHeight")))
     ∧ (startHeight ≤ clamped →
        (∃ out, r.1 = Some out)
        ∧ (∀ results, r.1 = Some (Ok results) →
             Forall2 (blockEventsAt s eventType)
               (seqZ startHeight (clamped - startHeight + 1)) results)
        ∧ ((∀ h, startHeight ≤ h ≤ clamped →
              is_Ok (storage.BlockByHeight s h) = true
              ∧ is_Ok (storage.EventsByHeight s h eventType) = true) →
           ∃ results, r.1 = Some (Ok results))
        ∧ (∀ e, r.1 = Some (Err e) →
             ∃ h, startHeight ≤ h ≤ clamped
                  ∧ (is_Ok (storage.BlockByHeight s h) = false
                     ∨ is_Ok (storage.EventsByHeight s h eventType) = false)))).
Proof.
  intros r s Hs. subst r s.
  split; [apply GetEventsForHeightRange_state|].
  unfold GetEventsForHeightRange, GetLatestBlock.
  destruct (validateEventType eventType) as [ve|] eqn:Hv.
  { run. split; [by intros e [= <-]|]. split; done. }
  run. destruct (storage.LatestBlock (storage_ b)) as [latest|le] eqn:Hl; simpl.
  2: { split; [done|]. split; [by intros _ e [= <-]|]. by intros _ ? [=]. }
  split; [done|]. split; [by intros _ ? [=]|].
  intros _ latest' [= <-].
  set (top := flowgo.Height (flowgo.BHeader latest)).
  set (clamped := if (endHeight =? 0) || (top <? endHeight) then top else endHeight).
  intros Hmax.
  assert (Hc : clamped < uint64_max).
  { subst clamped. destruct (endHeight =? 0); simpl; [done|].
    destruct (Z.ltb_spec top endHeight); lia. }
  destruct (Z.ltb_spec clamped startHeight) as [L|L].
  { split; [done|]. lia. }
  destruct (heightRangeLoop_spec eventType clamped b Hc
              (Z.to_nat (clamped - startHeight + 1)) startHeight [])
    as (out & Hout & Hspec); [lia|lia|].
  rewrite Hout. simpl. split; [lia|]. intros _.
  split; [by exists out|]. split; [|split].
  - intros results [= ->]. destruct Hspec as (new & -> & Hall).
    simpl. rewrite Z2Nat.id in Hall by lia. done.
  - intros Hok. destruct out as [all|e]; [by exists all|].
    destruct Hspec as (h & Hh & Hfail).
    destruct (Hok h Hh) as [H1' H2']. destruct Hfail; congruence.
  - intros e [= ->]. done.
Qed.

(** *** The lifecycle is an invariant of the emulator *)

(** Every operation that changes the pending block leaves it in a state of
    the lifecycle: admissions, execution steps, whole-block execution,
    commits and resets. *)

Lemma AddTransaction_inLifecycle tx (b : Blockchain) :
  inLifecycle b → inLifecycle (AddTransaction tx b).2.
Proof.
  intros [prev Hl]. exists prev. unfold AddTransaction. run.
  destruct (PendingBlock.ExecutionStarted _) eqn:Hs; [done|].
  destruct (PendingBlock.ContainsTransaction _ _) eqn:Hc; [done|].
  destruct (storage.TransactionByID _ _) as [stored|e]; [done|].
  destruct (storage.errors_Is_ErrNotFound e); simpl; [|done].
  destruct (Validate b tx); simpl; [done|].
  by apply lifecycle_add.
Qed.

Lemma executeNextTransaction_inLifecycle ctx (b : Blockchain) :
  inLifecycle b → inLifecycle (executeNextTransaction ctx b).2.
Proof.
  intros [prev Hl]. exists prev. rewrite executeNextTransaction_unfold.
  destruct (PendingBlock.ExecutionComplete _); [done|].
  pose proof (lifecycle_exec prev _ (runTransaction ctx) Hl) as Hl'.
  destruct (PendingBlock.ExecuteNextTransaction _ _) as [r p]; done.
Qed.

Lemma executeLoop_inLifecycle fuel ctx results (b : Blockchain) :
  inLifecycle b → inLifecycle (executeLoop fuel ctx results b).2.
Proof.
  revert results b.
  induction fuel as [|fuel IH]; intros results b Hb; rewrite executeLoop_unfold.
  - destruct (PendingBlock.ExecutionComplete _); exact Hb.
  - destruct (PendingBlock.ExecutionComplete _); [exact Hb|].
    pose proof (executeNextTransaction_inLifecycle ctx b Hb) as Hb'.
    destruct (executeNextTransaction ctx b) as [[[tr|e]|] b']; try exact Hb'.
    apply IH. exact Hb'.
Qed.

Lemma ExecuteBlock_inLifecycle (b : Blockchain) :
  inLifecycle b → inLifecycle (ExecuteBlock b).2.
Proof.
  intros Hb. unfold ExecuteBlock, mbind, M_bind, get, mret, M_ret.
  destruct (PendingBlock.Empty _); [exact Hb|].
  destruct (PendingBlock.ExecutionComplete _); [exact Hb|].
  by apply executeLoop_inLifecycle.
Qed.

Lemma commitBlock_inLifecycle (b : Blockchain) :
  inLifecycle b → inLifecycle (commitBlock b).2.
Proof.
  intros Hb. unfold commitBlock. run.
  destruct (_ && _); [done|]. destruct (_ && _); [done|].
  destruct (convertToSealedResults _) as [sealed|e]; [|done].
  destruct (storage.CommitBlock _ _ _ _ _ _ _) as [s [e|]]; simpl; [done|].
  eexists. apply lifecycle_new.
Qed.

Lemma ResetPendingBlock_inLifecycle (b : Blockchain) :
  inLifecycle b → inLifecycle (ResetPendingBlock b).2.
Proof.
  intros Hb. unfold ResetPendingBlock. run.
  destruct (storage.LatestBlock _) as [latest|e]; simpl; [|done].
  eexists. apply lifecycle_new.
Qed.

(** After a reset that succeeds, the pending block is open and built on the
    latest committed block. *)
Lemma ResetPendingBlock_on_latest (b : Blockchain) latest :
  storage.LatestBlock (storage_ b) = Ok latest →
  (ResetPendingBlock b).1 = None
  ∧ pendingBlock_ (ResetPendingBlock b).2
    = PendingBlock.newPendingBlock latest
        (storage.LedgerViewByHeight (storage_ b) (flowgo.Height (flowgo.BHeader latest)))
  ∧ lifecycle latest (pendingBlock_ (ResetPendingBlock b).2).
Proof.
  intros Hl. unfold ResetPendingBlock. run. rewrite Hl. simpl.
  repeat split. apply lifecycle_new.
Qed.

(** *** Admission, execution and commit, composed *)





(** The blockchain with another pending block. *)
Lemma AddTransaction_admitted tx (b : Blockchain) :
  (AddTransaction tx b).1 = None →
  PendingBlock.ExecutionStarted (pendingBlock_ b) = false
  ∧ PendingBlock.ContainsTransaction (pendingBlock_ b) (TransactionBody_ID tx) = false
  ∧ (AddTransaction tx b).2
    = (setPendingBlock (PendingBlock.AddTransaction tx (pendingBlock_ b)) b).2.
Proof.
  unfold AddTransaction. run.
  destruct (PendingBlock.ExecutionStarted (pendingBlock_ b)) eqn:Hs; [done|].
  destruct (PendingBlock.ContainsTransaction _ _) eqn:Hc; [done|].
  destruct (storage.TransactionByID _ _) as [stored|e]; [done|].
  destruct (storage.errors_Is_ErrNotFound e); simpl; [|done].
  destruct (Validate b tx); simpl; done.
Qed.


Lemma sameQueue_refl p : sameQueue p p.
Proof. by repeat split. Qed.

Lemma sameQueue_trans p q r : sameQueue p q → sameQueue q r → sameQueue p r.
Proof. unfold sameQueue. intros (?&?&?&?&?) (?&?&?&?&?). repeat split; congruence. Qed.

Lemma sameQueue_Block p p' :
  sameQueue p p' →
  PendingBlock.Block p' = PendingBlock.Block p
  ∧ PendingBlock.Collections p' = PendingBlock.Collections p
  ∧ PendingBlock.Transactions p' = PendingBlock.Transactions p
  ∧ PendingBlock.Size p' = PendingBlock.Size p
  ∧ PendingBlock.ID p' = PendingBlock.ID p.
Proof.
  intros (Hh & Hv & Hp & Ht & Hq).
  assert (Hc : PendingBlock.Collections p' = PendingBlock.Collections p).
  { unfold PendingBlock.Collections, PendingBlock.transactionIDs. by rewrite Hq. }
  assert (Hb : PendingBlock.Block p' = PendingBlock.Block p).
  { unfold PendingBlock.Block. by rewrite Hh, Hv, Hp, Ht, Hc. }
  unfold PendingBlock.ID, PendingBlock.Transactions, PendingBlock.Size.
  by rewrite Hb, Hq.
Qed.

Lemma executionFrame_refl (b : Blockchain (S := S)) : executionFrame b b.
Proof. repeat split. Qed.

Lemma executionFrame_trans (b1 b2 b3 : Blockchain (S := S)) :
  executionFrame b1 b2 → executionFrame b2 b3 → executionFrame b1 b3.
Proof.
  intros (?&?&?&?&?) (?&?&?&?&?). repeat split; try congruence.
  all: eapply sameQueue_trans; eauto.
Qed.

(** A step of execution keeps the frame; the cursor never moves back, and
    moves by one when the step returns a result. *)
Lemma executeNextTransaction_frame ctx (b : Blockchain) :
  let r := executeNextTransaction ctx b in
  executionFrame b r.2
  ∧ (index (pendingBlock_ b) ≤ index (pendingBlock_ r.2))%nat
  ∧ (∀ tr, r.1 = Returned (Ok tr) →
     index (pendingBlock_ r.2) = Datatypes.S (index (pendingBlock_ b))
     ∧ (index (pendingBlock_ b) < PendingBlock.Size (pendingBlock_ b))%nat).
Proof.
  simpl. rewrite executeNextTransaction_unfold. unfold executionFrame, sameQueue.
  destruct (PendingBlock.ExecutionComplete _); simpl; [repeat split; done|].
  unfold PendingBlock.ExecuteNextTransaction.
  destruct (transactions (pendingBlock_ b) !! index (pendingBlock_ b)) as [tx|] eqn:Hq;
    simpl; [|repeat split; done].
  apply lookup_lt_Some in Hq. unfold PendingBlock.Size.
  destruct (runTransaction ctx _ _ tx) as [[tp|e] v]; simpl;
    repeat split; (done || lia).
Qed.

(** The loop of [ExecuteBlock] keeps the frame; each result it returns is
    one move of the cursor, and without an error it ends on a complete
    block. *)
Lemma executeLoop_frame fuel ctx :
  ∀ results (b : Blockchain) out err b',
    executeLoop fuel ctx results b = (Some (Returned (out, err)), b') →
    executionFrame b b'
    ∧ (length out + index (pendingBlock_ b)
       ≤ length results + index (pendingBlock_ b'))%nat
    ∧ (err = None →
       PendingBlock.ExecutionComplete (pendingBlock_ b') = true
       ∧ (length out + index (pendingBlock_ b)
          = length results + index (pendingBlock_ b'))%nat).
Proof.
  induction fuel as [|fuel IH]; intros results b out err b';
    rewrite executeLoop_unfold.
  - destruct (PendingBlock.ExecutionComplete (pendingBlock_ b)) eqn:Hc; [|done].
    intros [= <- <- <-]. split; [apply executionFrame_refl|]. split; [lia|].
    intros _. split; [done|lia].
  - destruct (PendingBlock.ExecutionComplete (pendingBlock_ b)) eqn:Hc.
    { intros [= <- <- <-]. split; [apply executionFrame_refl|]. split; [lia|].
      intros _. split; [done|lia]. }
    pose proof (executeNextTransaction_frame ctx b) as (Hf & Hle & Hi).
    destruct (executeNextTransaction ctx b) as [[[tr|e]|] b1]; simpl in *; [| |done].
    + destruct (Hi tr eq_refl) as [Hi' _]. intros Hrun.
      apply IH in Hrun as (Hf' & Hlen & Hdone).
      rewrite length_app in Hlen, Hdone. simpl in Hlen, Hdone.
      split; [by eapply executionFrame_trans|]. split; [lia|].
      intros He. destruct (Hdone He) as [? ?]. split; [done|lia].
    + intros [= <- <- <-]. split; [done|]. split; [lia|done].
Qed.

Lemma ExecuteBlock_frame (b : Blockchain) out err b' :
  ExecuteBlock b = (Some (Returned (out, err)), b') →
  executionFrame b b'
  ∧ (length out + index (pendingBlock_ b) ≤ index (pendingBlock_ b'))%nat
  ∧ (err = None →
     (PendingBlock.Empty (pendingBlock_ b) = true ∧ out = [] ∧ b' = b)
     ∨ (PendingBlock.Empty (pendingBlock_ b) = false
        ∧ PendingBlock.ExecutionComplete (pendingBlock_ b') = true
        ∧ (length out + index (pendingBlock_ b)
           = index (pendingBlock_ b'))%nat)).
Proof.
  unfold ExecuteBlock. run.
  destruct (PendingBlock.Empty (pendingBlock_ b)) eqn:He.
  { intros [= <- <- <-]. split; [apply executionFrame_refl|]. split; [simpl; lia|].
    intros _. by left. }
  destruct (PendingBlock.ExecutionComplete (pendingBlock_ b)) eqn:Hc.
  { intros [= <- <- <-]. split; [apply executionFrame_refl|]. split; [simpl; lia|].
    done. }
  intros Hrun. apply executeLoop_frame in Hrun as (Hf & Hlen & Hdone).
  simpl in *. split; [done|]. split; [lia|].
  intros He'. right. destruct (Hdone He') as [? ?]. split; [done|]. split; [done|lia].
Qed.

(** The loop of [ExecuteBlock] never runs out of steps: it returns, or a
    step panics. *)
Lemma executeLoop_returns fuel ctx :
  ∀ results (b : Blockchain),
    (PendingBlock.Size (pendingBlock_ b) - index (pendingBlock_ b) < fuel)%nat →
    ∃ out, (executeLoop fuel ctx results b).1 = Some out.
Proof.
  induction fuel as [|fuel IH]; intros results b Hfuel; [lia|].
  rewrite executeLoop_unfold.
  destruct (PendingBlock.ExecutionComplete (pendingBlock_ b)) eqn:Hc; [by eexists|].
  pose proof (executeNextTransaction_frame ctx b) as (Hf & Hle & Hi).
  destruct (executeNextTransaction ctx b) as [[[tr|e]|] b1]; simpl in *;
    [|by eexists|by eexists].
  destruct (Hi tr eq_refl) as [Hi' Hlt]. apply IH.
  destruct Hf as (_ & _ & _ & _ & Hq). apply sameQueue_Block in Hq as (_&_&_&Hs&_).
  rewrite Hs, Hi'. lia.
Qed.

Lemma ExecuteBlock_returns (b : Blockchain) :
  ∃ out, (ExecuteBlock b).1 = Some out.
Proof.
  unfold ExecuteBlock. run.
  destruct (PendingBlock.Empty (pendingBlock_ b)); [by eexists|].
  destruct (PendingBlock.ExecutionComplete (pendingBlock_ b)); [by eexists|].
  apply executeLoop_returns. lia.
Qed.

(** The guards of [commitBlock] let a block through after [ExecuteBlock]
    has returned without an error. *)
Lemma commitBlock_after_execution (b b1 : Blockchain) prev out :
  lifecycle prev (pendingBlock_ b) →
  ExecuteBlock b = (Some (Returned (out, None)), b1) →
  let p1 := pendingBlock_ b1 in
  negb (PendingBlock.ExecutionStarted p1) && negb (PendingBlock.Empty p1) = false
  ∧ PendingBlock.ExecutionStarted p1 && negb (PendingBlock.ExecutionComplete p1) = false
  ∧ length out = (PendingBlock.Size (pendingBlock_ b) - index (pendingBlock_ b))%nat.
Proof.
  intros Hl Hrun. pose proof (lifecycle_index_le _ _ Hl) as Hle.
  apply ExecuteBlock_frame in Hrun as (Hf & _ & Hdone).
  destruct (Hdone eq_refl) as [(He & -> & ->)|(He & Hc & Hlen)]; simpl.
  - destruct (lifecycle_empty _ _ Hl He) as (Ht & Hi & _).
    unfold PendingBlock.ExecutionStarted, PendingBlock.Size. rewrite He, Hi, Ht. done.
  - destruct Hf as (_ & _ & _ & _ & Hq). apply sameQueue_Block in Hq as (_&_&_&Hs&_).
    rewrite Hc. unfold PendingBlock.ExecutionStarted, PendingBlock.Empty,
      PendingBlock.ExecutionComplete in *.
    apply Nat.eqb_eq in Hc. apply Nat.eqb_neq in He.
    destruct (Nat.ltb_spec 0 (index (pendingBlock_ b1))) as [L|L]; [|lia].
    simpl. split; [done|]. split; [done|]. lia.
Qed.

(** X2. When [ExecuteBlock] ends with an error, [executeAndCommitBlock]
    (the body of [ExecuteAndCommitBlock]) returns that error with no block
    and no results, dropping the results collected before the failure; the
    store is not written and the pending block stays as execution left it,
    so that, if a result had been collected, admission is refused from
    then on with the mid-execution error. A block that is not empty and
    already fully executed is never committed by it: the call returns the
    transactions-exhausted error and changes nothing. *)
Theorem executeAndCommitBlock_execution_error (b : Blockchain) :
  let p := pendingBlock_ b in
  let r := executeAndCommitBlock b in
  (∀ results err,
     (ExecuteBlock b).1 = Some (Returned (results, Some err)) →
     r.1 = Some (Returned (None, None, Some err))
     ∧ r.2 = (ExecuteBlock b).2
     ∧ storage_ r.2 = storage_ b
     ∧ (results ≠ [] →
        ∀ tx, (AddTransaction tx r.2).1
              = Some (PendingBlockMidExecutionError (PendingBlock.ID p))))
  ∧ (PendingBlock.Empty p = false → PendingBlock.ExecutionComplete p = true →
     r = (Some (Returned
                  (None, None,
                   Some (PendingBlockTransactionsExhaustedError (PendingBlock.ID p)))),
          b)).
Proof.
  intros p r. subst r. split.
  - intros results err Hrun. unfold executeAndCommitBlock. run.
    destruct (ExecuteBlock b) as [out b1] eqn:He. simpl in *. subst out.
    split; [done|]. split; [done|].
    apply ExecuteBlock_frame in He as ((Hs & _ & _ & _ & Hq) & Hlen & _).
    split; [done|]. intros Hne tx. unfold AddTransaction. run.
    apply sameQueue_Block in Hq as (_&_&_&_&Hid). rewrite Hid.
    unfold PendingBlock.ExecutionStarted.
    destruct (Nat.ltb_spec 0 (index (pendingBlock_ b1))) as [L|L]; [done|].
    destruct results; [done|]. simpl in Hlen. lia.
  - intros He Hc. unfold executeAndCommitBlock, ExecuteBlock. run. fold p.
    rewrite He, Hc. done.
Qed.

(** X3. On a pending block of the lifecycle that [ExecuteBlock] brings to
    its end without an error, [executeAndCommitBlock] is not refused by
    the guards of the commit: it hands the store the block with the queue
    as admitted and returns what the store's commit decides. The results
    it returns are those of the transactions it ran itself, one for each
    transaction from the cursor on; those executed before the call are
    not among them. *)
Theorem executeAndCommitBlock_completes (b : Blockchain) (prev : flowgo.Block)
    (results : list types.TransactionResult) :
  lifecycle prev (pendingBlock_ b) →
  (ExecuteBlock b).1 = Some (Returned (results, None)) →
  let p := pendingBlock_ b in
  let p1 := pendingBlock_ (ExecuteBlock b).2 in
  let r := executeAndCommitBlock b in
  let block := PendingBlock.Block p in
  length results = (PendingBlock.Size p - index p)%nat
  ∧ (∀ e, convertToSealedResults (PendingBlock.TransactionResults p1) = Err e →
       r.1 = Some (Returned (None, Some results, Some e)) ∧ r.2 = (ExecuteBlock b).2)
  ∧ (∀ sealed,
       convertToSealedResults (PendingBlock.TransactionResults p1) = Ok sealed →
       let out :=
         storage.CommitBlock (storage_ b) block (PendingBlock.Collections p)
           (PendingBlock.Transactions p) sealed
           (PendingBlock.LedgerDelta p1) (PendingBlock.Events p1) in
       storage_ r.2 = out.1
       ∧ match out.2 with
         | Some e =>
             r.1 = Some (Returned (None, Some results, Some (BackendError e)))
             ∧ pendingBlock_ r.2 = p1
         | None =>
             r.1 = Some (Returned (Some block, Some results, None))
             ∧ flowgo.Height (flowgo.BHeader block)
               = flowgo.Height (flowgo.BHeader prev) + 1
             ∧ pendingBlock_ r.2
               = PendingBlock.newPendingBlock block
                   (storage.LedgerViewByHeight out.1
                      (flowgo.Height (flowgo.BHeader block)))
         end).
Proof.
  intros Hl Hrun p p1 r block. subst r p1.
  destruct (ExecuteBlock b) as [o b1] eqn:He. simpl in Hrun. subst o.
  destruct (commitBlock_after_execution _ _ _ _ Hl He) as (Hg1 & Hg2 & Hlen).
  pose proof He as Hf.
  apply ExecuteBlock_frame in Hf as ((Hs & _ & _ & _ & Hq) & _ & _).
  pose proof Hq as (Hh & _).
  apply sameQueue_Block in Hq as (Hb & Hcs & Hts & _ & _).
  unfold executeAndCommitBlock. run. rewrite He.
  unfold commitBlock. run. rewrite Hg1, Hg2, Hb, Hcs, Hts, Hs, Hh.
  split; [done|]. split.
  - intros e Hc. rewrite Hc. done.
  - intros sealed Hc. rewrite Hc.
    destruct (storage.CommitBlock _ _ _ _ _ _ _) as [s [e|]]; simpl; [done|].
    split; [done|]. split; [done|]. split; [|done].
    by destruct (lifecycle_height _ _ Hl) as [? _].
Qed.

(** *** A fresh pending block: after a reset, after a commit *)

Lemma newPendingBlock_contains block v id :
  PendingBlock.ContainsTransaction (PendingBlock.newPendingBlock block v) id = false.
Proof.
  unfold PendingBlock.ContainsTransaction. apply bool_decide_eq_false.
  simpl. apply not_elem_of_nil.
Qed.

(** On a fresh pending block: no status is Pending, a transaction is looked
    up in the store alone, a valid transaction the store does not know is
    admitted, and [ExecuteBlock] has nothing to do. *)
Lemma fresh_pending_block (b : Blockchain) block v :
  pendingBlock_ b = PendingBlock.newPendingBlock block v →
  (∀ id res, (GetTransactionResult id b).1 = Ok res →
     access.Status res ≠ flowgo.TransactionStatusPending)
  ∧ (∀ tx e, storage.TransactionByID (storage_ b) (TransactionBody_ID tx) = Err e →
       storage.errors_Is_ErrNotFound e = true → Validate b tx = None →
       (AddTransaction tx b).1 = None)
  ∧ ExecuteBlock b = (Some (Returned ([], None)), b).
Proof.
  intros Hp. split; [|split].
  - intros id res. unfold GetTransactionResult. run.
    rewrite Hp, newPendingBlock_contains.
    destruct (storage.TransactionResultByID _ _) as [stored|e].
    + intros [= <-]. done.
    + destruct (storage.errors_Is_ErrNotFound e); [|done]. intros [= <-]. done.
  - intros tx e Hs He Hv. unfold AddTransaction. run.
    rewrite Hp, newPendingBlock_contains, Hs, He, Hv. done.
  - unfold ExecuteBlock. run. rewrite Hp. done.
Qed.

(** X4. [ResetPendingBlock] never writes the store and has no guard on
    the state of the pending block. When the latest block cannot be read it
    returns a storage error and keeps the pending block. Otherwise the
    pending block is replaced by an open one on the latest block, whatever
    it held: no transaction is reported Pending any more, a valid
    transaction the store does not know is admitted (also one of those just
    discarded, also when the discarded block was in the middle of its
    execution), and [ExecuteBlock] has nothing to run. *)
Theorem ResetPendingBlock_discards (b : Blockchain) :
  let r := ResetPendingBlock b in
  storage_ r.2 = storage_ b
  ∧ (∀ e, storage.LatestBlock (storage_ b) = Err e →
       r.1 = Some (StorageError e) ∧ chainState r.2 = chainState b)
  ∧ (∀ latest, storage.LatestBlock (storage_ b) = Ok latest →
       r.1 = None
       ∧ height (pendingBlock_ r.2) = flowgo.Height (flowgo.BHeader latest) + 1
       ∧ (∀ id res, (GetTransactionResult id r.2).1 = Ok res →
            access.Status res ≠ flowgo.TransactionStatusPending)
       ∧ (∀ tx e,
            storage.TransactionByID (storage_ b) (TransactionBody_ID tx) = Err e →
            storage.errors_Is_ErrNotFound e = true → Validate r.2 tx = None →
            (AddTransaction tx r.2).1 = None)
       ∧ ExecuteBlock r.2 = (Some (Returned ([], None)), r.2)).
Proof.
  intros r. subst r. unfold ResetPendingBlock. run.
  destruct (storage.LatestBlock (storage_ b)) as [latest|e] eqn:Hlatest; simpl.
  - split; [done|]. split; [done|]. intros ? [= <-].
    split; [done|]. split; [done|].
    match goal with
    | |- context [ExecuteBlock ?b'] => exact (fresh_pending_block b' _ _ eq_refl)
    end.
  - split; [done|]. split; [|done]. intros ? [= <-]. done.
Qed.

Lemma commitBlock_Ok (b : Blockchain) block :
  (commitBlock b).1 = Ok block →
  block = PendingBlock.Block (pendingBlock_ b)
  ∧ pendingBlock_ (commitBlock b).2
    = PendingBlock.newPendingBlock block
        (storage.LedgerViewByHeight (storage_ (commitBlock b).2)
           (flowgo.Height (flowgo.BHeader block))).
Proof.
  unfold commitBlock. run.
  destruct (_ && _); [done|]. destruct (_ && _); [done|].
  destruct (convertToSealedResults _) as [sealed|e]; [|done].
  destruct (storage.CommitBlock _ _ _ _ _ _ _) as [s [e|]]; simpl; [done|].
  intros [= <-]. done.
Qed.

(** X5. After a [CommitBlock] that returns a block, the pending block is
    an open one built on that block: the next block has the height of the
    returned one plus one and no collection yet, no transaction is
    reported Pending (every status comes from the store), and a second
    [CommitBlock] right away is not refused: it hands the store that empty
    next block and returns what the store's commit decides. *)
Theorem CommitBlock_opens_next (b : Blockchain) (block : flowgo.Block) :
  (CommitBlock b).1 = Ok block →
  let b1 := (CommitBlock b).2 in
  let next := PendingBlock.Block (pendingBlock_ b1) in
  block = PendingBlock.Block (pendingBlock_ b)
  ∧ flowgo.Height (flowgo.BHeader next) = flowgo.Height (flowgo.BHeader block) + 1
  ∧ flowgo.Guarantees (flowgo.BPayload next) = []
  ∧ (∀ id res, (GetTransactionResult id b1).1 = Ok res →
       access.Status res ≠ flowgo.TransactionStatusPending)
  ∧ (let out := storage.CommitBlock (storage_ b1) next [] ∅ ∅ ∅ [] in
     storage_ (CommitBlock b1).2 = out.1
     ∧ (CommitBlock b1).1
       = match out.2 with Some e => Err (BackendError e) | None => Ok next end).
Proof.
  unfold CommitBlock. run.
  pose proof (commitBlock_Ok
    {| storage_ := storage_ b; mu := mu b ++ [Lock]; pendingBlock_ := pendingBlock_ b;
       vmCtx := vmCtx b; autoMine := autoMine b |} block) as Hok.
  destruct (commitBlock _) as [c b1] eqn:Hc. simpl in *.
  intros ->. destruct (Hok eq_refl) as [Hblock Hp]. clear Hok.
  split; [done|]. rewrite Hp. split; [done|]. split; [done|]. split.
  - match goal with
    | |- context [GetTransactionResult _ ?b'] =>
        exact (proj1 (fresh_pending_block b' _ _ eq_refl))
    end.
  - unfold commitBlock. run.
    unfold convertToSealedResults, PendingBlock.TransactionResults. simpl.
    rewrite map_to_list_empty. simpl.
    destruct (storage.CommitBlock _ _ _ _ _ _ _) as [s [e|]]; done.
Qed.

(** *** Submission *)

Context `{!ErrorText}.

(** X6. A submission that [AddTransaction] refuses changes nothing, and
    nothing is mined for it even with auto-mine on; [SendTransaction]
    returns an invalid-argument or an internal error that carries the text
    of the admission error: internal when the pending block is being
    executed, invalid-argument for a duplicate (in the pending block or in
    the store), internal when the store fails during the duplicate check. *)
Theorem SendTransaction_rejections (b : Blockchain) (tx : flowgo.TransactionBody) :
  let p := pendingBlock_ b in
  let id := TransactionBody_ID tx in
  let r := SendTransaction tx b in
  (∀ e, (AddTransaction tx b).1 = Some e →
     r.2 = b
     ∧ (r.1 = Some (Returned (Some (InvalidArgumentError (Error_ e))))
        ∨ r.1 = Some (Returned (Some (InternalError (Error_ e))))))
  ∧ (PendingBlock.ExecutionStarted p = true →
     r.1 = Some (Returned (Some (InternalError
                         (Error_ (PendingBlockMidExecutionError (PendingBlock.ID p)))))))
  ∧ (PendingBlock.ExecutionStarted p = false →
     PendingBlock.ContainsTransaction p id = true
     ∨ is_Ok (storage.TransactionByID (storage_ b) id) = true →
     r.1 = Some (Returned
                   (Some (InvalidArgumentError (Error_ (DuplicateTransactionError id))))))
  ∧ (PendingBlock.ExecutionStarted p = false →
     PendingBlock.ContainsTransaction p id = false →
     ∀ e, storage.TransactionByID (storage_ b) id = Err e →
          storage.errors_Is_ErrNotFound e = false →
          r.1 = Some (Returned (Some (InternalError
                 (Error_ (Errorf "failed to check storage for transaction" (Some e))))))).
Proof.
  intros p id r. subst r p id. split; [|split; [|split]].
  - intros e He. unfold SendTransaction. run.
    assert (Hb : (AddTransaction tx b).2 = b).
    { revert He. unfold AddTransaction. run.
      destruct (PendingBlock.ExecutionStarted _); [done|].
      destruct (PendingBlock.ContainsTransaction _ _); [done|].
      destruct (storage.TransactionByID _ _) as [stored|e']; [done|].
      destruct (storage.errors_Is_ErrNotFound e'); simpl; [|done].
      destruct (Validate b tx); simpl; done. }
    destruct (AddTransaction tx b) as [err b1]. simpl in *. subst err b1.
    split; [done|].
    destruct e; try (by right); try (by left).
    destruct (bool_decide _); [by left|].
    destruct (FlowError_IsAccountNotFoundError _); [by left|by right].
  - intros Hs. unfold SendTransaction, AddTransaction. run. rewrite Hs. done.
  - intros Hs Hdup. unfold SendTransaction, AddTransaction. run. rewrite Hs.
    destruct (PendingBlock.ContainsTransaction _ _); [done|].
    destruct Hdup as [Hdup|Hdup]; [done|].
    destruct (storage.TransactionByID _ _); done.
  - intros Hs Hc e He Hnf. unfold SendTransaction, AddTransaction. run.
    rewrite Hs, Hc, He, Hnf. done.
Qed.

(** X7. A transaction admitted into an empty pending block. With
    auto-mine off [SendTransaction] only queues it. With auto-mine on it
    takes one step of execution, on the machine's run of the transaction
    at position 0: the step returns a fatal error of the machine as it is,
    and otherwise what it makes of the procedure (the converted result,
    an error when the conversion fails, a panic where
    [debugSignatureError] panics). When the step panics, so does
    [SendTransaction], the transaction left executed in the pending block
    and the store not written. When the step returns an error,
    [SendTransaction] returns that error as it is, not as an
    invalid-argument or internal error, the transaction stays queued and
    the store is not written. When the step returns a result, of a
    reverted transaction as well, the transaction is committed in a block
    of its own: the store is handed the block with the one collection
    holding this transaction, and the error returned is that of the
    conversion for storage or of the store's commit, none when the store
    accepts. *)
Theorem SendTransaction_auto_mine (b : Blockchain) (prev : flowgo.Block)
    (tx : flowgo.TransactionBody) :
  lifecycle prev (pendingBlock_ b) →
  PendingBlock.Empty (pendingBlock_ b) = true →
  (AddTransaction tx b).1 = None →
  let b1 := (AddTransaction tx b).2 in
  let p1 := pendingBlock_ b1 in
  let r := SendTransaction tx b in
  let ctx := fvm.NewContextFromParent (vmCtx b)
               (flowgo.BHeader (PendingBlock.Block p1)) in
  let run := fvm.RunTransaction ctx (fvm.NewTransaction tx 0) (ledgerView p1) in
  let step := executeNextTransaction ctx b1 in
  let p2 := pendingBlock_ step.2 in
  transactions p1 = [tx]
  ∧ (autoMine b = false → r = (Some (Returned None), b1))
  ∧ step.1 = match run with
             | (_, _, Some e) => Returned (Err (FlowError e))
             | (tp, _, None) => collected b1 tp
             end
  ∧ (autoMine b = true →
     match step.1 with
     | Panicked =>
         r = (Some Panicked, step.2)
         ∧ transactions p2 = [tx]
         ∧ index p2 = 1%nat
         ∧ storage_ step.2 = storage_ b
     | Returned (Err e) =>
         r = (Some (Returned (Some e)), step.2)
         ∧ transactions p2 = [tx]
         ∧ storage_ step.2 = storage_ b
     | Returned (Ok _) =>
         (∀ e, convertToSealedResults (PendingBlock.TransactionResults p2) = Err e →
               r = (Some (Returned (Some e)), step.2))
         ∧ (∀ sealed,
              convertToSealedResults (PendingBlock.TransactionResults p2) = Ok sealed →
              let block := PendingBlock.Block p1 in
              let out :=
                storage.CommitBlock (storage_ b) block
                  [ {| flowgo.Transactions := [TransactionBody_ID tx] |} ]
                  {[ TransactionBody_ID tx := tx ]} sealed
                  (PendingBlock.LedgerDelta p2) (PendingBlock.Events p2) in
              r.1 = Some (Returned (BackendError <$> out.2))
              ∧ storage_ r.2 = out.1
              ∧ (out.2 = None →
                 pendingBlock_ r.2
                 = PendingBlock.newPendingBlock block
                     (storage.LedgerViewByHeight out.1
                        (flowgo.Height (flowgo.BHeader block)))))
     end).
Proof.
  intros Hl He Hok b1 p1 r ctx run step p2.
  destruct (lifecycle_empty _ _ Hl He) as (Ht & Hi & _).
  destruct (AddTransaction_admitted _ _ Hok) as (_ & _ & Hb1). fold b1 in Hb1.
  assert (Hq1 : transactions p1 = [tx])
    by (subst p1; rewrite Hb1; unfold setPendingBlock; run; by rewrite Ht).
  assert (Hi1 : index p1 = 0%nat)
    by (subst p1; rewrite Hb1; unfold setPendingBlock; run; done).
  assert (Hs1 : storage_ b1 = storage_ b) by (by rewrite Hb1).
  assert (Hv1 : vmCtx b1 = vmCtx b) by (by rewrite Hb1).
  assert (Ha1 : autoMine b1 = autoMine b) by (by rewrite Hb1).
  assert (Hr : r = if autoMine b
                   then let '(a, b') := executeAndCommitBlock b1 in
                        (match a with
                         | Some (Returned (_, _, Some err)) => Some (Returned (Some err))
                         | Some (Returned (_, _, None)) => Some (Returned None)
                         | Some Panicked => Some Panicked
                         | None => None
                         end, b')
                   else (Some (Returned None), b1)).
  { subst r. rewrite <- Ha1. subst b1. unfold SendTransaction. run.
    destruct (AddTransaction tx b) as [err b1]. simpl in *. subst err.
    destruct (autoMine b1); [|done].
    destruct (executeAndCommitBlock b1) as [[[[[? ?] [?|]]|]|] ?]; done. }
  clear Hb1 Hok. rewrite Hr. clear Hr r.
  split; [done|]. split; [by intros ->|]. split.
  { subst step run. rewrite (executeNextTransaction_at ctx b1 tx).
    - fold p1. rewrite Hi1. simpl.
      destruct (fvm.RunTransaction _ _ _) as [[tp v] [e|]]; done.
    - fold p1. by rewrite Hq1, Hi1. }
  intros ->.
  assert (Hrun : executeAndCommitBlock b1
                 = match step.1 with
                   | Panicked => (Some Panicked, step.2)
                   | Returned (Err e) => (Some (Returned (None, None, Some e)), step.2)
                   | Returned (Ok tr) =>
                       let '(c, b') := commitBlock step.2 in
                       (Some (Returned
                                match c with
                                | Err err => (None, Some [tr], Some err)
                                | Ok block => (Some block, Some [tr], None)
                                end), b')
                   end
          ∧ (∀ tr, step.1 = Returned (Ok tr) → index p2 = 1%nat)
          ∧ (step.1 = Panicked → index p2 = 1%nat)
          ∧ executionFrame b1 step.2).
  { pose proof (executeNextTransaction_frame ctx b1) as (Hf & _ & Hstep).
    fold step in Hf, Hstep. fold p1 in Hstep. rewrite Hi1 in Hstep.
    split; [|split; [intros tr Hk; by destruct (Hstep tr Hk)|split; [|done]]].
    2: { subst p2 step. rewrite (executeNextTransaction_at ctx b1 tx).
         - fold p1. rewrite Hi1.
           destruct (fvm.RunTransaction _ _ _) as [[tp v] [e|]]; [done|].
           intros _. simpl. by rewrite Hi1.
         - fold p1. by rewrite Hq1, Hi1. }
    unfold executeAndCommitBlock, ExecuteBlock, mbind, M_bind, get.
    fold p1. unfold PendingBlock.Empty, PendingBlock.ExecutionComplete,
      PendingBlock.Size.
    rewrite Hq1, Hi1, Hv1. simpl. fold ctx.
    rewrite executeLoop_unfold. fold p1.
    unfold PendingBlock.ExecutionComplete, PendingBlock.Size.
    rewrite Hq1, Hi1. simpl.
    change (executeNextTransaction _ b1) with step.
    destruct Hf as (_ & _ & _ & _ & _ & _ & _ & _ & Hq). fold p1 in Hq.
    subst p2. destruct step as [[[tr|e]|] b2]; simpl in *; [|done|done].
    destruct (Hstep tr eq_refl) as [Hi2 _].
    rewrite executeLoop_unfold.
    unfold PendingBlock.ExecutionComplete, PendingBlock.Size.
    rewrite Hq, Hq1, Hi2. simpl. unfold mret, M_ret.
    destruct (commitBlock b2) as [[block|err] b3]; done. }
  destruct Hrun as (-> & Hi2 & Hip & Hs & _ & _ & _ & Hq).
  fold p1 p2 in Hq. pose proof Hq as (Hh & _ & _ & _ & Hq'). rewrite Hq1 in Hq'.
  destruct step.1 as [[tr|e]|].
  2: { split; [done|]. split; [done|]. congruence. }
  2: { split; [done|]. split; [done|]. split; [by apply Hip|congruence]. }
  specialize (Hi2 tr eq_refl).
  apply sameQueue_Block in Hq as (Hb & Hcs & Hts & _ & _).
  unfold commitBlock. run. fold p2.
  unfold PendingBlock.ExecutionStarted, PendingBlock.ExecutionComplete,
    PendingBlock.Empty, PendingBlock.Size.
  rewrite Hq', Hi2. simpl.
  rewrite Hb, Hcs, Hts, Hs, Hs1, Hh.
  unfold PendingBlock.Collections, PendingBlock.Transactions,
    PendingBlock.transactionIDs. rewrite Hq1. simpl.
  split.
  - intros e Hc. rewrite Hc. done.
  - intros sealed Hc. rewrite Hc.
    destruct (storage.CommitBlock _ _ _ _ _ _ _) as [s [e|]]; simpl; done.
Qed.

(** *** Events by block ID *)

Lemma blockIDsLoop_spec eventType (b : Blockchain) :
  ∀ blockIDs results,
    ∃ out,
      blockIDsLoop eventType blockIDs results b = (out, b)
      ∧ match out with
        | Ok all =>
            ∃ new, all = results ++ new
                   ∧ Forall2 (blockEventsOf (storage_ b) eventType) blockIDs new
        | Err e =>
            ∃ done id, done ++ [id] `prefix_of` blockIDs
                  ∧ Forall (λ id', ∃ entry,
                              blockEventsOf (storage_ b) eventType id' entry) done
                  ∧ blockEventsFail (storage_ b) eventType id e
        end.
Proof.
  induction blockIDs as [|id blockIDs IH]; intros results; simpl.
  - exists (Ok results). split; [done|]. exists []. by rewrite app_nil_r.
  - unfold GetBlockByID, GetEventsByHeight. run.
    destruct (storage.BlockByID (storage_ b) id) as [block|se] eqn:Hb; simpl.
    2: { destruct (storage.errors_Is_ErrNotFound se) eqn:Hnf; simpl;
           (eexists; split; [done|]; exists [], id; split;
              [by apply prefix_cons, prefix_nil|]; split; [constructor|]; left;
            exists se; by rewrite Hnf). }
    destruct (storage.EventsByHeight _ _ _) as [events|se] eqn:He; simpl.
    2: { eexists; split; [done|]. exists [], id. split;
           [by apply prefix_cons, prefix_nil|]. split; [constructor|]. right.
         by exists block, se. }
    match goal with
    | |- context [blockIDsLoop eventType blockIDs ?rs b] =>
        destruct (IH rs) as (out & -> & Hout)
    end.
    exists out. split; [done|]. destruct out as [all|e].
    + destruct Hout as (new & -> & Hall). eexists. split; [by rewrite <- app_assoc|].
      constructor; [|done]. by exists block, events.
    + destruct Hout as (done' & id' & Hpre & Hdone & Hfail).
      exists (id :: done'), id'. split; [by apply prefix_cons|]. split; [|done].
      constructor; [|done]. eexists. by exists block, events.
Qed.

Lemma blockEventsOf_fun {s : S} eventType id entry entry' :
  blockEventsOf s eventType id entry → blockEventsOf s eventType id entry' →
  entry = entry'.
Proof.
  intros (blk & evs & Hb & He & ->) (blk' & evs' & Hb' & He' & ->).
  rewrite Hb in Hb'. injection Hb' as <-. rewrite He in He'. by injection He' as <-.
Qed.

Lemma blockEventsOf_not_fail {s : S} eventType id entry e :
  blockEventsOf s eventType id entry → blockEventsFail s eventType id e → False.
Proof.
  intros (blk & evs & Hb & He & _) [(se & Hb' & _)|(blk' & se & Hb' & He' & _)];
    rewrite Hb in Hb'; [done|]. injection Hb' as <-. by rewrite He in He'.
Qed.

(** X8. [GetEventsForBlockIDs] changes nothing, takes no lock, and
    rejects a blank event type before it looks at any block. For an event
    type that is not blank its results have one entry per requested ID, in
    the order of the request (none for an empty request), each with the
    ID, height and timestamp of the header of the block stored under the ID
    and the events stored for that block's height under the type; they are
    returned exactly when every lookup succeeds. Otherwise there are no
    results, and the error is that of the first ID whose lookup fails: the
    block-not-found error of that ID or a storage error for the block, a
    store's own error for its events. *)
Theorem GetEventsForBlockIDs_per_block (b : Blockchain) (eventType : string)
    (blockIDs : list flowgo.Identifier) :
  let r := GetEventsForBlockIDs eventType blockIDs b in
  let s := storage_ b in
  r.2 = b
  ∧ (∀ e, validateEventType eventType = Some e → r.1 = Err e)
  ∧ (validateEventType eventType = None →
     (∀ results, r.1 = Ok results ↔ Forall2 (blockEventsOf s eventType) blockIDs results)
     ∧ (∀ e, r.1 = Err e →
          ∃ done id,
            done ++ [id] `prefix_of` blockIDs
            ∧ Forall (λ id', ∃ entry, blockEventsOf s eventType id' entry) done
            ∧ blockEventsFail s eventType id e)).
Proof.
  intros r s. subst r s. unfold GetEventsForBlockIDs.
  destruct (validateEventType eventType) as [ve|].
  { run. split; [done|]. split; [by intros ? [= <-]|done]. }
  destruct (blockIDsLoop_spec eventType b blockIDs []) as (out & -> & Hout). simpl.
  split; [done|]. split; [done|]. intros _. split.
  - intros results. split.
    + intros ->. by destruct Hout as (new & -> & Hall).
    + intros Hall. destruct out as [all|e].
      * destruct Hout as (new & -> & Hnew). simpl. f_equal.
        clear -Hall Hnew. revert new Hnew.
        induction Hall as [|id entry ids entries Hx Hall IH]; intros new Hnew;
          inversion Hnew as [|? entry' ? new' Hy Hnew']; subst; [done|].
        f_equal; [by eapply blockEventsOf_fun|by apply IH].
      * exfalso. destruct Hout as (done' & id & [rest Hpre] & _ & Hfail).
        assert (Hin : id ∈ blockIDs).
        { rewrite Hpre. apply elem_of_app. left. apply elem_of_app. right.
          apply list_elem_of_here. }
        apply list_elem_of_lookup_1 in Hin as [i Hi].
        destruct (Forall2_lookup_l _ _ _ _ _ Hall Hi) as (entry & _ & Hentry).
        by eapply blockEventsOf_not_fail.
  - intros e ->. exact Hout.
Qed.

Lemma event_loops_agree eventType endHeight (b : Blockchain) :
  endHeight < uint64_max →
  ∀ blocks startHeight results,
    0 ≤ startHeight →
    endHeight = startHeight + Z.of_nat (length blocks) - 1 →
    Forall2 (blockAt (storage_ b)) (seqZ startHeight (Z.of_nat (length blocks))) blocks →
    heightRangeLoop (length blocks) eventType startHeight endHeight results b
    = (Some (blockIDsLoop eventType (Block_ID <$> blocks) results b).1, b).
Proof.
  intros Hmax. induction blocks as [|blk blocks IH];
    intros startHeight results Hs Hend Hall; rewrite heightRangeLoop_unfold.
  - simpl in *. destruct (Z.ltb_spec endHeight startHeight) as [L|L]; [done|lia].
  - simpl length in *. destruct (Z.ltb_spec endHeight startHeight) as [L|L]; [lia|].
    rewrite seqZ_cons in Hall by lia.
    inversion Hall as [|? ? ? ? (Hh & Hid & Hheight) Hrest]; subst.
    unfold getBlockByHeight. simpl. unfold GetBlockByID, GetEventsByHeight. run.
    rewrite Hh, Hid. simpl.
    destruct (storage.EventsByHeight (storage_ b) _ eventType) as [events|e]; [|done].
    simpl.
    assert (Hw : wrap64 (flowgo.Height (flowgo.BHeader blk) + 1)
                 = flowgo.Height (flowgo.BHeader blk) + 1).
    { unfold wrap64. apply Z.mod_small. unfold uint64_max in Hmax. lia. }
    rewrite Hw. rewrite IH; [done|lia|lia|].
    replace (Z.succ (flowgo.Height (flowgo.BHeader blk)))
      with (flowgo.Height (flowgo.BHeader blk) + 1) in Hrest by lia.
    replace (Z.pred (Z.of_nat (Datatypes.S (length blocks))))
      with (Z.of_nat (length blocks)) in Hrest by lia.
    done.
Qed.

(** X19. The two event queries agree. On a store that holds the blocks
    of a range of heights consistently (each found at its height and under
    its own ID), for a range that starts above height 0 and ends at or
    below the latest height, [GetEventsForHeightRange] over the range
    returns what [GetEventsForBlockIDs] returns for the IDs of these
    blocks in ascending order: the same entries or the same error. *)
Theorem event_queries_agree (b : Blockchain) (eventType : string)
    (startHeight : Z) (blocks : list flowgo.Block) (latest : flowgo.Block) :
  let s := storage_ b in
  let endHeight := startHeight + Z.of_nat (length blocks) - 1 in
  storage.LatestBlock s = Ok latest →
  0 < startHeight → blocks ≠ [] →
  endHeight ≤ flowgo.Height (flowgo.BHeader latest) →
  flowgo.Height (flowgo.BHeader latest) < uint64_max →
  Forall2 (blockAt s) (seqZ startHeight (Z.of_nat (length blocks))) blocks →
  (GetEventsForHeightRange eventType startHeight endHeight b).1
  = Some (GetEventsForBlockIDs eventType (Block_ID <$> blocks) b).1.
Proof.
  intros s endHeight Hlatest Hstart Hne Hend Hmax Hall. subst s.
  assert (Hlen : (0 < length blocks)%nat) by (destruct blocks; [done|simpl; lia]).
  unfold GetEventsForHeightRange, GetEventsForBlockIDs, GetLatestBlock.
  destruct (validateEventType eventType); [done|].
  run. rewrite Hlatest. simpl.
  destruct (Z.eqb_spec endHeight 0) as [E|E]; [lia|].
  destruct (Z.ltb_spec (flowgo.Height (flowgo.BHeader latest)) endHeight) as [L|L];
    [lia|]. simpl.
  destruct (Z.ltb_spec endHeight startHeight) as [L'|L']; [lia|].
  replace (Z.to_nat (endHeight - startHeight + 1)) with (length blocks) by lia.
  rewrite (event_loops_agree eventType endHeight b); try done; lia.
Qed.

(** *** Transactions and results by block ID *)

Lemma withCalls_nil (b : Blockchain (S := S)) : withCalls b [] = b.
Proof. destruct b. unfold withCalls. simpl. by rewrite app_nil_r. Qed.

Lemma withCalls_app (b : Blockchain (S := S)) c1 c2 :
  withCalls (withCalls b c1) c2 = withCalls b (c1 ++ c2).
Proof. unfold withCalls. simpl. by rewrite app_assoc. Qed.

Lemma chainState_withCalls (b : Blockchain (S := S)) calls :
  chainState (withCalls b calls) = chainState b.
Proof. done. Qed.

Lemma Forall2_functional {A B} (P : A → B → Prop) l k k' :
  (∀ x y y', P x y → P x y' → y = y') →
  Forall2 P l k → Forall2 P l k' → k = k'.
Proof.
  intros Hfun Hk. revert k'.
  induction Hk as [|x y l k Hx Hk IH]; intros k' Hk';
    inversion Hk' as [|? y' ? k'' Hy Hk'']; subst; [done|].
  f_equal; [by eapply Hfun|by apply IH].
Qed.

Ltac cases :=
  repeat match goal with
         | |- context [match ?x with _ => _ end] =>
             lazymatch x with
             | context [match _ with _ => _ end] => fail
             | _ => destruct x; simpl
             end
         end.

Lemma reader_GetCollectionByID colID : reader (GetCollectionByID colID).
Proof.
  intros b. unfold GetCollectionByID. run. split.
  - exists [RLock; RUnlock]. unfold withCalls.
    destruct (storage.CollectionByID _ _) as [col|e]; simpl;
      [|destruct (storage.errors_Is_ErrNotFound e); simpl];
      (split; [by rewrite <- app_assoc|by repeat constructor]).
  - intros b' [= -> _ _ _]. by cases.
Qed.

Lemma reader_GetTransaction txID : reader (GetTransaction txID).
Proof.
  intros b. unfold GetTransaction. run. split.
  - exists [RLock; RUnlock]. unfold withCalls.
    destruct (PendingBlock.GetTransaction _ _); simpl;
      [|destruct (storage.TransactionByID _ _) as [stored|e]; simpl;
        [|destruct (storage.errors_Is_ErrNotFound e); simpl]];
      (split; [by rewrite <- app_assoc|by repeat constructor]).
  - intros b' [= -> -> _ _]. by cases.
Qed.

Lemma reader_GetTransactionResult txID : reader (GetTransactionResult txID).
Proof.
  intros b. unfold GetTransactionResult. run. split.
  - exists [RLock; RUnlock]. unfold withCalls.
    destruct (PendingBlock.ContainsTransaction _ _); simpl;
      [|destruct (storage.TransactionResultByID _ _) as [stored|e]; simpl;
        [|destruct (storage.errors_Is_ErrNotFound e); simpl]];
      (split; [by rewrite <- app_assoc|by repeat constructor]).
  - intros b' [= -> -> _ _]. by cases.
Qed.

Lemma GetCollectionByID_result colID (b : Blockchain) :
  match (GetCollectionByID colID b).1 with
  | Ok col => collectionOf (storage_ b) colID col
  | Err e => collectionFail (storage_ b) colID e
  end.
Proof.
  unfold GetCollectionByID, collectionOf, collectionFail. run.
  destruct (storage.CollectionByID _ _) as [col|e] eqn:Hc; simpl; [done|].
  destruct (storage.errors_Is_ErrNotFound e) eqn:Hnf; simpl;
    exists e; by rewrite Hnf.
Qed.

Section Loops.
Context {A : Type} (lookup : flowgo.Identifier → M (S := S) (result error A)).
Hypothesis lookup_reader : ∀ id, reader (lookup id).

Lemma transactionsLoop_from (b : Blockchain) :
  ∀ ids before res,
    Forall (λ c, c = RLock ∨ c = RUnlock) before →
    let r := transactionsLoop lookup ids res (withCalls b before) in
    (∃ calls, r.2 = withCalls b calls
              ∧ Forall (λ c, c = RLock ∨ c = RUnlock) calls)
    ∧ match r.1 with
      | Ok all =>
          ∃ new, all = res ++ new
                 ∧ Forall2 (λ id x, (lookup id b).1 = Ok x) ids new
      | Err e => ∃ id, id ∈ ids ∧ (lookup id b).1 = Err e
      end.
Proof.
  induction ids as [|id ids IH]; intros before res Hbefore; simpl.
  - split; [by exists before|]. exists []. by rewrite app_nil_r.
  - unfold mbind, M_bind.
    destruct (lookup_reader id (withCalls b before)) as [(calls & Hst & Hcalls) _].
    destruct (lookup_reader id b) as [_ Hres].
    specialize (Hres _ (chainState_withCalls b before)).
    destruct (lookup id (withCalls b before)) as [[x|e] b1]; simpl in *.
    + subst b1. rewrite withCalls_app.
      destruct (IH (before ++ calls) (res ++ [x])
                  (proj2 (Forall_app _ _ _) (conj Hbefore Hcalls))) as [Hst' Hout].
      split; [done|].
      destruct (transactionsLoop lookup ids (res ++ [x]) _).1 as [all|e].
      * destruct Hout as (new & -> & Hall). exists (x :: new).
        split; [by rewrite <- app_assoc|]. by constructor.
      * destruct Hout as (id' & Hin & Hfail). exists id'.
        split; [by apply list_elem_of_further|done].
    + subst b1. rewrite withCalls_app. split.
      * eexists. split; [done|]. by apply Forall_app.
      * exists id. split; [apply list_elem_of_here|done].
Qed.

(** The loop over the collections: the collections found in the store, in
    the order of their IDs, and the lookups of their transaction IDs in
    that order; or the first failure. *)
Lemma collectionsLoop_from (b : Blockchain) :
  ∀ cids before res,
    Forall (λ c, c = RLock ∨ c = RUnlock) before →
    let r := collectionsLoop lookup cids res (withCalls b before) in
    (∃ calls, r.2 = withCalls b calls
              ∧ Forall (λ c, c = RLock ∨ c = RUnlock) calls)
    ∧ match r.1 with
      | Ok all =>
          ∃ cols new,
            all = res ++ new
            ∧ Forall2 (collectionOf (storage_ b)) cids cols
            ∧ Forall2 (λ id x, (lookup id b).1 = Ok x)
                (concat (flowgo.Transactions <$> cols)) new
      | Err e =>
          (∃ cid, cid ∈ cids ∧ collectionFail (storage_ b) cid e)
          ∨ (∃ cid col tid,
               cid ∈ cids ∧ collectionOf (storage_ b) cid col
               ∧ tid ∈ flowgo.Transactions col ∧ (lookup tid b).1 = Err e)
      end.
Proof.
  induction cids as [|cid cids IH]; intros before res Hbefore; simpl.
  - split; [by exists before|]. exists [], []. rewrite app_nil_r.
    split; [done|]. split; constructor.
  - unfold mbind, M_bind.
    destruct (reader_GetCollectionByID cid (withCalls b before))
      as [(calls & Hst & Hcalls) _].
    destruct (reader_GetCollectionByID cid b) as [_ Hres].
    specialize (Hres _ (chainState_withCalls b before)).
    pose proof (GetCollectionByID_result cid b) as Hcol.
    destruct (GetCollectionByID cid (withCalls b before)) as [c b1]; simpl in *.
    rewrite <- Hres in Hcol. clear Hres. subst b1. rewrite withCalls_app.
    assert (Hc1 := proj2 (Forall_app _ _ _) (conj Hbefore Hcalls)).
    destruct c as [col|e].
    2: { split; [by eexists|]. left. exists cid. split; [apply list_elem_of_here|done]. }
    destruct (transactionsLoop_from b (flowgo.Transactions col) _ res Hc1)
      as [(calls2 & Hst2 & Hcalls2) Hout].
    destruct (transactionsLoop lookup (flowgo.Transactions col) res _) as [[res'|e] b2];
      simpl in *; subst b2.
    2: { split; [by eexists|]. right. destruct Hout as (tid & Hin & Hfail).
         exists cid, col, tid. split; [apply list_elem_of_here|done]. }
    destruct Hout as (new1 & -> & Hnew1).
    destruct (IH calls2 (res ++ new1) Hcalls2) as [Hst3 Hout3].
    split; [done|].
    destruct (collectionsLoop lookup cids (res ++ new1) _).1 as [all|e].
    + destruct Hout3 as (cols & new2 & -> & Hcols & Hnew2).
      exists (col :: cols), (new1 ++ new2). split; [by rewrite <- app_assoc|].
      split; [by constructor|]. simpl. by apply Forall2_app.
    + destruct Hout3 as [(cid' & Hin & Hfail)|(cid' & col' & tid & Hin & Hc & Ht & Hfail)].
      * left. exists cid'. split; [by apply list_elem_of_further|done].
      * right. exists cid', col', tid. split; [by apply list_elem_of_further|done].
Qed.

Lemma elem_of_concat_fmap {B C} (f : B → list C) (x : B) (l : list B) (y : C) :
  x ∈ l → y ∈ f x → y ∈ concat (f <$> l).
Proof.
  induction l as [|x' l IH]; intros Hx Hy; [by apply elem_of_nil in Hx|].
  simpl. apply elem_of_app. apply elem_of_cons in Hx as [<-|Hx]; [by left|].
  right. by apply IH.
Qed.

Lemma byBlockID_spec (b : Blockchain) (id : flowgo.Identifier) :
  let r := byBlockID lookup id b in
  let s := storage_ b in
  (∃ calls, r.2 = withCalls b calls
            ∧ Forall (λ c, c = RLock ∨ c = RUnlock) calls)
  ∧ (∀ se, storage.BlockByID s id = Err se →
       r.1 = Err (if storage.errors_Is_ErrNotFound se
                  then StatusError codes_NotFound (Error_ (BlockNotFoundByIDError id))
                  else StatusError codes_Internal (Error_ (StorageError se))))
  ∧ (∀ block, storage.BlockByID s id = Ok block →
       let cids := flowgo.Guarantees (flowgo.BPayload block) in
       (∀ all,
          r.1 = Ok all
          ↔ ∃ cols, Forall2 (collectionOf s) cids cols
                    ∧ Forall2 (λ tid x, (lookup tid b).1 = Ok x)
                        (concat (flowgo.Transactions <$> cols)) all)
       ∧ (∀ e, r.1 = Err e →
            ∃ e', e = Passed e'
                  ∧ ((∃ cid, cid ∈ cids ∧ collectionFail s cid e')
                     ∨ (∃ cid col tid,
                          cid ∈ cids ∧ collectionOf s cid col
                          ∧ tid ∈ flowgo.Transactions col
                          ∧ (lookup tid b).1 = Err e')))).
Proof.
  intros r s. subst r s. unfold byBlockID, GetBlockByID. run.
  destruct (storage.BlockByID (storage_ b) id) as [block|se]; simpl.
  2: { destruct (storage.errors_Is_ErrNotFound se) eqn:Hnf; simpl;
         (split; [exists []; by rewrite withCalls_nil|]; split; [|done];
          intros ? [= <-]; by rewrite Hnf). }
  pose proof (collectionsLoop_from b (flowgo.Guarantees (flowgo.BPayload block)) [] []
                (Forall_nil_2 _)) as [Hst Hout].
  rewrite withCalls_nil in Hst, Hout.
  destruct (collectionsLoop lookup _ [] b) as [[all|e] b1]; simpl in *.
  - split; [done|]. split; [done|]. intros ? [= <-].
    destruct Hout as (cols & new & -> & Hcols & Hnew). simpl.
    split; [|done]. intros all. split.
    + intros [= <-]. by exists cols.
    + intros (cols' & Hcols' & Hall). f_equal.
      assert (cols' = cols) as ->.
      { eapply Forall2_functional; [|exact Hcols'|exact Hcols].
        unfold collectionOf. congruence. }
      eapply Forall2_functional; [|exact Hnew|exact Hall]. simpl. congruence.
  - split; [done|]. split; [done|]. intros ? [= <-]. split; [|intros ? [= <-]; by eexists].
    intros all. split; [done|]. intros (cols' & Hcols' & Hall). exfalso.
    destruct Hout as [(cid & Hin & se & Hse & _)|(cid & col & tid & Hin & Hc & Ht & Hfail)];
      apply list_elem_of_lookup_1 in Hin as [i Hi];
      destruct (Forall2_lookup_l _ _ _ _ _ Hcols' Hi) as (col' & Hi' & Hc').
    + unfold collectionOf in Hc'. congruence.
    + assert (col' = col) as -> by (unfold collectionOf in *; congruence).
      assert (Hin : tid ∈ concat (flowgo.Transactions <$> cols')).
      { eapply elem_of_concat_fmap; [|exact Ht]. by eapply list_elem_of_lookup_2. }
      apply list_elem_of_lookup_1 in Hin as [j Hj].
      destruct (Forall2_lookup_l _ _ _ _ _ Hall Hj) as (x & _ & Hx). congruence.
Qed.

End Loops.

(** X9. [GetTransactionsByBlockID] only reads: the chain state is
    unchanged and the mutex is called on its read side only. A failure to
    find the block is returned as a gRPC status, NotFound when the store
    reports not-found and Internal otherwise, with the text of the
    emulator's error. When the block is found, the transactions are
    returned exactly when every collection of the block is in the store
    and every transaction ID they list is found by [GetTransaction]; they
    come in the order of the collections and, within a collection, of its
    transaction IDs. A failure of one of these lookups is returned as the
    emulator's own error, not as a status. *)
Theorem GetTransactionsByBlockID_in_order (b : Blockchain) (id : flowgo.Identifier) :
  let r := GetTransactionsByBlockID id b in
  let s := storage_ b in
  chainState r.2 = chainState b
  ∧ (∃ calls, mu r.2 = mu b ++ calls
              ∧ Forall (λ c, c = RLock ∨ c = RUnlock) calls)
  ∧ (∀ se, storage.BlockByID s id = Err se →
       r.1 = Err (if storage.errors_Is_ErrNotFound se
                  then StatusError codes_NotFound (Error_ (BlockNotFoundByIDError id))
                  else StatusError codes_Internal (Error_ (StorageError se))))
  ∧ (∀ block, storage.BlockByID s id = Ok block →
       let cids := flowgo.Guarantees (flowgo.BPayload block) in
       (∀ txs,
          r.1 = Ok txs
          ↔ ∃ cols, Forall2 (collectionOf s) cids cols
                    ∧ Forall2 (λ tid tx, (GetTransaction tid b).1 = Ok tx)
                        (concat (flowgo.Transactions <$> cols)) txs)
       ∧ (∀ e, r.1 = Err e →
            ∃ e', e = Passed e'
                  ∧ ((∃ cid, cid ∈ cids ∧ collectionFail s cid e')
                     ∨ (∃ cid col tid,
                          cid ∈ cids ∧ collectionOf s cid col
                          ∧ tid ∈ flowgo.Transactions col
                          ∧ (GetTransaction tid b).1 = Err e')))).
Proof.
  intros r s. subst r s.
  destruct (byBlockID_spec GetTransaction reader_GetTransaction b id)
    as ((calls & Hst & Hcalls) & Herr & Hok).
  unfold GetTransactionsByBlockID.
  split; [by rewrite Hst|]. split; [exists calls; by rewrite Hst|].
  split; [exact Herr|exact Hok].
Qed.

Lemma GetTransactionResult_status txID (b : Blockchain) :
  match (GetTransactionResult txID b).1 with
  | Ok res =>
      access.Status res
      = if PendingBlock.ContainsTransaction (pendingBlock_ b) txID
        then flowgo.TransactionStatusPending
        else if is_Ok (storage.TransactionResultByID (storage_ b) txID)
             then flowgo.TransactionStatusSealed
             else flowgo.TransactionStatusUnknown
  | Err e =>
      PendingBlock.ContainsTransaction (pendingBlock_ b) txID = false
      ∧ ∃ se, storage.TransactionResultByID (storage_ b) txID = Err se
              ∧ storage.errors_Is_ErrNotFound se = false
  end.
Proof.
  unfold GetTransactionResult. run.
  destruct (PendingBlock.ContainsTransaction _ _); simpl; [done|].
  destruct (storage.TransactionResultByID _ _) as [stored|se]; simpl; [done|].
  destruct (storage.errors_Is_ErrNotFound se) eqn:Hnf; simpl; [done|].
  split; [done|]. by exists se.
Qed.

(** X10. [GetTransactionResultsByBlockID] on a block whose collections
    are all in the store, when the store does not fail on a result for a
    reason other than not-found: it returns one result per transaction ID
    the collections list, in their order, and does not fail for a
    transaction without a stored result: the status is Pending for an ID
    in the pending block, else Sealed for a stored result, else Unknown. *)
Theorem GetTransactionResultsByBlockID_statuses (b : Blockchain)
    (id : flowgo.Identifier) (block : flowgo.Block)
    (cols : list flowgo.LightCollection) :
  let r := GetTransactionResultsByBlockID id b in
  let s := storage_ b in
  let tids := concat (flowgo.Transactions <$> cols) in
  storage.BlockByID s id = Ok block →
  Forall2 (collectionOf s) (flowgo.Guarantees (flowgo.BPayload block)) cols →
  (∀ tid se, tid ∈ tids →
     PendingBlock.ContainsTransaction (pendingBlock_ b) tid = false →
     storage.TransactionResultByID s tid = Err se →
     storage.errors_Is_ErrNotFound se = true) →
  ∃ results,
    r.1 = Ok results
    ∧ length results = length tids
    ∧ Forall2 (λ tid res,
         access.Status res
         = if PendingBlock.ContainsTransaction (pendingBlock_ b) tid
           then flowgo.TransactionStatusPending
           else if is_Ok (storage.TransactionResultByID s tid)
                then flowgo.TransactionStatusSealed
                else flowgo.TransactionStatusUnknown) tids results.
Proof.
  intros r s tids Hblock Hcols Hsoft. subst r.
  destruct (byBlockID_spec GetTransactionResult reader_GetTransactionResult b id)
    as (_ & _ & Hok).
  destruct (Hok block Hblock) as [Hiff _]. clear Hok.
  assert (Hall : ∃ results,
             Forall2 (λ tid res, (GetTransactionResult tid b).1 = Ok res) tids results).
  { clear Hiff. induction tids as [|tid tids' IH]; [by exists []|].
    destruct IH as [results Hres].
    { intros tid' se Hin. apply Hsoft. by apply list_elem_of_further. }
    pose proof (GetTransactionResult_status tid b) as Hst.
    destruct (GetTransactionResult tid b).1 as [res|e] eqn:Hr.
    - exists (res :: results). by constructor.
    - destruct Hst as (Hc & se & Hse & Hnf).
      rewrite (Hsoft tid se (list_elem_of_here _ _) Hc Hse) in Hnf. done. }
  destruct Hall as [results Hres]. exists results.
  split; [apply Hiff; by exists cols|].
  split; [symmetry; by eapply Forall2_length|].
  eapply Forall2_impl; [exact Hres|]. intros tid res Hr. simpl in Hr.
  pose proof (GetTransactionResult_status tid b) as Hst. by rewrite Hr in Hst.
Qed.

(** X11. [GetTransactionResultByIndex], for an index that is a
    [uint32]: an error of [GetTransactionResultsByBlockID] is passed on;
    otherwise (fewer than 2^32 results) it returns the result at the
    index when the index is below the number of results and the NotFound
    status when it is not. The bounds check keeps the indexing in range:
    the call never panics, whatever the number of results. *)
Theorem GetTransactionResultByIndex_bounds (b : Blockchain)
    (id : flowgo.Identifier) (index : Z) :
  0 ≤ index < 2 ^ 32 →
  let r := GetTransactionResultByIndex id index b in
  let all := GetTransactionResultsByBlockID id b in
  r.2 = all.2
  ∧ r.1 ≠ Panicked
  ∧ (∀ e, all.1 = Err e → r.1 = Returned (Err e))
  ∧ (∀ results, all.1 = Ok results → Z.of_nat (length results) < 2 ^ 32 →
       r.1 = Returned
               match results !! Z.to_nat index with
               | Some res => Ok res
               | None => Err (StatusError codes_NotFound "TransactionResult not found")
               end).
Proof.
  intros Hindex r all. subst r all. unfold GetTransactionResultByIndex. run.
  destruct (GetTransactionResultsByBlockID id b) as [[results|e] b1]; simpl;
    [|repeat split; congruence].
  destruct (Z.leb_spec (Z.of_nat (length results) mod 2 ^ 32) index) as [L|L]; simpl.
  - split; [done|]. split; [done|]. split; [done|].
    intros ? [= <-] Hlen. rewrite Z.mod_small in L by lia.
    rewrite lookup_ge_None_2; [done|lia].
  - assert (Hlt : (Z.to_nat index < length results)%nat).
    { pose proof (Z.mod_le (Z.of_nat (length results)) (2 ^ 32)). lia. }
    destruct (lookup_lt_is_Some_2 _ _ Hlt) as [res Hres]. rewrite Hres. simpl.
    split; [done|]. split; [done|]. split; [done|].
    intros ? [= <-] _. by rewrite Hres.
Qed.

(** *** Configuration and start-up *)

Context `{!Platform S}.

Lemma applyOptions_app (opts opts' : list (Option (S := S))) conf :
  applyOptions (opts ++ opts') conf = applyOptions opts' (applyOptions opts conf).
Proof. unfold applyOptions. apply foldl_app. Qed.

(** X12. Simple addresses win over the chain ID, in whatever order the
    options are given: when [WithSimpleAddresses] is among the options of
    this package that are applied (or simple addresses are already on), the
    chain is the monotonic emulator chain, also with a [WithChainID] after
    it, and the address of the service key is that chain's service
    address. Options other than these two leave the chain as it was. *)
Theorem GetChainID_simple_addresses (opts : list (Option (S := S))) (conf : config) :
  Forall packageOption opts →
  let conf' := applyOptions opts conf in
  (WithSimpleAddresses ∈ opts ∨ SimpleAddresses conf = true →
     GetChainID conf' = flowgo_MonotonicEmulator
     ∧ SKAddress (GetServiceKey conf') = ServiceAddress flowgo_MonotonicEmulator)
  ∧ ((∀ o, o ∈ opts →
           o ≠ WithSimpleAddresses ∧ ∀ chainID, o ≠ WithChainID chainID) →
     GetChainID conf' = GetChainID conf).
Proof.
  intros Hopts. simpl. revert conf.
  induction Hopts as [|o opts Ho Hopts IH]; intros conf.
  { split; [|done]. intros [Hin|Hs]; [by apply elem_of_nil in Hin|].
    unfold GetServiceKey, GetChainID. simpl. by rewrite Hs. }
  destruct (IH (o conf)) as [IH1 IH2]. simpl. split.
  - intros [Hin|Hs]; apply IH1.
    + apply elem_of_cons in Hin as [<-|Hin]; [by right|by left].
    + right. by destruct Ho.
  - intros Hother. rewrite IH2.
    2: { intros o' Hin. apply Hother. by apply list_elem_of_further. }
    destruct (Hother o (list_elem_of_here _ _)) as [Hs Hc].
    destruct Ho; try done. by destruct (Hc chainID).
Qed.

Lemma applyOptions_ServiceKey (opts : list (Option (S := S))) (conf : config) :
  Forall packageOption opts →
  (∀ o, o ∈ opts → ¬ serviceKeyOption o) →
  ServiceKey_ (applyOptions opts conf) = ServiceKey_ conf.
Proof.
  intros Hopts. revert conf.
  induction Hopts as [|o opts Ho Hopts IH]; intros conf Hother; [done|].
  simpl. rewrite IH.
  2: { intros o' Hin. apply Hother. by apply list_elem_of_further. }
  pose proof (Hother o (list_elem_of_here _ _)) as Hno.
  destruct Ho; try done; exfalso; apply Hno; [left|right]; by eexists _, _, _.
Qed.

(** X13. The last option that sets the service key decides it, and
    replaces the key as a whole. After [WithServicePublicKey], whatever
    came before it (also a private key), the service key has no private
    key and its account key carries the given public key; after
    [WithServicePrivateKey] the account key carries the public key derived
    from the private key. In both cases index and sequence number are 0,
    and [GetServiceKey] sets the weight to the threshold and the address to
    the service address of the configured chain. *)
Theorem service_key_last_option_wins (before after : list (Option (S := S)))
    (conf : config) (sa : sdkcrypto.SignatureAlgorithm) (ha : sdkcrypto.HashAlgorithm) :
  Forall packageOption after →
  (∀ o, o ∈ after → ¬ serviceKeyOption o) →
  (∀ pk,
     let conf' := applyOptions (before ++ WithServicePublicKey pk sa ha :: after) conf in
     GetServiceKey conf'
     = {| SKIndex := 0; SKAddress := ServiceAddress (GetChainID conf');
          SKSequenceNumber := 0; SKPrivateKey := None; SKPublicKey := pk;
          SKHashAlgo := ha; SKSigAlgo := sa; SKWeight := AccountKeyWeightThreshold |}
     ∧ ServiceKey_AccountKey (GetServiceKey conf')
       = {| AKIndex := 0; AKPublicKey := pk; AKSigAlgo := sa; AKHashAlgo := ha;
            AKWeight := AccountKeyWeightThreshold; AKSequenceNumber := 0 |})
  ∧ (∀ k,
     let conf' := applyOptions (before ++ WithServicePrivateKey k sa ha :: after) conf in
     SKPrivateKey (GetServiceKey conf') = Some k
     ∧ ServiceKey_AccountKey (GetServiceKey conf')
       = {| AKIndex := 0; AKPublicKey := Some (PrivateKey_PublicKey k);
            AKSigAlgo := sa; AKHashAlgo := ha;
            AKWeight := AccountKeyWeightThreshold; AKSequenceNumber := 0 |}).
Proof.
  intros Hafter Hother. split.
  - intros pk conf'. subst conf'.
    unfold GetServiceKey, ServiceKey_AccountKey.
    rewrite applyOptions_app. simpl.
    rewrite (applyOptions_ServiceKey after _ Hafter Hother). done.
  - intros k conf'. subst conf'.
    unfold GetServiceKey, ServiceKey_AccountKey.
    rewrite applyOptions_app. simpl.
    rewrite (applyOptions_ServiceKey after _ Hafter Hother). done.
Qed.

Lemma configureLedger_restores (conf : config) (store : S) (ctx : fvm.Context) latest :
  storage.LatestBlock store = Ok latest →
  configureLedger conf store ctx
  = Returned (store, Ok (latest, storage.LedgerViewByHeight store
                                   (flowgo.Height (flowgo.BHeader latest)))).
Proof. unfold configureLedger. by intros ->. Qed.

(** X14. [configureLedger] bootstraps an empty store only. When the
    store has a latest block it returns that block with the ledger view of
    its height and leaves the store as it is; when the store fails for a
    reason other than not-found it returns that error at once, and the
    store is left as it is. When the store reports not-found, the
    bootstrap procedure is run on the ledger view of height 0: if it
    fails, the error is returned and nothing is committed; otherwise the
    genesis block of the configured chain is committed with no collection,
    transaction, result or event and the delta of the bootstrapped view,
    and the call returns the genesis block with the view of height 0 of
    the store after the commit, or the error of that commit. It panics
    only when the service key has neither a private nor a public key. *)
Theorem configureLedger_cases (conf : config) (store : S) (ctx : fvm.Context) :
  let r := configureLedger conf store ctx in
  (∀ latest, storage.LatestBlock store = Ok latest →
     r = Returned (store, Ok (latest, storage.LedgerViewByHeight store
                                        (flowgo.Height (flowgo.BHeader latest)))))
  ∧ (∀ e, storage.LatestBlock store = Err e →
       storage.errors_Is_ErrNotFound e = false →
       r = Returned (store, Err (StoreError e)))
  ∧ (∀ e, storage.LatestBlock store = Err e →
       storage.errors_Is_ErrNotFound e = true →
       match AKPublicKey (ServiceKey_AccountKey (GetServiceKey conf)) with
       | None => r = Panicked
       | Some _ =>
           ∃ bootstrapped err,
             bootstrapLedger ctx (storage.LedgerViewByHeight store 0) conf
             = Returned (bootstrapped, err)
             ∧ match err with
               | Some err =>
                   r = Returned (store, Err (BootstrapFailed
                                               "failed to bootstrap execution state" err))
               | None =>
                   let genesis := Genesis (GetChainID conf) in
                   let out := storage.CommitBlock store genesis [] ∅ ∅
                                (Delta bootstrapped) [] in
                   r = Returned
                         (out.1,
                          match out.2 with
                          | Some err => Err (StoreError err)
                          | None => Ok (genesis, storage.LedgerViewByHeight out.1 0)
                          end)
               end
       end).
Proof.
  intros r. subst r. unfold configureLedger. split; [|split].
  - intros latest ->. done.
  - intros e -> ->. done.
  - intros e -> ->. unfold configureNewLedger, bootstrapLedger.
    destruct (AKPublicKey _) as [pk|]; [|done].
    destruct (Run_Bootstrap _ _ _) as [bootstrapped [err|]]; simpl.
    + by eexists _, _.
    + eexists _, _. split; [done|]. simpl.
      destruct (storage.CommitBlock _ _ _ _ _ _ _) as [store' [err|]]; done.
Qed.

(** X15. Every blockchain [NewBlockchain] returns starts with auto-mine
    off (the AutoMine field of the configuration is not read), with a
    mutex never called, and with an open, empty pending block: no
    transaction is Pending and [ExecuteBlock] has nothing to run; its
    service key is the configured one with the threshold weight. Started
    on a store that has a latest block, it leaves the store as it found it
    and its pending block is built on that block, at its height plus one. *)
Theorem NewBlockchain_started (opts : list (Option (S := S))) (conf0 : config)
    (started : Started) :
  defaultConfig = Returned conf0 →
  NewBlockchain opts = Returned (Ok started) →
  let conf := applyOptions opts conf0 in
  let b := blockchain started in
  autoMine b = false
  ∧ mu b = []
  ∧ vmCtx b = configureFVM conf
  ∧ serviceKey started = GetServiceKey conf
  ∧ SKWeight (serviceKey started) = AccountKeyWeightThreshold
  ∧ inLifecycle b
  ∧ PendingBlock.Empty (pendingBlock_ b) = true
  ∧ (∀ id res, (GetTransactionResult id b).1 = Ok res →
       access.Status res ≠ flowgo.TransactionStatusPending)
  ∧ ExecuteBlock b = (Some (Returned ([], None)), b)
  ∧ (∀ store latest,
       GetStore conf = Returned store → storage.LatestBlock store = Ok latest →
       storage_ b = store
       ∧ pendingBlock_ b
         = PendingBlock.newPendingBlock latest
             (storage.LedgerViewByHeight store (flowgo.Height (flowgo.BHeader latest)))
       ∧ height (pendingBlock_ b) = flowgo.Height (flowgo.BHeader latest) + 1).
Proof.
  intros Hdefault. unfold NewBlockchain. rewrite Hdefault.
  destruct (GetStore (applyOptions opts conf0)) as [store|] eqn:Hstore; [|done].
  pose proof (configureLedger_restores (applyOptions opts conf0) store
                (configureFVM (applyOptions opts conf0))) as Hrestore.
  destruct (configureLedger _ _ _) as [[store' [[latest v]|e]]|]; [|done|done].
  intros [= <-]. simpl.
  assert (Hfresh := fresh_pending_block
    {| storage_ := store'; mu := [];
       pendingBlock_ := PendingBlock.newPendingBlock latest v;
       vmCtx := configureFVM (applyOptions opts conf0); autoMine := false |}
    latest v eq_refl).
  destruct Hfresh as (Hstatus & _ & Hexec).
  repeat (split; [done|]).
  split; [eexists; apply lifecycle_new|].
  split; [done|]. split; [exact Hstatus|]. split; [exact Hexec|].
  intros store0 latest0 [= <-] Hlatest.
  specialize (Hrestore _ Hlatest). injection Hrestore as -> -> ->. done.
Qed.

(** *** The results handed to the store *)

Lemma convertToSealedResults_keys results sealed id :
  convertToSealedResults results = Ok sealed →
  is_Some (sealed !! id) → is_Some (results !! id).
Proof.
  unfold convertToSealedResults. intros Hc Hs.
  assert (Hin : id ∈ (map_to_list results).*1).
  { revert sealed Hc Hs.
    induction (map_to_list results) as [|[k x] l IH]; intros sealed Hc Hs; simpl in *.
    - injection Hc as <-. rewrite lookup_empty in Hs. by destruct Hs.
    - destruct (foldr _ _ l) as [output|e] eqn:Hf; [|done].
      destruct (ToStorableResult (Transaction x)) as [temp|e]; [|done].
      injection Hc as <-. destruct (decide (k = id)) as [->|Hne].
      + apply list_elem_of_here.
      + rewrite lookup_insert_ne in Hs by done.
        apply list_elem_of_further. by eapply IH. }
  apply list_elem_of_fmap in Hin as ([k x] & -> & Hin).
  apply elem_of_map_to_list in Hin. by eexists.
Qed.

(** X16. [convertToSealedResults] converts the results of a block key
    by key: when it succeeds, the map it returns has exactly the
    transaction IDs of the results it was given, each with the conversion
    of that transaction's procedure; it succeeds whenever every conversion
    does; and the error it returns is that of a conversion of one of the
    results, in which case no map is returned. *)
Theorem convertToSealedResults_pointwise
    (results : gmap flowgo.Identifier IndexedTransactionResult) :
  let r := convertToSealedResults results in
  (∀ sealed, r = Ok sealed →
     ∀ id, sealed !! id
           = itr ← results !! id;
             match ToStorableResult (Transaction itr) with
             | Ok sr => Some sr
             | Err _ => None
             end)
  ∧ ((∀ id itr, results !! id = Some itr →
        is_Ok (ToStorableResult (Transaction itr)) = true) →
     is_Ok r = true)
  ∧ (∀ e, r = Err e →
       ∃ id itr, results !! id = Some itr
                 ∧ ToStorableResult (Transaction itr) = Err e).
Proof.
  intros r. subst r. split; [|split].
  - intros sealed Hc id.
    destruct (results !! id) as [itr|] eqn:Hr; simpl.
    + destruct (convertToSealedResults_lookup _ _ _ _ Hc Hr) as (sr & -> & Hs). done.
    + destruct (sealed !! id) as [sr|] eqn:Hs; [|done].
      destruct (convertToSealedResults_keys _ _ id Hc) as [itr Hitr]; [by eexists|].
      congruence.
  - intros Hall. unfold convertToSealedResults.
    assert (Hl : ∀ k x, (k, x) ∈ map_to_list results →
                        is_Ok (ToStorableResult (Transaction x)) = true).
    { intros k x Hin. apply elem_of_map_to_list in Hin. by eapply Hall. }
    induction (map_to_list results) as [|[k x] l IH]; simpl; [done|].
    destruct (foldr _ _ l) as [output|e].
    + pose proof (Hl k x (list_elem_of_here _ _)) as Hx.
      by destruct (ToStorableResult (Transaction x)).
    + apply IH. intros k' x' Hin. apply (Hl k'). by apply list_elem_of_further.
  - intros e. unfold convertToSealedResults. intros Hc.
    assert (Hin : ∃ k x, (k, x) ∈ map_to_list results
                         ∧ ToStorableResult (Transaction x) = Err e).
    { induction (map_to_list results) as [|[k x] l IH]; simpl in *; [done|].
      destruct (foldr _ _ l) as [output|e'].
      - destruct (ToStorableResult (Transaction x)) as [temp|e'] eqn:Hx; [done|].
        injection Hc as <-. exists k, x. split; [apply list_elem_of_here|done].
      - destruct (IH Hc) as (k' & x' & Hin & Hx').
        exists k', x'. split; [by apply list_elem_of_further|done]. }
    destruct Hin as (k & x & Hin & Hx). apply elem_of_map_to_list in Hin.
    by exists k, x.
Qed.

(** *** The event type of a query *)

Ltac bools H :=
  unfold isSpace1, isSpace2, isSpace3 in H;
  repeat (rewrite ?andb_true_iff, ?orb_true_iff, ?N.leb_le, ?N.eqb_eq in H).

Lemma trimLeftSpace_keeps (a : N) :
  (33 ≤ a ≤ 126)%N →
  ∀ n l, (length l ≤ n)%nat → a ∈ l → a ∈ trimLeftSpace l.
Proof.
  intros Ha. induction n as [|n IH]; intros l Hn Hin.
  { destruct l; [done|simpl in Hn; lia]. }
  destruct l as [|x r1]; [done|]. simpl.
  destruct (isSpace1 x) eqn:E1.
  { bools E1. apply IH; [simpl in Hn; lia|].
    apply elem_of_cons in Hin as [->|Hin]; [lia|done]. }
  destruct r1 as [|b r2]; [done|].
  destruct (isSpace2 x b) eqn:E2.
  { bools E2. apply IH; [simpl in Hn; lia|].
    apply elem_of_cons in Hin as [->|Hin]; [lia|].
    apply elem_of_cons in Hin as [->|Hin]; [lia|done]. }
  destruct r2 as [|c r3]; [done|].
  destruct (isSpace3 x b c) eqn:E3; [|done].
  bools E3. apply IH; [simpl in Hn; lia|].
  apply elem_of_cons in Hin as [->|Hin]; [lia|].
  apply elem_of_cons in Hin as [->|Hin]; [lia|].
  apply elem_of_cons in Hin as [->|Hin]; [lia|done].
Qed.

Lemma trimLeftSpaceRev_keeps (a : N) :
  (33 ≤ a ≤ 126)%N →
  ∀ n l, (length l ≤ n)%nat → a ∈ l → a ∈ trimLeftSpaceRev l.
Proof.
  intros Ha. induction n as [|n IH]; intros l Hn Hin.
  { destruct l; [done|simpl in Hn; lia]. }
  destruct l as [|x r1]; [done|]. simpl.
  destruct (isSpace1 x) eqn:E1.
  { bools E1. apply IH; [simpl in Hn; lia|].
    apply elem_of_cons in Hin as [->|Hin]; [lia|done]. }
  destruct r1 as [|b r2]; [done|].
  destruct (isSpace2 b x) eqn:E2.
  { bools E2. apply IH; [simpl in Hn; lia|].
    apply elem_of_cons in Hin as [->|Hin]; [lia|].
    apply elem_of_cons in Hin as [->|Hin]; [lia|done]. }
  destruct r2 as [|c r3]; [done|].
  destruct (isSpace3 c b x) eqn:E3; [|done].
  bools E3. apply IH; [simpl in Hn; lia|].
  apply elem_of_cons in Hin as [->|Hin]; [lia|].
  apply elem_of_cons in Hin as [->|Hin]; [lia|].
  apply elem_of_cons in Hin as [->|Hin]; [lia|done].
Qed.

Lemma elem_of_rev {A} (x : A) (l : list A) : x ∈ l → x ∈ rev l.
Proof. rewrite !list_elem_of_In. apply in_rev. Qed.

Lemma trimLeftSpace_blank l :
  Forall (λ a, isSpace1 a = true) l → trimLeftSpace l = [].
Proof. induction 1 as [|a l Ha Hl IH]; simpl; [done|]. by rewrite Ha. Qed.

(** X17. [validateEventType] accepts every event type that has a
    visible ASCII character (a byte from 33 to 126) somewhere in it,
    whatever surrounds it; it rejects the empty string and every string
    made of ASCII white space only (tab, line feed, vertical tab, form
    feed, carriage return, space), with the invalid-query error. *)
Theorem validateEventType_visible (eventType : string) :
  (∀ a, a ∈ bytes_of_string eventType → (33 ≤ a ≤ 126)%N →
        validateEventType eventType = None)
  ∧ (Forall (λ a, isSpace1 a = true) (bytes_of_string eventType) →
     validateEventType eventType
     = Some (Errorf "invalid query: eventType must not be empty" None)).
Proof.
  unfold validateEventType, TrimSpace. split.
  - intros a Hin Ha.
    assert (Hk1 : a ∈ rev (trimLeftSpace (bytes_of_string eventType))).
    { apply elem_of_rev. by eapply trimLeftSpace_keeps. }
    assert (Hk2 : a ∈ rev (trimLeftSpaceRev
                             (rev (trimLeftSpace (bytes_of_string eventType))))).
    { apply elem_of_rev. by eapply trimLeftSpaceRev_keeps. }
    destruct (rev (trimLeftSpaceRev _)) as [|? ?]; [by apply elem_of_nil in Hk2|done].
  - intros Hblank. by rewrite (trimLeftSpace_blank _ Hblank).
Qed.

(** *** The stand-in for badger *)

Lemma wrapInt_small bits z :
  32 ≤ bits → 0 ≤ z < 2 ^ 31 → wrapInt bits z = z.
Proof.
  intros Hbits Hz. unfold wrapInt.
  assert (Hhalf : 2 ^ 31 ≤ 2 ^ (bits - 1)) by (apply Z.pow_le_mono_r; lia).
  assert (Hpow : 2 ^ bits = 2 * 2 ^ (bits - 1)).
  { rewrite <- Z.pow_succ_r by lia. f_equal. lia. }
  rewrite Z.mod_small; lia.
Qed.

Lemma badger_moves_invariant bits ms :
  32 ≤ bits →
  ∀ it,
    badger.length it = 0 → badger.items it = [] →
    0 ≤ badger.index it →
    badger.index it + Z.of_nat (length ms) < 2 ^ 31 →
    let it' := badger.moves bits ms it in
    badger.length it' = 0 ∧ badger.items it' = [] ∧ 0 ≤ badger.index it'.
Proof.
  intros Hbits. induction ms as [|m ms IH]; intros it Hl Hi Hpos Hn; [done|].
  simpl. apply IH; destruct m; simpl in *; try done; try lia.
  all: rewrite wrapInt_small by lia; lia.
Qed.

Lemma badger_moves_prefix bits ms it :
  badger.prefix (badger.moves bits ms it) = badger.prefix it.
Proof.
  unfold badger.moves. revert it.
  induction ms as [|m ms IH]; intros it; simpl; [done|].
  rewrite IH. by destruct m.
Qed.

(** X18. The iterator of the badger stand-in never yields an entry: an
    iterator made by [NewIterator], after any sequence of fewer than 2^31
    calls of [Rewind], [Seek] and [Next], is not [Valid] (so a loop
    [for it.Rewind(); it.Valid(); it.Next()] runs its body zero times),
    and [Item] on it panics. *)
Theorem badger_iterator_never_valid (bits : Z) (opt : badger.IteratorOptions)
    (ms : list badger.move) :
  32 ≤ bits →
  Z.of_nat (length ms) < 2 ^ 31 →
  let it := badger.moves bits ms (badger.NewIterator opt) in
  badger.Valid it = false
  ∧ badger.Item_ it = Panicked
  ∧ badger.prefix it = badger.Prefix opt.
Proof.
  intros Hbits Hn it.
  destruct (badger_moves_invariant bits ms Hbits (badger.NewIterator opt))
    as (Hl & Hi & Hpos); try done; try (simpl; lia). fold it in Hl, Hi, Hpos.
  split; [|split].
  - unfold badger.Valid. rewrite Hl. apply Z.ltb_ge. done.
  - unfold badger.Item_. rewrite Hi.
    destruct (badger.index it <? 0); [done|]. by rewrite lookup_nil.
  - subst it. by rewrite badger_moves_prefix.
Qed.

(** *** Scripts at a block *)

Lemma executeScriptAtBlock_reads script arguments block (b b' : Blockchain) :
  storage_ b' = storage_ b → vmCtx b' = vmCtx b →
  (executeScriptAtBlock script arguments block b').1
  = (executeScriptAtBlock script arguments block b).1.
Proof.
  intros Hs Hv. unfold executeScriptAtBlock. run. rewrite Hs, Hv.
  destruct (fvm.RunScript _ _ _) as [[sp v] [e|]]; [done|].
  destruct (FlowEventsToSDK _); [|done].
  destruct (fvm.SErr sp); done.
Qed.

(** X22. Scripts see the committed chain only, and the three entry
    points agree on it. What a script returns depends on the store and the
    machine context alone: transactions waiting or executed in the pending
    block are not visible to it. On a store that holds a block
    consistently at a height, [ExecuteScriptAtBlockHeight] at that height
    and [ExecuteScriptAtBlockID] at the ID of that block return the same,
    and when that block is the latest, [ExecuteScript] returns it too. *)
Theorem scripts_agree (b : Blockchain) (script : string) (arguments : list string)
    (blockHeight : Z) (block : flowgo.Block) :
  blockAt (storage_ b) blockHeight block →
  let atHeight := ExecuteScriptAtBlockHeight script arguments blockHeight in
  let atID := ExecuteScriptAtBlockID script arguments (Block_ID block) in
  (atHeight b).1 = (atID b).1
  ∧ (atHeight b).1 = (executeScriptAtBlock script arguments block b).1
  ∧ (storage.LatestBlock (storage_ b) = Ok block →
     (ExecuteScript script arguments b).1 = (atHeight b).1)
  ∧ (∀ b', storage_ b' = storage_ b → vmCtx b' = vmCtx b →
       (atHeight b').1 = (atHeight b).1
       ∧ (atID b').1 = (atID b).1
       ∧ (ExecuteScript script arguments b').1 = (ExecuteScript script arguments b).1).
Proof.
  intros (Hh & Hid & _) atHeight atID. subst atHeight atID.
  assert (Hheight : ∀ b' : Blockchain, storage_ b' = storage_ b → vmCtx b' = vmCtx b →
            (ExecuteScriptAtBlockHeight script arguments blockHeight b').1
            = (executeScriptAtBlock script arguments block b).1).
  { intros b' Hs Hv. unfold ExecuteScriptAtBlockHeight, getBlockByHeight. run.
    rewrite Hs, Hh. simpl.
    match goal with
    | |- context [executeScriptAtBlock _ _ _ ?b0] =>
        rewrite <- (executeScriptAtBlock_reads script arguments block b b0) by done;
        destruct (executeScriptAtBlock script arguments block b0)
    end. done. }
  assert (HID : ∀ b' : Blockchain, storage_ b' = storage_ b → vmCtx b' = vmCtx b →
            (ExecuteScriptAtBlockID script arguments (Block_ID block) b').1
            = (executeScriptAtBlock script arguments block b).1).
  { intros b' Hs Hv. unfold ExecuteScriptAtBlockID, GetBlockByID. run.
    rewrite Hs, Hid. simpl. by apply executeScriptAtBlock_reads. }
  assert (Hlatest : ∀ b' : Blockchain, storage_ b' = storage_ b → vmCtx b' = vmCtx b →
            (ExecuteScript script arguments b').1
            = match storage.LatestBlock (storage_ b) with
              | Ok latest => (executeScriptAtBlock script arguments latest b).1
              | Err e => Err (StorageError e)
              end).
  { intros b' Hs Hv. unfold ExecuteScript, GetLatestBlock. run. rewrite Hs.
    destruct (storage.LatestBlock (storage_ b)) as [latest|e]; simpl; [|done].
    match goal with
    | |- context [executeScriptAtBlock _ _ _ ?b0] =>
        rewrite <- (executeScriptAtBlock_reads script arguments latest b b0) by done;
        destruct (executeScriptAtBlock script arguments latest b0)
    end. done. }
  split; [by rewrite Hheight, HID|]. split; [by rewrite Hheight|]. split.
  - intros Hl. rewrite Hlatest, Hheight, Hl; done.
  - intros b' Hs Hv. rewrite !Hheight, !HID, !Hlatest; done.
Qed.

(** *** The HTTP API *)

Context `{!ApiPlatform S}.

(** X20. The handler of /emulator/newBlock commits, it does not
    execute: while the pending block holds transactions that have not all
    been executed it answers 500 with no body and leaves the chain state
    as it is. It answers either 500 with no body or a block response with
    the status left to the first write, and whatever it answers the
    emulator is left as [CommitBlock] left it, the store with it. After a
    commit that succeeds the response is made from the latest block read
    back from that store, its height converted to [int]. *)
Theorem newBlock_handler_commits_only (m : EmulatorAPIServer S) :
  let p := pendingBlock_ (emulator m) in
  let r := api.CommitBlock m in
  emulator r.2 = (CommitBlock (emulator m)).2
  ∧ (r.1 = api.failed http.StatusInternalServerError
     ∨ ∃ blockResponse,
         r.1 = {| contentType := api.json; statusCode := None;
                  body := Some (BlockBody blockResponse) |}
         ∧ RContext blockResponse = "")
  ∧ (PendingBlock.Empty p = false → PendingBlock.ExecutionComplete p = false →
     r.1 = api.failed http.StatusInternalServerError
     ∧ chainState (emulator r.2) = chainState (emulator m))
  ∧ (∀ block latest,
       (CommitBlock (emulator m)).1 = Ok block →
       storage.LatestBlock (store r.2) = Ok latest →
       let blockResponse :=
         {| RHeight := wrapInt intBits (flowgo.Height (flowgo.BHeader latest));
            RBlockId := Block_ID latest; RContext := "" |} in
       r.1 = match json_Encode (BlockBody blockResponse) with
             | Some _ => api.failed http.StatusInternalServerError
             | None => {| contentType := api.json; statusCode := None;
                          body := Some (BlockBody blockResponse) |}
             end).
Proof.
  intros p r.
  assert (He : emulator r.2 = (CommitBlock (emulator m)).2).
  { subst r. unfold api.CommitBlock.
    destruct (CommitBlock (emulator m)) as [[block|e] b]; simpl; [|done].
    unfold GetLatestBlock. run.
    destruct (storage.LatestBlock (storage_ b)) as [latest|e]; simpl; [|done].
    destruct (json_Encode _); done. }
  split; [done|]. unfold store. rewrite He. clear He. subst r.
  unfold api.CommitBlock. split; [|split].
  - destruct (CommitBlock (emulator m)) as [[block|e] b]; simpl; [|by left].
    unfold GetLatestBlock. run.
    destruct (storage.LatestBlock (storage_ b)) as [latest|e]; simpl; [|by left].
    destruct (json_Encode _); [by left|]. right. by eexists.
  - intros He Hc. unfold CommitBlock, commitBlock. run. fold p.
    rewrite He, Hc. simpl. rewrite andb_true_r.
    destruct (PendingBlock.ExecutionStarted p); simpl; done.
  - intros block latest Hok Hlatest.
    destruct (CommitBlock (emulator m)) as [c b]. simpl in *. subst c.
    unfold GetLatestBlock. run. rewrite Hlatest. simpl.
    destruct (json_Encode _); done.
Qed.

(** X21. Snapshot names. With a store that provides snapshots and can
    list them, a name that is not empty is refused by exactly one of the
    two handlers, and a refusal changes nothing: [SnapshotCreate] answers
    409 for a name in the list and [SnapshotJump] answers 404 for a name
    that is not in it. The handler that does not refuse jumps to the
    snapshot ([SnapshotCreate] creating it), which changes the store under
    the blockchain. When the jump fails, or the configuration of a
    blockchain on the store after it, the answer is 500 and the emulator
    behind the adapter is the one from before, its pending block and its
    context as they were, on the store as the failed call left it. When
    the configuration succeeds, the emulator is the new blockchain on that
    store, whatever is answered: 200 with the height and ID of the latest
    block and the name as context, or 500 when the latest block cannot be
    read or encoded. [SnapshotCreate] answers 500 for the empty name
    without looking at the store, and both answer 500 when snapshots are
    not provided. *)
Theorem snapshot_names (m : EmulatorAPIServer S) (name : string) :
  let s := store m in
  let handler (create : bool) :=
    if create then api.SnapshotCreate name m else api.SnapshotJump name m in
  api.SnapshotCreate "" m = (api.failed http.StatusInternalServerError, m)
  ∧ (isSnapshotProvider s && SupportSnapshotsWithCurrentConfig s = false →
     name ≠ "" →
     ∀ create, handler create = (api.failed http.StatusInternalServerError, m))
  ∧ (isSnapshotProvider s && SupportSnapshotsWithCurrentConfig s = true →
     name ≠ "" →
     ∀ snapshots, Snapshots s = Ok snapshots →
       (name ∈ snapshots → handler true = (api.failed http.StatusConflict, m))
       ∧ (name ∉ snapshots → handler false = (api.failed http.StatusNotFound, m))
       ∧ ∀ create : bool,
           (if create then name ∉ snapshots else name ∈ snapshots) →
           let r := handler create in
           (∀ s1 e, JumpToSnapshot s name create = (s1, Some e) →
              r = (api.failed http.StatusInternalServerError, onStore s1 m))
           ∧ (∀ s1 s2 e,
                JumpToSnapshot s name create = (s1, None) →
                configureBlockchain s1 = (s2, Err e) →
                r = (api.failed http.StatusInternalServerError, onStore s2 m))
           ∧ (∀ s1 s2 pending ctx mining,
                JumpToSnapshot s name create = (s1, None) →
                configureBlockchain s1 = (s2, Ok (pending, ctx, mining)) →
                emulator r.2
                = {| storage_ := s2; mu := []; pendingBlock_ := pending;
                     vmCtx := ctx; autoMine := mining |}
                ∧ (∀ e, storage.LatestBlock s2 = Err e →
                     r.1 = api.failed http.StatusInternalServerError)
                ∧ (∀ latest, storage.LatestBlock s2 = Ok latest →
                     let blockResponse :=
                       {| RHeight :=
                            wrapInt intBits (flowgo.Height (flowgo.BHeader latest));
                          RBlockId := Block_ID latest; RContext := name |} in
                     r.1 = match json_Encode (BlockBody blockResponse) with
                           | Some _ => api.failed http.StatusInternalServerError
                           | None =>
                               {| contentType := api.json;
                                  statusCode := Some http.StatusOK;
                                  body := Some (BlockBody blockResponse) |}
                           end))).
Proof.
  intros s handler. subst handler. split; [done|]. split.
  - intros Hno Hname create. apply String.eqb_neq in Hname.
    destruct create; unfold api.SnapshotCreate, api.SnapshotJump; fold s;
      rewrite ?Hname;
      (destruct (isSnapshotProvider s); simpl in *; [|done]; by rewrite Hno).
  - intros Hyes Hname names Hs. apply String.eqb_neq in Hname.
    apply andb_true_iff in Hyes as [Hp Hc].
    assert (Hjump : ∀ create : bool,
              (if create then name ∉ names else name ∈ names) →
              (if create then api.SnapshotCreate name m else api.SnapshotJump name m)
              = let '(store', err) := JumpToSnapshot s name create in
                match err with
                | Some _ => (api.failed http.StatusInternalServerError, onStore store' m)
                | None => api.reloadBlockchainFromSnapshot name store' (onStore store' m)
                end).
    { intros [|] Hin; unfold api.SnapshotCreate, api.SnapshotJump; fold s;
        rewrite ?Hname, Hp, Hc; simpl; rewrite Hs.
      - rewrite (bool_decide_eq_false_2 _ Hin).
        destruct (JumpToSnapshot s name true) as [store' [e|]]; done.
      - rewrite (bool_decide_eq_true_2 _ Hin). simpl.
        destruct (JumpToSnapshot s name false) as [store' [e|]]; done. }
    split; [|split].
    + intros Hin. unfold api.SnapshotCreate. fold s. rewrite Hname, Hp, Hc. simpl.
      rewrite Hs. by rewrite (bool_decide_eq_true_2 _ Hin).
    + intros Hin. unfold api.SnapshotJump. fold s. rewrite Hp, Hc. simpl.
      rewrite Hs. by rewrite (bool_decide_eq_false_2 _ Hin).
    + intros create Hin r. subst r. rewrite (Hjump create Hin). clear Hjump.
      split; [|split].
      * intros s1 e ->. done.
      * intros s1 s2 e -> Hconf. unfold api.reloadBlockchainFromSnapshot.
        rewrite Hconf. done.
      * intros s1 s2 pending ctx mining -> Hconf.
        unfold api.reloadBlockchainFromSnapshot, GetLatestBlock. run.
        rewrite Hconf. simpl.
        destruct (storage.LatestBlock s2) as [latest|e] eqn:Hl; simpl.
        -- split; [by destruct (json_Encode _)|]. split; [done|].
           intros latest' [= <-]. unfold Block_ID. by destruct (json_Encode _).
        -- split; [done|]. split; [done|]. done.
Qed.

End Theorems.

(** ** The theorems on the concrete chain *)
Import Scenario.

Lemma lifecycle_p2 : lifecycle genesis p2.
Proof.
  unfold p2. apply lifecycle_add; [apply lifecycle_add; [apply lifecycle_new|..]|..];
    reflexivity.
Defined.

Lemma lifecycle_p2a : lifecycle genesis p2a.
Proof. unfold p2a. apply lifecycle_exec, lifecycle_p2. Defined.

Lemma lifecycle_p2b : lifecycle genesis p2b.
Proof. unfold p2b. apply lifecycle_exec, lifecycle_p2a. Defined.

Lemma lifecycle_p3 : lifecycle genesis p3.
Proof.
  unfold p3.
  apply lifecycle_add;
    [apply lifecycle_add; [apply lifecycle_add; [apply lifecycle_new|..]|..]|..];
    reflexivity.
Defined.

(** C1, on the chain: two admitted transactions and none, one, both of
    them executed. *)
Lemma CommitBlock_lifecycle_witness :
  (CommitBlock (holding p2)).1 = Err (PendingBlockCommitBeforeExecutionError 101%N)
  ∧ (CommitBlock (holding p2a)).1 = Err (PendingBlockMidExecutionError 101%N)
  ∧ (CommitBlock (holding p2b)).1 = Ok (PendingBlock.Block p2b)
  ∧ flowgo.Height (flowgo.BHeader (PendingBlock.Block p2b)) = 0 + 1
  ∧ PendingBlock.Empty (pendingBlock_ (CommitBlock (holding p2b)).2) = true.
Proof.
  split; [|split].
  - destruct (CommitBlock_lifecycle (holding p2) genesis lifecycle_p2) as (H1 & _ & _).
    + vm_compute. lia.
    + apply (H1 eq_refl).
  - destruct (CommitBlock_lifecycle (holding p2a) genesis lifecycle_p2a) as (_ & H2 & _).
    + vm_compute. lia.
    + apply H2. vm_compute. lia.
  - destruct (CommitBlock_lifecycle (holding p2b) genesis lifecycle_p2b) as (_ & _ & H3).
    + vm_compute. lia.
    + destruct (H3 eq_refl) as (Hok & _ & _).
      edestruct Hok as (Hr & Hh & _ & _ & _ & He & _).
      * vm_compute. reflexivity.
      * vm_compute. reflexivity.
      * split; [exact Hr|]. split; [exact Hh|exact He].
Defined.

(** C1, the claim as stated fails: both admitted transactions have been
    executed, the store refuses the commit, and [CommitBlock] returns the
    store's error and keeps the pending block. *)
Lemma CommitBlock_fails_when_store_fails :
  let b := failing (storage.Failure "disk full") (holding p2b) in
  PendingBlock.Size (pendingBlock_ b) = 2%nat
  ∧ index (pendingBlock_ b) = 2%nat
  ∧ (CommitBlock b).1 = Err (BackendError (storage.Failure "disk full"))
  ∧ pendingBlock_ (CommitBlock b).2 = pendingBlock_ b.
Proof. vm_compute. repeat split; reflexivity. Qed.

(** C8, on the chain: the open, empty pending block on genesis. *)
Lemma CommitBlock_empty_witness :
  (CommitBlock (holding p0)).1 = Ok (PendingBlock.Block p0)
  ∧ flowgo.Guarantees (flowgo.BPayload (PendingBlock.Block p0)) = []
  ∧ flowgo.Height (flowgo.BHeader (PendingBlock.Block p0)) = 0 + 1
  ∧ head (ms_blocks (storage_ (CommitBlock (holding p0)).2))
    = Some (PendingBlock.Block p0).
Proof.
  destruct (CommitBlock_empty (holding p0) genesis) as (_ & _ & Hg & Hh & Hok & _).
  - apply lifecycle_new.
  - reflexivity.
  - edestruct Hok as (Hr & Hs & _).
    + vm_compute. reflexivity.
    + split; [exact Hr|]. split; [exact Hg|]. split; [exact Hh|].
      rewrite Hs. reflexivity.
Defined.

(** C8, the claim as stated fails: the pending block is empty, the store
    refuses the commit, and nothing is committed. *)
Lemma CommitBlock_empty_fails_when_store_fails :
  let b := failing (storage.Failure "disk full") (holding p0) in
  PendingBlock.Empty (pendingBlock_ b) = true
  ∧ (CommitBlock b).1 = Err (BackendError (storage.Failure "disk full"))
  ∧ ms_blocks (storage_ (CommitBlock b).2) = [genesis].
Proof. vm_compute. repeat split; reflexivity. Qed.

(** C3, on the chain: a queue of three whose second transaction meets a
    fatal fault of the machine: the first result is returned with the
    error, and the third transaction is not run. And a queue of one
    transaction whose signature names a key that the account does not
    have: [ExecuteBlock] panics, in [debugSignatureError]. *)
Lemma ExecuteBlock_in_order_witness :
  ((ExecuteBlock (holding p3)).1
   = Some (executeInOrder (holding p3)
             (fvm.NewContextFromParent (vmCtx (holding p3))
                (flowgo.BHeader (PendingBlock.Block p3)))
             (tx "deposit" 0 :: tx "fatal" 1 :: tx "deposit" 2 :: [])
             0 (ledgerView p3))
   ∧ ∃ results,
       (ExecuteBlock (holding p3)).1
       = Some (Returned (results, Some (FlowError ledgerFailure)))
       ∧ types.TransactionID <$> results = [7000%N]
       ∧ (length results < 3)%nat)
  ∧ ((ExecuteBlock (holding pWrongKey)).1 = Some Panicked
     ∧ ∃ e t, (debugSignatureError e t (holding pWrongKey)).1 = Panicked).
Proof.
  split.
  - destruct (ExecuteBlock_in_order (holding p3) genesis lifecycle_p3)
      as (_ & _ & H3).
    destruct H3 as (Hwalk & _ & Herr & _); [reflexivity|reflexivity|].
    split; [exact Hwalk|].
    eexists. split; [vm_compute; reflexivity|]. split; [reflexivity|].
    eapply Herr. vm_compute. reflexivity.
  - destruct (ExecuteBlock_in_order (holding pWrongKey) genesis) as (_ & _ & H3).
    + apply lifecycle_add; [apply lifecycle_new|reflexivity|reflexivity].
    + destruct H3 as (_ & _ & _ & Hpanic); [reflexivity|reflexivity|].
      split; [vm_compute; reflexivity|]. apply Hpanic. vm_compute. reflexivity.
Defined.

(** C3, a queue that is run to its end: the transaction that reverts has
    its result, with the debug value, after the one that succeeds, and the
    view holds what the first one wrote. *)
Example ExecuteBlock_on_chain :
  let r := ExecuteBlock (holding p2) in
  (∃ results,
     r.1 = Some (Returned (results, None))
     ∧ types.TransactionID <$> results = [7000%N; 6001%N]
     ∧ types.Error <$> results = [None; Some (FlowError revertError)]
     ∧ types.Debug <$> results
       = [None; Some {| types.DebugMessage := "invalid signature" |}])
  ∧ viewGet (ledgerView (pendingBlock_ r.2)) 1%N = Some 101%N.
Proof. vm_compute. split; [eexists|]; repeat split; reflexivity. Qed.

(** C3, the code against the claim. The one queued transaction is
    reverted by the machine with the error of an invalid envelope
    signature, and its signature names key 5 of an account that has one
    key: [ExecuteBlock] does not return, it panics in
    [testAlternativeHashAlgo], the transaction recorded in the pending
    block and the cursor moved. It panics as well when the machine fails
    to read the signer's account, for [GetAccount] then returns a nil
    account and a nil error. With a signature by key 0 under the wrong
    hashing algorithm it returns the result, with the debug value. *)
Example ExecuteBlock_panics_on_signature_error :
  (AddTransaction wrongKey chain0).1 = None
  ∧ pendingBlock_ (AddTransaction wrongKey chain0).2 = pWrongKey
  ∧ (ExecuteBlock (holding pWrongKey)).1 = Some Panicked
  ∧ index (pendingBlock_ (ExecuteBlock (holding pWrongKey)).2) = 1%nat
  ∧ (GetAccount 999%N (holding pUnreadableSigner)).1 = Ok None
  ∧ (ExecuteBlock (holding pUnreadableSigner)).1 = Some Panicked
  ∧ (∃ results,
       (ExecuteBlock (holding pWrongHash)).1 = Some (Returned (results, None))
       ∧ types.Debug <$> results
         = [Some {| types.DebugMessage := "invalid hashing algorithm" |}]).
Proof. vm_compute. repeat split. eexists. split; reflexivity. Qed.

(** C2, the claim as stated fails: the pending block has not started its
    execution, the transaction is neither in it nor stored, and it is
    valid; the store fails during the duplicate check, and [AddTransaction]
    returns that failure and appends nothing. *)
Lemma AddTransaction_fails_when_store_fails :
  let b := failing (storage.Failure "disk full") chain0 in
  let t := tx "deposit" 0 in
  PendingBlock.ExecutionStarted (pendingBlock_ b) = false
  ∧ PendingBlock.ContainsTransaction (pendingBlock_ b) (TransactionBody_ID t) = false
  ∧ ms_transactions (storage_ b) !! TransactionBody_ID t = None
  ∧ Validate b t = None
  ∧ (AddTransaction t b).1
    = Some (Errorf "failed to check storage for transaction"
              (Some (storage.Failure "disk full")))
  ∧ transactions (pendingBlock_ (AddTransaction t b).2) = [].
Proof. vm_compute. repeat split; reflexivity. Qed.

(** C4, on the chain (the scenario of TestCommitBlock): the second of two
    transactions reverts; the step advances the cursor to 2, records the
    procedure with the error and returns a result, not an error; the block
    commits; and the stored result of the reverted transaction is sealed
    with the error message. *)
Lemma reverted_transaction_is_sealed_witness :
  let step := executeNextTransaction ctx1 (holding p2a) in
  let b1 := step.2 in
  let b2 := (CommitBlock b1).2 in
  index (pendingBlock_ b1) = 2%nat
  ∧ (∃ itr, transactionResults (pendingBlock_ b1) !! 6001%N = Some itr
            ∧ fvm.Err (Transaction itr) = Some revertError)
  ∧ (∀ e, step.1 ≠ Returned (Err e))
  ∧ (CommitBlock b1).1 = Ok (PendingBlock.Block (pendingBlock_ b1))
  ∧ (GetTransactionResult 6001%N b2).1
    = Ok {| access.Status := flowgo.TransactionStatusSealed;
            access.StatusCode := 1101;
            access.ErrorMessage := "panic: revert!";
            access.Events := [];
            access.TransactionID := 6001%N;
            access.BlockHeight := 0 |}.
Proof.
  intros step b1 b2.
  edestruct (reverted_transaction_is_sealed (holding p2a) genesis ctx1 (tx "revert" 1))
    as (Hi & Hr & Hl & Hok & _ & Hc).
  - apply lifecycle_p2a.
  - reflexivity.
  - vm_compute. reflexivity.
  - split; [exact Hi|]. split; [eexists; split; [exact Hr|reflexivity]|].
    split; [eapply Hok; vm_compute; reflexivity|].
    destruct (Hc b1 Hl) as (_ & Hseal & _).
    + reflexivity.
    + exact Hr.
    + edestruct Hseal as (Hcommit & _).
      * vm_compute. reflexivity.
      * vm_compute. reflexivity.
      * split; [exact Hcommit|vm_compute; reflexivity].
Defined.

(** C4, the claim as stated fails: both transactions have been executed,
    the second one reverted and recorded; the store refuses the commit, so
    the block does not commit: [CommitBlock] returns the store's error,
    nothing is stored, and the reverted transaction is still reported
    Pending. *)
Lemma reverted_transaction_not_sealed_when_store_fails :
  let b := failing (storage.Failure "disk full") (holding p2b) in
  index (pendingBlock_ b) = 2%nat
  ∧ (fvm.Err ∘ Transaction <$> transactionResults (pendingBlock_ b) !! 6001%N)
    = Some (Some revertError)
  ∧ (CommitBlock b).1 = Err (BackendError (storage.Failure "disk full"))
  ∧ ms_blocks (storage_ (CommitBlock b).2) = [genesis]
  ∧ ms_results (storage_ (CommitBlock b).2) !! 6001%N = None
  ∧ (GetTransactionResult 6001%N (CommitBlock b).2).1
    = Ok (access.withStatus flowgo.TransactionStatusPending).
Proof. vm_compute. repeat split; reflexivity. Qed.

(** C5, on the chain after the block of [p2b] has been committed on
    genesis (latest height 1): a start height above the clamped end, and a
    query over the whole chain. *)
Lemma GetEventsForHeightRange_clamps_witness :
  let b := (CommitBlock (holding p2b)).2 in
  (GetEventsForHeightRange "Deposit" 5 0 b).1
  = Some (Err (InvalidArgumentError "startHeight > endHeight"))
  ∧ (GetEventsForHeightRange "Deposit" 5 9 b).1
    = Some (Err (InvalidArgumentError "startHeight > endHeight"))
  ∧ (∃ results, (GetEventsForHeightRange "Deposit" 0 9 b).1 = Some (Ok results)
                ∧ flowgo.BlockHeight <$> results = [0; 1]).
Proof.
  intros b. split; [|split].
  - destruct (GetEventsForHeightRange_clamps b "Deposit" 5 0) as (_ & _ & _ & Hm); [lia|].
    edestruct (Hm eq_refl) as (H2 & _).
    + vm_compute. reflexivity.
    + vm_compute. reflexivity.
    + apply H2. vm_compute. reflexivity.
  - destruct (GetEventsForHeightRange_clamps b "Deposit" 5 9) as (_ & _ & _ & Hm); [lia|].
    edestruct (Hm eq_refl) as (H2 & _).
    + vm_compute. reflexivity.
    + vm_compute. reflexivity.
    + apply H2. vm_compute. reflexivity.
  - destruct (GetEventsForHeightRange_clamps b "Deposit" 0 9) as (_ & _ & _ & Hm); [lia|].
    edestruct (Hm eq_refl) as (_ & H3).
    + vm_compute. reflexivity.
    + vm_compute. reflexivity.
    + destruct H3 as (_ & _ & H3 & _); [vm_compute; discriminate|].
      destruct H3 as [results Hres].
      * intros h Hh. change (0 ≤ h ≤ 1) in Hh. assert (h = 0 ∨ h = 1) as [-> | ->] by lia;
          split; reflexivity.
      * exists results. split; [exact Hres|].
        vm_compute in Hres. injection Hres as <-. reflexivity.
Defined.

(** C5, the claim as stated fails: the latest height is 1 and the range
    from 0 to 1 is in order; the store answers every lookup of the range,
    and the query for the type Deposit returns its two entries; with a
    blank event type the same range is answered with an error and no
    results. *)
Lemma GetEventsForHeightRange_blank_event_type :
  let b := (CommitBlock (holding p2b)).2 in
  (∃ latest, storage.LatestBlock (storage_ b) = Ok latest
             ∧ flowgo.Height (flowgo.BHeader latest) = 1)
  ∧ (∃ results, (GetEventsForHeightRange "Deposit" 0 1 b).1 = Some (Ok results)
                ∧ length results = 2%nat)
  ∧ Forall (λ h, is_Ok (storage.BlockByHeight (storage_ b) h) = true
                 ∧ is_Ok (storage.EventsByHeight (storage_ b) h "  ") = true) [0; 1]
  ∧ (∃ e, (GetEventsForHeightRange "  " 0 1 b).1 = Some (Err e))
  ∧ (∃ e, (GetEventsForHeightRange "" 0 0 b).1 = Some (Err e)).
Proof.
  vm_compute. split; [eexists; split; reflexivity|].
  split; [eexists; split; reflexivity|].
  split; [repeat constructor|]. split; eexists; reflexivity.
Qed.


(** C9, on the chain: [AddTransaction] has put a transaction in the pending
    block, [ExecuteBlock] has run it, and the mutex has not been called. *)
Lemma AddTransaction_unlocked_on_chain :
  let b1 := (AddTransaction (tx "deposit" 0) chain0).2 in
  let b2 := (ExecuteBlock b1).2 in
  transactions (pendingBlock_ b1) = [tx "deposit" 0]
  ∧ index (pendingBlock_ b2) = 1%nat
  ∧ mu b2 = []
  ∧ mu (CommitBlock b2).2 = [Lock; Unlock].
Proof. vm_compute. repeat split; reflexivity. Qed.

(** C2, on the chain: a second submission of a pending transaction, a
    submission of a committed one, and a submission after a step. *)
Example AddTransaction_on_chain :
  let b1 := (AddTransaction (tx "deposit" 0) chain0).2 in
  let b2 := (CommitBlock (ExecuteBlock b1).2).2 in
  (AddTransaction (tx "deposit" 0) chain0).1 = None
  ∧ PendingBlock.transactionIDs (pendingBlock_ b1) = [7000%N]
  ∧ (AddTransaction (tx "deposit" 0) b1).1 = Some (DuplicateTransactionError 7000%N)
  ∧ (AddTransaction (tx "deposit" 0) b2).1 = Some (DuplicateTransactionError 7000%N)
  ∧ (AddTransaction (tx "deposit" 5) (holding p2a)).1
    = Some (PendingBlockMidExecutionError 101%N)
  ∧ (AddTransaction (tx "deposit" 5) b1).1 = None.
Proof. vm_compute. repeat split; reflexivity. Qed.

(** C10, on the chain: the result of a transaction while it is pending,
    of an ID the chain has never seen, and on a store that fails. *)
Example GetTransactionResult_on_chain :
  access.Status <$> (GetTransactionResult 6001%N (holding p2)).1
  = Ok flowgo.TransactionStatusPending
  ∧ (GetTransactionResult 42%N (holding p2)).1
    = Ok (access.withStatus flowgo.TransactionStatusUnknown)
  ∧ (GetTransactionResult 42%N (failing (storage.Failure "disk full") (holding p2))).1
    = Err (StorageError (storage.Failure "disk full")).
Proof. vm_compute. repeat split; reflexivity. Qed.

(** C7, on the chain: the script writes register 0 of the view it is
    given; the view of the height read from the store afterwards has no
    such register, and the second run returns what the first did. *)
Example ExecuteScript_on_chain :
  let b1 := (ExecuteScript "main" [] chain0).2 in
  types.Value <$> (ExecuteScript "main" [] chain0).1 = Ok (Some "main")
  ∧ viewGet (storage.LedgerViewByHeight (storage_ b1) 0) 0%N = None
  ∧ chainState b1 = chainState chain0
  ∧ mu b1 = [RLock; RUnlock]
  ∧ (ExecuteScript "main" [] b1).1 = (ExecuteScript "main" [] chain0).1.
Proof. vm_compute. repeat split; reflexivity. Qed.

(** An error of the virtual machine that is not account-not-found: the
    account lookup returns no account and no error. *)
Example GetAccountAtBlockHeight_other_error :
  (fvm.GetAccount (vmCtx chain0) 999%N (storage.LedgerViewByHeight (storage_ chain0) 0)).2
  = Some ledgerFailure
  ∧ (GetAccountAtBlockHeight 999%N 0 chain0).1 = Ok None
  ∧ (GetAccountAtBlockHeight 5%N 0 chain0).1 = Err (AccountNotFoundError 5%N).
Proof. vm_compute. repeat split; reflexivity. Qed.

(** ** The further properties on the concrete chain *)
Import Submissions.


(** X2, on the chain: the second of three transactions meets a fatal
    fault; the result of the first is dropped, nothing is committed, and
    the block is left in the middle of its execution. *)
Example executeAndCommitBlock_on_fatal_fault :
  let r := executeAndCommitBlock (holding p3) in
  (∃ results, (ExecuteBlock (holding p3)).1
               = Some (Returned (results, Some (FlowError ledgerFailure)))
               ∧ length results = 1%nat)
  ∧ r.1 = Some (Returned (None, None, Some (FlowError ledgerFailure)))
  ∧ storage_ r.2 = genesisStore None
  ∧ index (pendingBlock_ r.2) = 1%nat
  ∧ (AddTransaction (tx "deposit" 5) r.2).1 = Some (PendingBlockMidExecutionError 101%N).
Proof. vm_compute. split; [eexists; split; reflexivity|]. repeat split; reflexivity. Qed.

(** X3, on the chain: one of two transactions had been executed; the call
    runs the other one, which reverts, returns its result alone, and
    commits the block of both. *)
Lemma executeAndCommitBlock_completes_witness :
  ∃ results,
    (ExecuteBlock (holding p2a)).1 = Some (Returned (results, None))
    ∧ length results = 1%nat
    ∧ (executeAndCommitBlock (holding p2a)).1
      = Some (Returned (Some (PendingBlock.Block p2a), Some results, None)).
Proof.
  edestruct (executeAndCommitBlock_completes (holding p2a) genesis)
    as (Hlen & _ & Hcommit).
  - apply lifecycle_p2a.
  - vm_compute. reflexivity.
  - eexists. split; [reflexivity|]. split; [exact Hlen|].
    edestruct Hcommit as (_ & Hout).
    + vm_compute. reflexivity.
    + simpl in Hout. destruct Hout as (Hr & _). exact Hr.
Defined.

(** X4, on the chain: a reset in the middle of the execution of a block. *)
Example ResetPendingBlock_mid_execution :
  let b := (ResetPendingBlock (holding p2a)).2 in
  index p2a = 1%nat
  ∧ (ResetPendingBlock (holding p2a)).1 = None
  ∧ (GetTransactionResult 7000%N (holding p2a)).1
    = Ok (access.withStatus flowgo.TransactionStatusPending)
  ∧ (GetTransactionResult 7000%N b).1
    = Ok (access.withStatus flowgo.TransactionStatusUnknown)
  ∧ (AddTransaction (tx "deposit" 0) b).1 = None
  ∧ (ResetPendingBlock (failing (storage.Failure "disk full") (holding p2a))).1
    = Some (StorageError (storage.Failure "disk full")).
Proof. vm_compute. repeat split; reflexivity. Qed.

(** X5, on the chain: the block of two transactions is committed, and an
    empty block right after it. *)
Lemma CommitBlock_opens_next_witness :
  let b1 := (CommitBlock (holding p2b)).2 in
  flowgo.Height (flowgo.BHeader (PendingBlock.Block (pendingBlock_ b1))) = 1 + 1
  ∧ (CommitBlock b1).1 = Ok (PendingBlock.Block (pendingBlock_ b1)).
Proof.
  destruct (CommitBlock_opens_next (holding p2b) (PendingBlock.Block p2b))
    as (_ & Hh & _ & _ & _ & Hnext).
  - vm_compute. reflexivity.
  - split; [exact Hh|exact Hnext].
Defined.

(** X6, on the chain: submissions that are refused, with auto-mine on. *)
Example SendTransaction_refused_on_chain :
  let duplicate := SendTransaction (tx "deposit" 0) mined in
  let midway := SendTransaction (tx "deposit" 9) (holding p2a) in
  duplicate
  = (Some (Returned (Some (InvalidArgumentError "transaction has already been submitted"))),
     mined)
  ∧ autoMine mined = true
  ∧ midway.1
    = Some (Returned (Some (InternalError "pending block is currently being executed"))).
Proof. vm_compute. repeat split; reflexivity. Qed.

(** X7, on the chain: with auto-mine on, a transaction that reverts is
    mined in a block of its own and [SendTransaction] returns no error. *)
Lemma SendTransaction_auto_mine_witness :
  let r := SendTransaction (tx "revert" 0) autoMining in
  r.1 = Some (Returned None)
  ∧ flowgo.Height <$> (flowgo.BHeader <$> storage.LatestBlock (storage_ r.2)) = Ok 1
  ∧ storage.ErrorMessage <$> storage.TransactionResultByID (storage_ r.2) 6000%N
    = Ok "panic: revert!".
Proof.
  destruct (SendTransaction_auto_mine autoMining genesis (tx "revert" 0))
    as (_ & _ & _ & Hmine).
  - apply lifecycle_new.
  - reflexivity.
  - vm_compute. reflexivity.
  - specialize (Hmine eq_refl).
    destruct (executeNextTransaction _ _) as [[[tr|e]|] b2] eqn:Hstep in Hmine;
      [|vm_compute in Hstep; discriminate|vm_compute in Hstep; discriminate].
    destruct Hmine as (_ & Hmine). edestruct Hmine as (Hr & _ & _).
    + vm_compute in Hstep. injection Hstep as _ <-. vm_compute. reflexivity.
    + split; [|vm_compute; split; reflexivity].
      rewrite Hr. vm_compute in Hstep. injection Hstep as _ <-. reflexivity.
Defined.

(** X7, on the chain, with auto-mine on: a fatal fault of the machine is
    returned as it is and the transaction stays queued; and a transaction
    whose signature names a key that the account does not have makes
    [SendTransaction] panic, with the transaction left in the pending
    block, executed and not committed. *)
Example SendTransaction_auto_mine_on_chain :
  let fatal := SendTransaction (tx "fatal" 0) autoMining in
  let panic := SendTransaction wrongKey autoMining in
  fatal.1 = Some (Returned (Some (FlowError ledgerFailure)))
  ∧ transactions (pendingBlock_ fatal.2) = [tx "fatal" 0]
  ∧ panic.1 = Some Panicked
  ∧ transactions (pendingBlock_ panic.2) = [wrongKey]
  ∧ index (pendingBlock_ panic.2) = 1%nat
  ∧ ms_blocks (storage_ panic.2) = [genesis].
Proof. vm_compute. repeat split; reflexivity. Qed.

(** X8, on the chain on which a block has been mined: the events of the
    mined block and of genesis, in the order asked for; an unknown ID. *)
Example GetEventsForBlockIDs_on_chain :
  fmap (M := list) flowgo.BlockHeight
    <$> (GetEventsForBlockIDs "Deposit" [101%N; 100%N] mined).1
  = Ok [1; 0]
  ∧ fmap (M := list) (λ entry, length (flowgo.Events entry))
      <$> (GetEventsForBlockIDs "Deposit" [101%N; 100%N] mined).1
    = Ok [1%nat; 0%nat]
  ∧ (GetEventsForBlockIDs "Deposit" [101%N; 55%N; 100%N] mined).1
    = Err (BlockNotFoundByIDError 55%N)
  ∧ (GetEventsForBlockIDs "Deposit" [] mined).1 = Ok []
  ∧ is_Ok (GetEventsForBlockIDs "  " [] mined).1 = false.
Proof. vm_compute. repeat split; reflexivity. Qed.

(** X9, on the same chain: the transactions of the mined block, and an
    unknown block. *)
Example GetTransactionsByBlockID_on_chain :
  (GetTransactionsByBlockID 101%N mined).1 = Ok [tx "deposit" 0]
  ∧ (GetTransactionsByBlockID 100%N mined).1 = Ok []
  ∧ (GetTransactionsByBlockID 55%N mined).1
    = Err (StatusError codes_NotFound "error")
  ∧ mu (GetTransactionsByBlockID 101%N mined).2
    = mu mined ++ [RLock; RUnlock; RLock; RUnlock].
Proof. vm_compute. repeat split; reflexivity. Qed.

(** X10, on the same chain: the result of the transaction of the mined
    block. *)
Lemma GetTransactionResultsByBlockID_statuses_witness :
  ∃ results,
    (GetTransactionResultsByBlockID 101%N mined).1 = Ok results
    ∧ length results = 1%nat.
Proof.
  edestruct (GetTransactionResultsByBlockID_statuses mined 101%N)
    with (cols := [ {| flowgo.Transactions := [7000%N] |} ])
    as (results & Hr & Hlen & _).
  - vm_compute. reflexivity.
  - repeat constructor.
  - intros tid se Hin _ Hse. apply list_elem_of_singleton in Hin. subst tid.
    vm_compute in Hse. discriminate.
  - exists results. split; [exact Hr|exact Hlen].
Defined.

(** X10, on a store that has lost the result of the mined transaction:
    the results query answers Unknown for it. *)
Example GetTransactionResultsByBlockID_on_chain :
  let s := storage_ mined in
  let lost :=
    {| storage_ :=
         {| ms_blocks := ms_blocks s; ms_collections := ms_collections s;
            ms_transactions := ms_transactions s; ms_results := ∅;
            ms_events := ms_events s; ms_ledgers := ms_ledgers s;
            ms_fault := None |};
       mu := []; pendingBlock_ := pendingBlock_ mined; vmCtx := vmCtx mined;
       autoMine := true |} in
  fmap (M := list) access.Status <$> (GetTransactionResultsByBlockID 101%N mined).1
  = Ok [flowgo.TransactionStatusSealed]
  ∧ fmap (M := list) access.Status <$> (GetTransactionResultsByBlockID 101%N lost).1
    = Ok [flowgo.TransactionStatusUnknown].
Proof. vm_compute. repeat split; reflexivity. Qed.

(** X11, on the same chain: the one result of the mined block is at index
    0; index 1 is out of range. *)
Lemma GetTransactionResultByIndex_bounds_witness :
  (GetTransactionResultByIndex 101%N 1 mined).1
  = Returned (Err (StatusError codes_NotFound "TransactionResult not found"))
  ∧ (GetTransactionResultByIndex 101%N 0 mined).1 ≠ Panicked.
Proof.
  split.
  - destruct (GetTransactionResultByIndex_bounds mined 101%N 1) as (_ & _ & _ & Hat).
    + lia.
    + edestruct Hat as [].
      * vm_compute. reflexivity.
      * vm_compute. reflexivity.
      * reflexivity.
  - destruct (GetTransactionResultByIndex_bounds mined 101%N 0) as (_ & Hno & _).
    + lia.
    + exact Hno.
Defined.

(** ** Configuration and start-up on the concrete platform *)
Import Boot.

(** X12, on the platform: simple addresses, then another chain ID. *)
Lemma GetChainID_simple_addresses_witness :
  GetChainID (applyOptions [WithSimpleAddresses; WithChainID "flow-testnet"] baseConfig)
  = flowgo_MonotonicEmulator
  ∧ GetChainID (applyOptions [WithChainID "flow-testnet"] baseConfig) = "flow-testnet".
Proof.
  split; [|reflexivity].
  destruct (GetChainID_simple_addresses
              [WithSimpleAddresses; WithChainID "flow-testnet"] baseConfig) as [Hs _].
  - repeat constructor.
  - destruct Hs as [Hs _]; [left; apply list_elem_of_here|exact Hs].
Defined.

(** X13, on the platform: a private key, then a public key, then an
    option that is not about the key: no private key is left. *)
Lemma service_key_last_option_wins_witness :
  let conf :=
    applyOptions
      [ WithServicePrivateKey 5%N sdkcrypto.ECDSA_P256 sdkcrypto.SHA3_256;
        WithServicePublicKey (Some 77%N) sdkcrypto.ECDSA_P256 sdkcrypto.SHA3_256;
        WithScriptGasLimit 5 ] baseConfig in
  SKPrivateKey (GetServiceKey conf) = None
  ∧ AKPublicKey (ServiceKey_AccountKey (GetServiceKey conf)) = Some 77%N
  ∧ AKWeight (ServiceKey_AccountKey (GetServiceKey conf)) = 1000.
Proof.
  destruct (service_key_last_option_wins
              [WithServicePrivateKey 5%N sdkcrypto.ECDSA_P256 sdkcrypto.SHA3_256]
              [WithScriptGasLimit 5] baseConfig sdkcrypto.ECDSA_P256 sdkcrypto.SHA3_256)
    as [Hpub _].
  - repeat constructor.
  - intros o Hin. apply list_elem_of_singleton in Hin. subst o.
    intros [(pk & sa & ha & Heq)|(k & sa & ha & Heq)];
      apply (f_equal (λ f, ScriptGasLimit (f baseConfig))) in Heq; discriminate.
  - destruct (Hpub (Some 77%N)) as [Hkey Hacc]. intros conf.
    split; [exact (f_equal SKPrivateKey Hkey)|].
    split; [exact (f_equal AKPublicKey Hacc)|exact (f_equal AKWeight Hacc)].
Defined.

(** X14, on the platform: an empty store is bootstrapped and genesis
    committed; a store with a block is left alone; a failing store stops
    the start. *)
Example configureLedger_on_platform :
  let ctx := configureFVM baseConfig in
  (∃ store', configureLedger baseConfig emptyStore ctx
             = Returned (store', Ok (genesis, storage.LedgerViewByHeight store' 0))
             ∧ ms_blocks store' = [genesis]
             ∧ viewGet (storage.LedgerViewByHeight store' 0) 8%N = Some 1000%N)
  ∧ configureLedger baseConfig (genesisStore None) ctx
    = Returned (genesisStore None,
                Ok (genesis, storage.LedgerViewByHeight (genesisStore None) 0))
  ∧ configureLedger baseConfig (genesisStore (Some (storage.Failure "disk full"))) ctx
    = Returned (genesisStore (Some (storage.Failure "disk full")),
                Err (StoreError (storage.Failure "disk full"))).
Proof.
  split.
  - exists (storage.CommitBlock emptyStore genesis [] ∅ ∅ {[ 8%N := 1000%N ]} []).1.
    vm_compute. repeat split; reflexivity.
  - vm_compute. split; reflexivity.
Qed.

(** X15, on the platform: started on the store that holds genesis. *)
Lemma NewBlockchain_started_witness :
  ∃ started,
    NewBlockchain [WithStore (Some (genesisStore None))] = Returned (Ok started)
    ∧ autoMine (blockchain started) = false
    ∧ storage_ (blockchain started) = genesisStore None
    ∧ height (pendingBlock_ (blockchain started)) = 0 + 1.
Proof.
  edestruct (NewBlockchain_started [WithStore (Some (genesisStore None))])
    as (Hauto & _ & _ & _ & _ & _ & _ & _ & _ & Hstore).
  - reflexivity.
  - vm_compute. reflexivity.
  - eexists. split; [reflexivity|]. split; [exact Hauto|].
    destruct (Hstore (genesisStore None) genesis) as (Hs & _ & Hh);
      [reflexivity|reflexivity|].
    split; [exact Hs|exact Hh].
Defined.

(** X16, on the chain: the results of the block of two transactions, the
    second one reverted. *)
Example convertToSealedResults_on_chain :
  storage.ErrorMessage <$> (default ∅ (match convertToSealedResults (transactionResults p2b)
                                        with Ok sealed => Some sealed | Err _ => None end))
  = {[ 7000%N := ""; 6001%N := "panic: revert!" ]}.
Proof. vm_compute. reflexivity. Qed.

(** X17: event types that are accepted and rejected. *)
Example validateEventType_examples :
  validateEventType "A.0000000000000001.Token.Deposit" = None
  ∧ validateEventType "  x  " = None
  ∧ is_Some (validateEventType "") ∧ is_Some (validateEventType "   ").
Proof. vm_compute. repeat split; by eexists. Qed.

(** X18, on a 64-bit platform: a rewind, steps and a seek. *)
Lemma badger_iterator_never_valid_witness :
  let it :=
    badger.moves 64
      [badger.CallRewind; badger.CallNext; badger.CallSeek [1%N]; badger.CallNext]
      (badger.NewIterator {| badger.Prefix := [7%N] |}) in
  badger.Valid it = false ∧ badger.index it = 1.
Proof.
  split; [|reflexivity].
  destruct (badger_iterator_never_valid 64 {| badger.Prefix := [7%N] |}
              [badger.CallRewind; badger.CallNext; badger.CallSeek [1%N];
               badger.CallNext]) as (Hvalid & _).
  - lia.
  - vm_compute. reflexivity.
  - exact Hvalid.
Defined.

(** X19, on the chain on which a block has been mined: the range from
    height 1 to height 1 and the query for the ID of the mined block. *)
Lemma event_queries_agree_witness :
  (GetEventsForHeightRange "Deposit" 1 1 mined).1
  = Some (GetEventsForBlockIDs "Deposit" [101%N] mined).1
  ∧ length <$> (GetEventsForBlockIDs "Deposit" [101%N] mined).1 = Ok 1%nat.
Proof.
  split; [|vm_compute; reflexivity].
  pose proof (event_queries_agree mined "Deposit" 1 [minedBlock] minedBlock) as Hagree.
  simpl in Hagree.
  change (GetEventsForBlockIDs "Deposit" [101%N] mined)
    with (GetEventsForBlockIDs "Deposit" [Block_ID minedBlock] mined).
  apply Hagree.
  - vm_compute. reflexivity.
  - lia.
  - discriminate.
  - vm_compute. discriminate.
  - vm_compute. reflexivity.
  - constructor; [|constructor]. repeat split; vm_compute; reflexivity.
Defined.

(** X19: height 0 is outside the agreement, an end height of 0 stands for
    the latest height: the range from 0 to 0 covers the whole chain. *)
Example GetEventsForHeightRange_from_zero :
  fmap (M := result error) length <$> (GetEventsForHeightRange "Deposit" 0 0 mined).1
  = Some (Ok 2%nat)
  ∧ length <$> (GetEventsForBlockIDs "Deposit" [100%N] mined).1 = Ok 1%nat.
Proof. vm_compute. split; reflexivity. Qed.

(** ** The HTTP API on the concrete chain *)
Import Server.

(** X20, on the chain: a new block on the fresh chain; a refusal while
    two transactions wait for their execution. *)
Example newBlock_handler_on_chain :
  (api.CommitBlock (serving chain0)).1
  = {| contentType := "application/json"; statusCode := None;
       body := Some (BlockBody {| RHeight := 1; RBlockId := 101%N; RContext := "" |}) |}
  ∧ length (ms_blocks (storage_ (emulator (api.CommitBlock (serving chain0)).2))) = 2%nat
  ∧ (api.CommitBlock (serving (holding p2))).1 = api.failed 500
  ∧ (api.CommitBlock (serving (holding p2a))).1 = api.failed 500
  ∧ is_Some (body (api.CommitBlock (serving (holding p2b))).1).
Proof. vm_compute. repeat split; try reflexivity. by eexists. Qed.

(** X21, on the chain: the snapshot base exists, the snapshot other does
    not; a jump while two transactions wait leaves a blockchain with an
    empty pending block. *)
Example snapshot_names_on_chain :
  (api.SnapshotCreate "base" (serving chain0)).1 = api.failed 409
  ∧ (api.SnapshotJump "other" (serving chain0)).1 = api.failed 404
  ∧ statusCode (api.SnapshotJump "base" (serving chain0)).1 = Some 200
  ∧ body (api.SnapshotCreate "other" (serving chain0)).1
    = Some (BlockBody {| RHeight := 0; RBlockId := 100%N; RContext := "other" |})
  ∧ transactions
      (pendingBlock_ (emulator (api.SnapshotJump "base" (serving (holding p2))).2)) = []
  ∧ (api.SnapshotCreate "" (serving chain0)).1 = api.failed 500.
Proof. vm_compute. repeat split; reflexivity. Qed.

(** X22, on the chain on which a block has been mined: a script at
    height 1 and at the ID of the mined block, with a transaction waiting
    in the pending block. *)
Lemma scripts_agree_witness :
  let waiting := (AddTransaction (tx "deposit" 5) (DisableAutoMine mined).2).2 in
  PendingBlock.Size (pendingBlock_ waiting) = 1%nat
  ∧ (ExecuteScriptAtBlockHeight "main" [] 1 waiting).1
    = (ExecuteScriptAtBlockID "main" [] (Block_ID minedBlock) waiting).1
  ∧ (ExecuteScript "main" [] waiting).1 = (ExecuteScript "main" [] mined).1.
Proof.
  intros waiting. split; [reflexivity|].
  destruct (scripts_agree mined "main" [] 1 minedBlock) as (_ & _ & _ & Hsame).
  - repeat split; vm_compute; reflexivity.
  - destruct (Hsame waiting) as (Hh & Hid & Hlatest); [reflexivity|reflexivity|].
    destruct (scripts_agree waiting "main" [] 1 minedBlock) as (Hagree & _).
    + repeat split; vm_compute; reflexivity.
    + split; [exact Hagree|exact Hlatest].
Defined.
